(** * Zillow FSBO scraper: a shallow embedding of [zillow_scrape.py]

    The development follows the source file top to bottom:
    - [PyStr]: the few [str] methods the scraper calls;
    - [Re]: the fragment of Python's [re] the four patterns of the scraper
      need, as a backtracking matcher that lists matches in priority order;
    - the exception classes, the browser and the parsed page as the scraper
      observes them through Selenium and BeautifulSoup;
    - [ZillowFSBOScraper]: the methods of the class, in a state and
      exception monad;
    - the properties of the harvesting pipeline.

    Strings are sequences of code points below 256; text outside Latin-1 is
    outside the model. *)

From Stdlib Require Import ZArith QArith Lia Lqa Bool List Ascii String.
From Stdlib Require Import PrimFloat.
From stdpp Require Import base option list gmap strings fin_maps.

Import ListNotations.
Local Open Scope string_scope.

(* [simpl] may unfold an append whose first argument starts with a
   constructor. *)
#[local] Arguments String.append !_ _ / : simpl nomatch.
Local Open Scope Z_scope.

(** ** Python strings *)

Module PyStr.

Definition code (c : ascii) : N := N_of_ascii c.

(** [str.isspace] on one code point, which is also what [\s] matches in a
    [str] pattern: TAB..CR, FS..US, SPACE, NEL and NBSP. *)
Definition is_space (c : ascii) : bool :=
  let n := code c in
  ((9 <=? n) && (n <=? 13) || (28 <=? n) && (n <=? 32)
   || (n =? 133) || (n =? 160))%N.

(** What [\d] matches in a [str] pattern below 256: the ten decimal digits. *)
Definition is_digit (c : ascii) : bool :=
  let n := code c in ((48 <=? n) && (n <=? 57))%N.

Definition is_comma (c : ascii) : bool := (code c =? 44)%N.

(** Simple case folding below 256, as [re.IGNORECASE] compares characters. *)
Definition lower (c : ascii) : ascii :=
  let n := code c in
  if ((65 <=? n) && (n <=? 90))%N then ascii_of_N (n + 32)
  else if ((192 <=? n) && (n <=? 222) && negb (n =? 215))%N
       then ascii_of_N (n + 32)
       else c.

Fixpoint lstrip (s : string) : string :=
  match s with
  | String c s' => if is_space c then lstrip s' else s
  | EmptyString => EmptyString
  end.

Fixpoint rstrip (s : string) : string :=
  match s with
  | EmptyString => EmptyString
  | String c s' =>
      match rstrip s' with
      | EmptyString => if is_space c then EmptyString else String c EmptyString
      | r => String c r
      end
  end.

(** [s.strip()] *)
Definition strip (s : string) : string := rstrip (lstrip s).

(** [s.replace(old, new)] for a one-character [old]. *)
Fixpoint replace (old : ascii) (new : string) (s : string) : string :=
  match s with
  | EmptyString => EmptyString
  | String c s' =>
      if Ascii.eqb c old then new ++ replace old new s'
      else String c (replace old new s')
  end.

(** [s.startswith(p)] *)
Definition startswith (p s : string) : bool := String.prefix p s.

(** [sub in s] *)
Fixpoint contains (sub s : string) : bool :=
  String.prefix sub s
  || match s with
     | String _ s' => contains sub s'
     | EmptyString => false
     end.

Fixpoint all (p : ascii -> bool) (s : string) : bool :=
  match s with
  | EmptyString => true
  | String c s' => p c && all p s'
  end.

Fixpoint filter (p : ascii -> bool) (s : string) : string :=
  match s with
  | EmptyString => EmptyString
  | String c s' => if p c then String c (filter p s') else filter p s'
  end.

End PyStr.

(** ** Regular expressions

    The scraper uses four patterns: a case-insensitive literal, and three
    patterns built from literals, greedy repetitions of a character class,
    a greedy optional group and one capturing group.  [matches_at] lists the
    ways a pattern matches at the start of a string in the order Python's
    backtracking matcher tries them, so that its head is the match that
    [re] reports; [search] scans the start positions from the left. *)

Module Re.

Inductive regex : Type :=
| Lit (l : string)                (* literal text *)
| Plus (cls : ascii -> bool)      (* [c+] over a character class, greedy *)
| Star (cls : ascii -> bool)      (* [c*] over a character class, greedy *)
| Opt (r : regex)                 (* [(?:r)?], greedy *)
| Cat (r1 r2 : regex)
| Group (r : regex).              (* the capturing group, number 1 *)

Record pattern := Compile { re_body : regex; re_ignorecase : bool }.

Definition char_eq (ic : bool) (p c : ascii) : bool :=
  if ic then Ascii.eqb (PyStr.lower p) (PyStr.lower c) else Ascii.eqb p c.

(** The rest of [s] after the literal [l], if [s] starts with it. *)
Fixpoint eat (ic : bool) (l s : string) : option string :=
  match l, s with
  | EmptyString, _ => Some s
  | String p l', String c s' => if char_eq ic p c then eat ic l' s' else None
  | String _ _, EmptyString => None
  end.

(** The rests of [s] after one or more characters of the class, the longest
    run first. *)
Fixpoint many1 (cls : ascii -> bool) (s : string) : list string :=
  match s with
  | String c s' => if cls c then many1 cls s' ++ [s'] else []
  | EmptyString => []
  end.

(** The text consumed between the input [s] and a later rest [s']. *)
Definition consumed (s s' : string) : string :=
  String.substring 0 (String.length s - String.length s') s.

Definition later (c2 c1 : option string) : option string :=
  match c2 with Some _ => c2 | None => c1 end.

(** Each result is the rest of the input and what group 1 captured. *)
Fixpoint matches_at (ic : bool) (r : regex) (s : string)
  : list (string * option string) :=
  match r with
  | Lit l =>
      match eat ic l s with
      | Some rest => [(rest, None)]
      | None => []
      end
  | Plus cls => List.map (fun rest => (rest, None)) (many1 cls s)
  | Star cls => List.map (fun rest => (rest, None)) (many1 cls s ++ [s])
  | Opt r1 => matches_at ic r1 s ++ [(s, None)]
  | Cat r1 r2 =>
      List.flat_map
        (fun m1 => List.map (fun m2 => (fst m2, later (snd m2) (snd m1)))
                            (matches_at ic r2 (fst m1)))
        (matches_at ic r1 s)
  | Group r1 =>
      List.map (fun m1 => (fst m1, Some (consumed s (fst m1))))
               (matches_at ic r1 s)
  end.

(** A match object, reduced to what the scraper reads of it. *)
Record match_obj := Match { group1 : option string }.

Definition match_here (p : pattern) (s : string) : option match_obj :=
  match matches_at (re_ignorecase p) (re_body p) s with
  | m :: _ => Some (Match (snd m))
  | [] => None
  end.

(** [p.search(s)]: the leftmost start position that matches wins. *)
Fixpoint search (p : pattern) (s : string) : option match_obj :=
  match match_here p s with
  | Some m => Some m
  | None =>
      match s with
      | String _ s' => search p s'
      | EmptyString => None
      end
  end.

(** [m.group(1)]; every pattern of the scraper that is asked for group 1
    has it on its only path, so a match always captured it. *)
Definition group (m : match_obj) : string :=
  match group1 m with Some g => g | None => EmptyString end.

End Re.

(** [r"(\d+)\s*bd"] *)
Definition beds_re : Re.pattern :=
  Re.Compile
    (Re.Cat (Re.Group (Re.Plus PyStr.is_digit))
            (Re.Cat (Re.Star PyStr.is_space) (Re.Lit "bd")))
    false.

(** [r"(\d+(?:\.\d+)?)\s*ba"] *)
Definition baths_re : Re.pattern :=
  Re.Compile
    (Re.Cat (Re.Group (Re.Cat (Re.Plus PyStr.is_digit)
                              (Re.Opt (Re.Cat (Re.Lit ".")
                                              (Re.Plus PyStr.is_digit)))))
            (Re.Cat (Re.Star PyStr.is_space) (Re.Lit "ba")))
    false.

(** The class [[\d,]]. *)
Definition is_fig (c : ascii) : bool := PyStr.is_digit c || PyStr.is_comma c.

(** [r"([\d,]+)\s*sqft"] *)
Definition sqft_re : Re.pattern :=
  Re.Compile
    (Re.Cat (Re.Group (Re.Plus is_fig))
            (Re.Cat (Re.Star PyStr.is_space) (Re.Lit "sqft")))
    false.

(** [re.compile("For Sale by Owner", re.IGNORECASE)] *)
Definition fsbo_re : Re.pattern :=
  Re.Compile (Re.Lit "For Sale by Owner") true.

(** ** Exceptions and outcomes of library calls *)

(** The exception classes the control flow of the scraper tells apart.
    [TimeoutException] and [NoSuchElementException] are Selenium's;
    [WebDriverException] stands for every other Selenium error;
    [KeyError], [TypeError] and [IndexError] are raised by the scraper's own
    expressions; [OtherException] is any other subclass of [Exception];
    [KeyboardInterrupt] derives from [BaseException] only, so
    [except Exception] lets it through and a bare [except:] catches it. *)
Inductive exn : Type :=
| TimeoutException
| NoSuchElementException
| WebDriverException
| KeyError
| TypeError
| IndexError
| OtherException
| KeyboardInterrupt.

Definition is_Exception (e : exn) : bool :=
  match e with KeyboardInterrupt => false | _ => true end.

Definition is_NoSuchElementException (e : exn) : bool :=
  match e with NoSuchElementException => true | _ => false end.

Definition is_TimeoutException (e : exn) : bool :=
  match e with TimeoutException => true | _ => false end.

Definition any_exception (e : exn) : bool := true.

Inductive outcome (A : Type) : Type :=
| Ok (a : A)
| Raise (e : exn).
Arguments Ok {A} a.
Arguments Raise {A} e.

(** ** The parsed page, as BeautifulSoup shows it *)

Module Bs4.

(** A tag found by a selector: its [.text] and its attributes. *)
Record element := Element {
  text : string;
  attrs : list (string * string)
}.

(** [elem[key]] *)
Fixpoint get_item (kvs : list (string * string)) (key : string)
  : outcome string :=
  match kvs with
  | [] => Raise KeyError
  | (k, v) :: kvs' => if String.eqb k key then Ok v else get_item kvs' key
  end.

(** A listing card: what [card.select_one(selector)] answers, and the text
    nodes below the card in document order. *)
Record card := Card {
  select_one : string -> outcome (option element);
  strings : outcome (list string)
}.

(** [card.find(string=p)]: the first text node that [p.search] matches. *)
Definition find_string (p : Re.pattern) (c : card)
  : outcome (option string) :=
  match strings c with
  | Ok nodes =>
      Ok (List.find (fun s => match Re.search p s with
                              | Some _ => true
                              | None => false
                              end) nodes)
  | Raise e => Raise e
  end.

(** [BeautifulSoup(markup, 'html.parser')]: what [soup.select(selector)]
    answers. *)
Record soup := Soup {
  select : string -> outcome (list card)
}.

End Bs4.

(** ** The browser, as Selenium shows it *)

Module Selenium.

Record web_element := WebElement {
  is_displayed : outcome bool;
  is_enabled : outcome bool;
  get_attribute : string -> outcome (option string);
  click : outcome unit
}.

(** What the driver answers while one page of results is displayed. *)
Record view := View {
  (* WebDriverWait(driver, 10).until(presence_of_element_located(
       (By.CSS_SELECTOR, "ul.photo-cards"))) *)
  wait_photo_cards : outcome unit;
  (* BeautifulSoup(driver.page_source, 'html.parser') *)
  page_source : outcome Bs4.soup;
  find_element : string -> outcome web_element;
  find_elements : string -> outcome (list web_element)
}.

(** One browser over one run: the answers of [webdriver.Chrome(...)],
    [set_window_size] and [get], and the view of the k-th page of results
    (the first is shown after [get], each click on a next-page control
    shows the following one).  [quit()] of the Chromium driver swallows its
    own errors and is taken not to raise. *)
Record browser := Browser {
  chrome : outcome unit;
  set_window_size : outcome unit;
  get : string -> outcome unit;
  views : Z -> view
}.

End Selenium.

(** ** State, events and the monad of the methods *)

(** A listing is a [dict] from field names to strings. *)
Abbreviation listing := (gmap string string).

(** [self.driver] is [None] or a driver object, whose session is running or
    has been quit. *)
Inductive session : Type := Running | HasQuit.

Record scraper := Scraper {
  driver : option session;
  listings : list listing
}.

(** [ZillowFSBOScraper.__init__] *)
Definition init : scraper := {| driver := None; listings := [] |}.

(** What a run does to the outside world, in order. *)
Inductive event : Type :=
| EStart                    (* webdriver.Chrome(...) returned a driver *)
| EGet (url : string)       (* driver.get(url) returned *)
| ESleep (lo hi : Z)        (* time.sleep(random.uniform(lo, hi)) *)
| EDismiss                  (* a popup's close button was clicked *)
| EPage (page : Z)          (* an iteration of the page loop begins *)
| EWait                     (* the wait for the listing container *)
| EParse                    (* parse_listings_page is entered *)
| EAdvance                  (* a next-page control was clicked *)
| EQuit.                    (* driver.quit() *)

Record world := World {
  self : scraper;
  shown : Z;                (* the page of results the browser displays *)
  trace : list event
}.

Definition Py (A : Type) : Type := world -> outcome A * world.

Definition ret {A} (a : A) : Py A := fun w => (Ok a, w).

Definition bind {A B} (m : Py A) (f : A -> Py B) : Py B :=
  fun w => match m w with
           | (Ok a, w') => f a w'
           | (Raise e, w') => (Raise e, w')
           end.

Notation "x <- m ;; k" := (bind m (fun x => k))
  (at level 100, m at level 99, k at level 200,
   right associativity, only parsing).
Notation "m ;;; k" := (bind m (fun _ => k))
  (at level 100, k at level 200, right associativity, only parsing).

Definition raise {A} (e : exn) : Py A := fun w => (Raise e, w).

(** A library call with its answer. *)
Definition call {A} (o : outcome A) : Py A := fun w => (o, w).

(** [try: m except <classes>: h] *)
Definition try_except {A} (m : Py A) (catches : exn -> bool) (h : Py A)
  : Py A :=
  fun w => match m w with
           | (Raise e, w') => if catches e then h w' else (Raise e, w')
           | r => r
           end.

(** [try: m finally: f] *)
Definition try_finally {A} (m : Py A) (f : Py unit) : Py A :=
  fun w => let (r, w') := m w in
           match f w' with
           | (Ok _, w'') => (r, w'')
           | (Raise e, w'') => (Raise e, w'')
           end.

Definition emit (e : event) : Py unit :=
  fun w => (Ok tt, {| self := self w; shown := shown w;
                      trace := trace w ++ [e] |}).

Definition get_self : Py scraper := fun w => (Ok (self w), w).

Definition set_driver (d : option session) : Py unit :=
  fun w => (Ok tt, {| self := {| driver := d; listings := listings (self w) |};
                      shown := shown w; trace := trace w |}).

(** [self.listings.append(l)] *)
Definition append_listing (l : listing) : Py unit :=
  fun w => (Ok tt, {| self := {| driver := driver (self w);
                                 listings := listings (self w) ++ [l] |};
                      shown := shown w; trace := trace w |}).

Definition set_shown (p : Z) : Py unit :=
  fun w => (Ok tt, {| self := self w; shown := p; trace := trace w |}).

(** The view the driver currently answers from. *)
Definition current_view (env : Selenium.browser) : Py Selenium.view :=
  fun w => (Ok (Selenium.views env (shown w)), w).

(** [range(lo, hi)] *)
Definition range (lo hi : Z) : list Z :=
  List.map (fun i => lo + Z.of_nat i) (List.seq 0 (Z.to_nat (hi - lo))).

(** ** The scraper *)

Module ZillowFSBOScraper.

Import Selenium.

Definition start_browser (env : browser) : Py unit :=
  call (chrome env) ;;;
  set_driver (Some Running) ;;;
  emit EStart ;;;
  call (set_window_size env).

Definition close_browser : Py unit :=
  me <- get_self ;;
  match driver me with
  | Some _ => emit EQuit ;;; set_driver (Some HasQuit)
  | None => ret tt
  end.

(** [time.sleep(random.uniform(min_seconds, max_seconds))], taken to
    return: the event keeps the bounds, the sample is the subject of
    [delay_sample]. *)
Definition random_delay (min_seconds max_seconds : Z) : Py unit :=
  emit (ESleep min_seconds max_seconds).

Definition popup_selectors : list string :=
  [ "button[aria-label='Close']";
    ".modal-dialog .close";
    "#sgpd-closeButton";
    "button.popup-close" ].

(** [for button in close_buttons: ...] *)
Fixpoint click_displayed (close_buttons : list web_element) : Py unit :=
  match close_buttons with
  | [] => ret tt
  | button :: rest =>
      shown_now <- call (is_displayed button) ;;
      (if shown_now
       then call (click button) ;;; emit EDismiss ;;; random_delay 1 2
       else ret tt) ;;;
      click_displayed rest
  end.

(** [for selector in popup_selectors: try: ... except: continue] *)
Fixpoint sweep_popups (env : browser) (selectors : list string) : Py unit :=
  match selectors with
  | [] => ret tt
  | selector :: rest =>
      try_except
        (v <- current_view env ;;
         close_buttons <- call (find_elements v selector) ;;
         click_displayed close_buttons)
        any_exception (ret tt) ;;;
      sweep_popups env rest
  end.

Definition handle_popups (env : browser) : Py unit :=
  try_except (sweep_popups env popup_selectors) any_exception (ret tt).

(** A click on a next-page control that went through shows the next page. *)
Definition click_next (button : web_element) : Py unit :=
  call (click button) ;;;
  emit EAdvance ;;;
  (fun w => set_shown (shown w + 1) w).

(** [for i, button in enumerate(next_buttons): ...] of the fallback. *)
Fixpoint click_after_active (next_buttons : list web_element) (i : nat)
  (rest : list web_element) : Py bool :=
  match rest with
  | [] => ret false
  | button :: rest' =>
      cls <- call (get_attribute button "class") ;;
      match cls with
      | None => raise TypeError       (* 'active' in None *)
      | Some c =>
          if PyStr.contains "active" c && (i + 1 <? length next_buttons)%nat
          then match next_buttons !! (i + 1)%nat with
               | Some next => click_next next ;;; random_delay 3 6 ;;; ret true
               | None => raise IndexError
               end
          else click_after_active next_buttons (S i) rest'
      end
  end.

Definition go_to_next_page (env : browser) : Py bool :=
  try_except
    (v <- current_view env ;;
     next_button <- call (find_element v "a[title='Next page']") ;;
     enabled <- call (is_enabled next_button) ;;
     if enabled
     then click_next next_button ;;; random_delay 3 6 ;;; ret true
     else ret false)
    is_NoSuchElementException
    (try_except
       (v <- current_view env ;;
        next_buttons <-
          call (find_elements v
                  "li.PaginationNumberItem-c11n-8-84-3__sc-bnmlxt-0 a") ;;
        click_after_active next_buttons 0 next_buttons)
       any_exception (ret false)).

(** Truth value of what [card.select_one] returns: a tag is true. *)
Definition truthy_tag (e : option Bs4.element) : bool :=
  match e with Some _ => true | None => false end.

(** Truth value of what [card.find(string=...)] returns: a text node is
    true unless it is empty. *)
Definition truthy_string (s : option string) : bool :=
  match s with Some t => negb (String.eqb t EmptyString) | None => false end.

Definition set_text (key : string) (e : option Bs4.element) (l : listing)
  : listing :=
  match e with
  | Some el => <[key := PyStr.strip (Bs4.text el)]> l
  | None => l
  end.

Definition set_group (key : string) (m : option Re.match_obj)
  (post : string -> string) (l : listing) : listing :=
  match m with
  | Some mo => <[key := post (Re.group mo)]> l
  | None => l
  end.

(** The three searches over the details text. *)
Definition parse_details (details_text : string) (l : listing) : listing :=
  let l := set_group "beds" (Re.search beds_re details_text) id l in
  let l := set_group "baths" (Re.search baths_re details_text) id l in
  set_group "sqft" (Re.search sqft_re details_text)
            (PyStr.replace ","%char EmptyString) l.

(** The body of [for card in listing_cards:]. *)
Definition card_body (card : Bs4.card) : Py unit :=
  fsbo_badge <-
    call (Bs4.select_one card ".StyledZillowLogo-c11n-8-84-3__sc-1ly7na1-0") ;;
  for_sale_by_owner_text <- call (Bs4.find_string fsbo_re card) ;;
  if truthy_tag fsbo_badge || truthy_string for_sale_by_owner_text
  then
    let l : listing := ∅ in
    address_elem <- call (Bs4.select_one card "address") ;;
    let l := set_text "address" address_elem l in
    price_elem <-
      call (Bs4.select_one card "[data-test='property-card-price']") ;;
    let l := set_text "price" price_elem l in
    details_elem <-
      call (Bs4.select_one card "[data-test='property-card-details']") ;;
    let l := match details_elem with
             | Some el => parse_details (PyStr.strip (Bs4.text el)) l
             | None => l
             end in
    link_elem <- call (Bs4.select_one card "a[href^='/homedetails']") ;;
    l <- match link_elem with
         | Some el =>
             href <- call (Bs4.get_item (Bs4.attrs el) "href") ;;
             if PyStr.startswith "/" href
             then ret (<["url" := "https://www.zillow.com" ++ href]> l)
             else ret (<["url" := href]> l)
         | None => ret l
         end ;;
    if bool_decide (l = ∅)
    then ret tt
    else append_listing (<["source" := "Zillow FSBO"]> l)
  else ret tt.

Fixpoint for_cards (listing_cards : list Bs4.card) : Py unit :=
  match listing_cards with
  | [] => ret tt
  | card :: rest => card_body card ;;; for_cards rest
  end.

Definition parse_listings_page (env : browser) : Py unit :=
  emit EParse ;;;
  try_except
    (v <- current_view env ;;
     soup <- call (page_source v) ;;
     listing_cards <- call (Bs4.select soup "ul.photo-cards > li") ;;
     listing_cards <-
       match listing_cards with
       | [] => call (Bs4.select soup "div[data-test='property-card']")
       | _ => ret listing_cards
       end ;;
     for_cards listing_cards)
    is_Exception (ret tt).

(** [for page in range(1, max_pages + 1):], with its [break]. *)
Fixpoint for_pages (env : browser) (max_pages : Z) (pages : list Z)
  : Py unit :=
  match pages with
  | [] => ret tt
  | page :: rest =>
      emit (EPage page) ;;;
      emit EWait ;;;
      try_except (v <- current_view env ;; call (wait_photo_cards v))
                 is_TimeoutException (ret tt) ;;;
      parse_listings_page env ;;;
      if page <? max_pages
      then more <- go_to_next_page env ;;
           if more then for_pages env max_pages rest else ret tt
      else for_pages env max_pages rest
  end.

Definition search_url (location : string) : string :=
  let base_url := "https://www.zillow.com/homes/for_sale/"
                  ++ PyStr.replace " "%char "-" location in
  base_url ++ "/0_fs/".

(** The statements under [try:] in [search_fsbo_listings]. *)
Definition search_body (env : browser) (location : string) (max_pages : Z)
  : Py (list listing) :=
  me <- get_self ;;
  match driver me with
  | None => start_browser env
  | Some _ => ret tt
  end ;;;
  let fsbo_url := search_url location in
  call (get env fsbo_url) ;;;
  emit (EGet fsbo_url) ;;;
  set_shown 1 ;;;
  random_delay 3 6 ;;;
  handle_popups env ;;;
  for_pages env max_pages (range 1 (max_pages + 1)) ;;;
  me <- get_self ;;
  ret (listings me).

Definition search_fsbo_listings (env : browser) (location : string)
  (max_pages : Z) : Py (list listing) :=
  try_finally
    (try_except (search_body env location max_pages)
                is_Exception
                (me <- get_self ;; ret (listings me)))
    close_browser.

End ZillowFSBOScraper.

(** ** Details blobs, as the specification writes them *)

(** A non-empty run of decimal digits. *)
Definition digits (s : string) : bool :=
  negb (String.eqb s EmptyString) && PyStr.all PyStr.is_digit s.

(** An integer, or a decimal fraction [i.f]. *)
Definition decimal (i : string) (frac : option string) : string :=
  match frac with
  | Some f => i ++ "." ++ f
  | None => i
  end.

Definition frac_ok (frac : option string) : bool :=
  match frac with Some f => digits f | None => true end.

(** A figure with separators: groups of digits joined by commas. *)
Fixpoint figure (groups : list string) : string :=
  match groups with
  | [] => EmptyString
  | [g] => g
  | g :: rest => g ++ "," ++ figure rest
  end.

Definition figure_ok (groups : list string) : bool :=
  match groups with
  | [] => false
  | _ => List.forallb digits groups
  end.

Fixpoint concat_groups (groups : list string) : string :=
  match groups with
  | [] => EmptyString
  | g :: rest => g ++ concat_groups rest
  end.

(** ["<n> bd, <m> ba, <k> sqft"] *)
Definition details_blob (n m k : string) : string :=
  n ++ " bd, " ++ m ++ " ba, " ++ k ++ " sqft".

(** ** Vocabulary of the proofs about the patterns *)

(** The rests after the non-empty prefixes of a run [ds] that is followed by
    [t], the longest prefix first. *)
Fixpoint tails1 (ds t : string) : list string :=
  match ds with
  | EmptyString => []
  | String _ ds' => tails1 ds' t ++ [(ds' ++ t)%string]
  end.

(** [\s*] followed by a literal: the end of the three patterns. *)
Definition tail_re (l : string) : Re.regex :=
  Re.Cat (Re.Star PyStr.is_space) (Re.Lit l).

(** [(?:\.\d+)] and [\d+(?:\.\d+)?], the pieces of [baths_re]. *)
Definition frac_re : Re.regex := Re.Cat (Re.Lit ".") (Re.Plus PyStr.is_digit).
Definition number_re : Re.regex :=
  Re.Cat (Re.Plus PyStr.is_digit) (Re.Opt frac_re).

Definition starts_digit (s : string) : bool :=
  match s with String c _ => PyStr.is_digit c | EmptyString => false end.

(** ** Observing the methods

    What a method does on a page is read off a run of the method itself on a
    blank world; the frame lemmas below show that it does the same on every
    world that displays that page. *)

Definition blank (p : Z) : world :=
  {| self := init; shown := p; trace := [] |}.

Definition add_records (w : world) (ls : list listing) : world :=
  {| self := {| driver := driver (self w);
                listings := listings (self w) ++ ls |};
     shown := shown w; trace := trace w |}.

Definition add_events (w : world) (evs : list event) : world :=
  {| self := self w; shown := shown w; trace := trace w ++ evs |}.

(** The world after a next-page control was clicked. *)
Definition advance (w : world) : world :=
  {| self := self w; shown := shown w + 1;
     trace := trace w ++ [EAdvance; ESleep 3 6] |}.

Definition card_outcome (card : Bs4.card) : outcome unit :=
  fst (ZillowFSBOScraper.card_body card (blank 0)).

(** The records one card adds: none or one. *)
Definition card_records (card : Bs4.card) : list listing :=
  listings (self (snd (ZillowFSBOScraper.card_body card (blank 0)))).

Definition cards_outcome (cards : list Bs4.card) : outcome unit :=
  fst (ZillowFSBOScraper.for_cards cards (blank 0)).

Definition cards_records (cards : list Bs4.card) : list listing :=
  listings (self (snd (ZillowFSBOScraper.for_cards cards (blank 0)))).

Definition parse_outcome (env : Selenium.browser) (p : Z) : outcome unit :=
  fst (ZillowFSBOScraper.parse_listings_page env (blank p)).

(** The records that page [p] contributes. *)
Definition page_records (env : Selenium.browser) (p : Z) : list listing :=
  listings (self (snd (ZillowFSBOScraper.parse_listings_page env (blank p)))).

Definition next_outcome (env : Selenium.browser) (p : Z) : outcome bool :=
  fst (ZillowFSBOScraper.go_to_next_page env (blank p)).

(** The records of the pages [1 .. p]. *)
Definition collected (env : Selenium.browser) (p : Z) : list listing :=
  List.flat_map (page_records env) (range 1 (p + 1)).

(** The two discriminating signals of a card. *)
Definition has_badge (card : Bs4.card) : bool :=
  match Bs4.select_one card ".StyledZillowLogo-c11n-8-84-3__sc-1ly7na1-0" with
  | Ok (Some _) => true
  | _ => false
  end.

Definition has_fsbo_text (card : Bs4.card) : bool :=
  match Bs4.strings card with
  | Ok nodes =>
      List.existsb (fun s => match Re.search fsbo_re s with
                             | Some _ => true
                             | None => false
                             end) nodes
  | Raise _ => false
  end.

(** The cards a page is parsed from: those of the primary selector, or of
    the alternate one when the primary finds none. *)
Definition page_cards (env : Selenium.browser) (p : Z) : list Bs4.card :=
  match Selenium.page_source (Selenium.views env p) with
  | Ok soup =>
      match Bs4.select soup "ul.photo-cards > li" with
      | Ok [] =>
          match Bs4.select soup "div[data-test='property-card']" with
          | Ok cards => cards
          | Raise _ => []
          end
      | Ok cards => cards
      | Raise _ => []
      end
  | Raise _ => []
  end.

(** The wait for the listing container returns or times out. *)
Definition wait_passes (v : Selenium.view) : bool :=
  match Selenium.wait_photo_cards v with
  | Ok _ => true
  | Raise e => is_TimeoutException e
  end.

(** The control the fallback strategy would click: the one after the first
    control marked active that has a successor. *)
Fixpoint after_active (next_buttons : list Selenium.web_element) (i : nat)
  (rest : list Selenium.web_element) : option Selenium.web_element :=
  match rest with
  | [] => None
  | button :: rest' =>
      match Selenium.get_attribute button "class" with
      | Ok (Some c) =>
          if PyStr.contains "active" c && (i + 1 <? length next_buttons)%nat
          then next_buttons !! (i + 1)%nat
          else after_active next_buttons (S i) rest'
      | _ => None
      end
  end.

(** Neither strategy locates a next-page control. *)
Definition no_next_control (v : Selenium.view) : bool :=
  match Selenium.find_element v "a[title='Next page']" with
  | Raise NoSuchElementException =>
      match Selenium.find_elements v
              "li.PaginationNumberItem-c11n-8-84-3__sc-bnmlxt-0 a" with
      | Ok next_buttons =>
          match after_active next_buttons 0 next_buttons with
          | Some _ => false
          | None => true
          end
      | Raise _ => true
      end
  | _ => false
  end.

(** Page [p] of a run with ceiling [max_pages] is loaded, parsed and left
    for the next one without anything escaping. *)
Definition page_completes (env : Selenium.browser) (max_pages p : Z) : bool :=
  wait_passes (Selenium.views env p)
  && match parse_outcome env p with Ok _ => true | Raise _ => false end
  && (negb (p <? max_pages)
      || match next_outcome env p with Ok true => true | _ => false end).

(** The browser comes up, when the scraper has none yet, and loads the
    search page. *)
Definition startup_ok (env : Selenium.browser) (s : scraper)
  (location : string) : bool :=
  match driver s with
  | None =>
      match Selenium.chrome env, Selenium.set_window_size env with
      | Ok _, Ok _ => true
      | _, _ => false
      end
  | Some _ => true
  end
  && match Selenium.get env (ZillowFSBOScraper.search_url location) with
     | Ok _ => true
     | Raise _ => false
     end.

(** A run on a scraper, from an empty trace. *)
Definition start (s : scraper) : world :=
  {| self := s; shown := 0; trace := [] |}.

Definition run (env : Selenium.browser) (s : scraper) (location : string)
  (max_pages : Z) : outcome (list listing) * world :=
  ZillowFSBOScraper.search_fsbo_listings env location max_pages (start s).

(** The page-load events of a trace. *)
Definition is_load (e : event) : bool :=
  match e with EPage _ | EWait | EParse => true | _ => false end.

Definition loads (tr : list event) : list event := List.filter is_load tr.

Definition is_wait (e : event) : bool :=
  match e with EWait => true | _ => false end.

Definition is_advance (e : event) : bool :=
  match e with EAdvance => true | _ => false end.

Definition is_quit (e : event) : bool :=
  match e with EQuit => true | _ => false end.

Definition count (f : event -> bool) (tr : list event) : nat :=
  length (List.filter f tr).

(** ** Vocabulary of the proofs about the run *)

Definition popup_event (e : event) : Prop :=
  match e with EDismiss | ESleep _ _ => True | _ => False end.

Definition loop_event (pages : list Z) (e : event) : Prop :=
  match e with
  | EPage q => In q pages
  | EWait | EParse | EAdvance | ESleep _ _ => True
  | _ => False
  end.

(** [m], on every world that displays page [p], returns [r], appends the
    records [recs] and the events [evs], leaves the driver alone and ends
    on page [p']. *)
Definition acts {A} (m : Py A) (p : Z) (r : outcome A)
  (recs : list listing) (evs : list event) (p' : Z) : Prop :=
  forall w, shown w = p ->
    m w = (r, {| self := {| driver := driver (self w);
                            listings := listings (self w) ++ recs |};
                 shown := p'; trace := trace w ++ evs |}).

(** The events of a page that is left through a next-page control. *)
Definition smooth_events (q : Z) : list event :=
  [EPage q; EWait; EParse; EAdvance; ESleep 3 6].

Definition load_events (q : Z) : list event := [EPage q; EWait; EParse].

Definition startup_event (e : event) : Prop :=
  match e with
  | EStart | EGet _ | ESleep _ _ | EDismiss => True
  | _ => False
  end.


(** The driver of a scraper once a run has made sure there is one. *)
Definition started (d : option session) : option session :=
  match d with None => Some Running | Some x => Some x end.

(** ** The script around the scraper: [main] *)

(** [scraper = ZillowFSBOScraper(headless=False)] *)
Definition new_scraper : Py unit :=
  fun w => (Ok tt, {| self := init; shown := shown w; trace := trace w |}).

(** [for location in locations:] of [main]; [envs] tells what the browser
    answers during the run for a location. *)
Fixpoint for_locations (envs : string -> Selenium.browser)
  (locations : list string) (all_listings : list listing)
  : Py (list listing) :=
  match locations with
  | [] => ret all_listings
  | location :: rest =>
      listings <-
        ZillowFSBOScraper.search_fsbo_listings (envs location) location 2 ;;
      (* all_listings.extend(listings) *)
      let all_listings := (all_listings ++ listings)%list in
      emit (ESleep 10 20) ;;;
      for_locations envs rest all_listings
  end.

Definition locations : list string :=
  ["New York, NY"; "Los Angeles, CA"; "Chicago, IL"].

(** [main()]: the rows that are written to [zillow_fsbo_listings.csv], or
    [None] when there is none and no file is written. *)
Definition main (envs : string -> Selenium.browser)
  : Py (option (list listing)) :=
  new_scraper ;;;
  all_listings <- for_locations envs locations [] ;;
  match all_listings with
  | [] => ret None
  | _ => ret (Some all_listings)
  end.

(** ** The delay: [random.uniform]

    [random_delay] sleeps for [random.uniform(min_seconds, max_seconds)],
    which the standard library computes as [a + (b - a) * self.random()] on
    binary64 numbers, [self.random()] giving a number [u] with
    [0 <= u < 1]. *)

Module Random.

Definition uniform (a b u : float) : float := (a + (b - a) * u)%float.

End Random.

(** The duration that [random_delay(min_seconds, max_seconds)] asks
    [time.sleep] for when [self.random()] gives [u]. *)
Definition delay_sample (min_seconds max_seconds u : float) : float :=
  Random.uniform min_seconds max_seconds u.


(** ** Vocabulary of the further properties *)

(** The events of [n] dismissed popups: a click and a delay each. *)
Fixpoint dismissals (n : nat) : list event :=
  match n with
  | O => []
  | S n' => EDismiss :: ESleep 1 2 :: dismissals n'
  end.

Definition displayed (b : Selenium.web_element) : bool :=
  match Selenium.is_displayed b with Ok true => true | _ => false end.

(** A close button that answers: it tells whether it is displayed and, when
    it is, lets itself be clicked. *)
Definition answers (b : Selenium.web_element) : Prop :=
  Selenium.is_displayed b = Ok false
  \/ (Selenium.is_displayed b = Ok true /\ Selenium.click b = Ok tt).



Definition is_start (e : event) : bool :=
  match e with EStart => true | _ => false end.

(** An event of a run between the loading of the search page and the
    release of the browser. *)
Definition harvest_event (e : event) : Prop :=
  match e with EStart | EGet _ | EQuit => False | _ => True end.

(** A record that some page of the browser contributes. *)
Definition sourced (env : Selenium.browser) (x : listing) : Prop :=
  exists q, In x (page_records env q).

(** The driver of a scraper once a run has tried to make sure there is
    one. *)
Definition brought_up (env : Selenium.browser) (d : option session)
  : option session :=
  match d with
  | Some x => Some x
  | None =>
      match Selenium.chrome env with
      | Ok _ => Some Running
      | Raise _ => None
      end
  end.

(** The driver after [close_browser]. *)
Definition released (d : option session) : option session :=
  match d with Some _ => Some HasQuit | None => None end.

(** The pause that the scraper takes after an action: three to six seconds
    after the search page is loaded or a next-page control is clicked, one
    to two after a popup is dismissed. *)
Definition pause_of (e : event) : option (Z * Z) :=
  match e with
  | EGet _ | EAdvance => Some (3, 6)
  | EDismiss => Some (1, 2)
  | _ => None
  end.

Definition is_pause (bounds : Z * Z) (e : event) : bool :=
  match e with
  | ESleep lo hi => (lo =? fst bounds) && (hi =? snd bounds)
  | _ => false
  end.

(** Every action that calls for a pause is followed by it at once. *)
Fixpoint paced (tr : list event) : bool :=
  match tr with
  | [] => true
  | e :: rest =>
      match pause_of e with
      | Some bounds =>
          match rest with
          | next :: _ => is_pause bounds next
          | [] => false
          end
      | None => true
      end && paced rest
  end.

(** What the labelled-control strategy raises. *)
Definition primary_raises (v : Selenium.view) (e : exn) : Prop :=
  Selenium.find_element v "a[title='Next page']" = Raise e
  \/ exists next_button,
       Selenium.find_element v "a[title='Next page']" = Ok next_button
       /\ (Selenium.is_enabled next_button = Raise e
           \/ (Selenium.is_enabled next_button = Ok true
               /\ Selenium.click next_button = Raise e)).

(** The class attribute of a pagination control marks it active or not. *)
Definition marked_active (b : Selenium.web_element) (a : bool) : Prop :=
  exists c, Selenium.get_attribute b "class" = Ok (Some c)
            /\ PyStr.contains "active" c = a.

(** What a field of a record holds. *)
Definition field_ok (key value : string) : Prop :=
  if String.eqb key "address" || String.eqb key "price"
  then PyStr.strip value = value
  else if String.eqb key "beds" then digits value = true
  else if String.eqb key "baths"
  then exists i frac, value = decimal i frac
                      /\ digits i = true /\ frac_ok frac = true
  else if String.eqb key "sqft" then PyStr.all PyStr.is_digit value = true
  else if String.eqb key "url" then PyStr.startswith "/" value = false
  else if String.eqb key "source" then value = "Zillow FSBO"
  else False.

Definition record_keys : list string :=
  ["address"; "price"; "beds"; "baths"; "sqft"; "url"; "source"].

(** The fields of a record before its source is set. *)
Definition fields_ok (l : listing) : Prop :=
  forall k v, l !! k = Some v -> k <> "source" /\ field_ok k v.

(** A text with every letter in lower case. *)
Fixpoint casefold (s : string) : string :=
  match s with
  | EmptyString => EmptyString
  | String c s' => String (PyStr.lower c) (casefold s')
  end.

Definition not_blank (c : ascii) : bool := negb (Ascii.eqb c " "%char).

(** A browser on which every wait for the listing container that would
    return runs into its timeout instead. *)
Definition slow_view (v : Selenium.view) : Selenium.view :=
  {| Selenium.wait_photo_cards :=
       match Selenium.wait_photo_cards v with
       | Ok _ => Raise TimeoutException
       | Raise e => Raise e
       end;
     Selenium.page_source := Selenium.page_source v;
     Selenium.find_element := Selenium.find_element v;
     Selenium.find_elements := Selenium.find_elements v |}.

Definition slow (env : Selenium.browser) : Selenium.browser :=
  {| Selenium.chrome := Selenium.chrome env;
     Selenium.set_window_size := Selenium.set_window_size env;
     Selenium.get := Selenium.get env;
     Selenium.views := fun p => slow_view (Selenium.views env p) |}.



(** ** Synthetic pages and browsers *)

Module Example.

Definition elem (t : string) : Bs4.element :=
  {| Bs4.text := t; Bs4.attrs := [] |}.

Definition link (href : string) : Bs4.element :=
  {| Bs4.text := EmptyString; Bs4.attrs := [("href", href)] |}.

(** A card given by the elements its selectors find and its text nodes. *)
Definition card_of (found : list (string * Bs4.element))
  (nodes : list string) : Bs4.card :=
  {| Bs4.select_one := fun selector =>
       Ok (snd <$> List.find (fun kv => String.eqb (fst kv) selector) found);
     Bs4.strings := Ok nodes |}.

(** The card of the end-to-end scenario of the specification. *)
Definition fsbo_card : Bs4.card :=
  card_of
    [ ("address", elem "123 Main St");
      ("[data-test='property-card-price']", elem "$450,000");
      ("[data-test='property-card-details']",
       elem "3 bd, 2 ba, 1,500 sqft");
      ("a[href^='/homedetails']", link "/homedetails/123") ]
    ["For Sale by Owner"; "123 Main St"; "$450,000";
     "3 bd, 2 ba, 1,500 sqft"].

Definition agent_card : Bs4.card :=
  card_of
    [ ("address", elem "9 Elm St");
      ("[data-test='property-card-price']", elem "$300,000") ]
    ["Listing by Acme Realty"; "9 Elm St"; "$300,000"].

(** A card whose price lookup raises. *)
Definition broken_card : Bs4.card :=
  {| Bs4.select_one := fun selector =>
       if String.eqb selector "[data-test='property-card-price']"
       then Raise OtherException
       else Bs4.select_one fsbo_card selector;
     Bs4.strings := Ok ["for sale by owner"] |}.

Definition fsbo_record : listing :=
  <["source" := "Zillow FSBO"]>
    (<["url" := "https://www.zillow.com/homedetails/123"]>
       (<["sqft" := "1500"]>
          (<["baths" := "2"]>
             (<["beds" := "3"]>
                (<["price" := "$450,000"]>
                   (<["address" := "123 Main St"]> ∅)))))).

(** A page whose primary selector finds the given cards. *)
Definition soup_of (cards : list Bs4.card) : Bs4.soup :=
  {| Bs4.select := fun selector =>
       if String.eqb selector "ul.photo-cards > li" then Ok cards
       else Ok [] |}.

Definition next_link : Selenium.web_element :=
  {| Selenium.is_displayed := Ok true;
     Selenium.is_enabled := Ok true;
     Selenium.get_attribute := fun _ => Ok None;
     Selenium.click := Ok tt |}.

(** What can be asked of the pagination controls of a view. *)
Inductive pager : Type :=
| HasNext              (* a labelled next-page control *)
| NoNext               (* no control of either kind *)
| Crashes.             (* the driver fails on the lookup *)

Definition view_of (cards : list Bs4.card) (pg : pager) : Selenium.view :=
  {| Selenium.wait_photo_cards := Ok tt;
     Selenium.page_source := Ok (soup_of cards);
     Selenium.find_element := fun _ =>
       match pg with
       | HasNext => Ok next_link
       | NoNext => Raise NoSuchElementException
       | Crashes => Raise WebDriverException
       end;
     Selenium.find_elements := fun _ => Ok [] |}.

Definition browser_of (views : Z -> Selenium.view) : Selenium.browser :=
  {| Selenium.chrome := Ok tt;
     Selenium.set_window_size := Ok tt;
     Selenium.get := fun _ => Ok tt;
     Selenium.views := views |}.

Definition both : list Bs4.card := [fsbo_card; agent_card].

(** Three pages of results, each with a next-page control but the last. *)
Definition three_pages : Selenium.browser :=
  browser_of (fun p => view_of both (if p <? 3 then HasNext else NoNext)).

(** The results end on the second page. *)
Definition two_pages : Selenium.browser :=
  browser_of (fun p => view_of both (if p <? 2 then HasNext else NoNext)).

(** The driver fails when the second page is to be left. *)
Definition crash_on_two : Selenium.browser :=
  browser_of (fun p => view_of both (if p <? 2 then HasNext else Crashes)).

(** A page on which a card that raises comes before a matching card. *)
Definition broken_first : Selenium.browser :=
  browser_of (fun _ => view_of [broken_card; fsbo_card] NoNext).

(** On the same page a matching card comes first as well. *)
Definition broken_middle : Selenium.browser :=
  browser_of (fun _ => view_of [fsbo_card; broken_card; fsbo_card] NoNext).

(** A page that only the alternate selector finds cards on. *)
Definition alternate_soup : Bs4.soup :=
  {| Bs4.select := fun selector =>
       if String.eqb selector "div[data-test='property-card']" then Ok both
       else Ok [] |}.

Definition alternate_only : Selenium.browser :=
  browser_of (fun _ =>
    {| Selenium.wait_photo_cards := Raise TimeoutException;
       Selenium.page_source := Ok alternate_soup;
       Selenium.find_element := fun _ => Raise NoSuchElementException;
       Selenium.find_elements := fun _ => Ok [] |}).

(** A driver that has been quit: every command fails. *)
Definition quit_driver : Selenium.browser :=
  {| Selenium.chrome := Ok tt;
     Selenium.set_window_size := Ok tt;
     Selenium.get := fun _ => Raise WebDriverException;
     Selenium.views := fun _ => view_of [] Crashes |}.

(** [webdriver.Chrome(...)] fails. *)
Definition no_chrome : Selenium.browser :=
  {| Selenium.chrome := Raise WebDriverException;
     Selenium.set_window_size := Ok tt;
     Selenium.get := fun _ => Ok tt;
     Selenium.views := fun _ => view_of [] NoNext |}.

(** A session that has been closed once. *)
Definition closed_once : world :=
  snd (ZillowFSBOScraper.close_browser
         {| self := {| driver := Some Running; listings := [] |};
            shown := 1; trace := [] |}).

End Example.

(** ** More synthetic pages *)

Module Cases.

Import Example.

(** A labelled next-page control that is disabled. *)
Definition disabled_link : Selenium.web_element :=
  {| Selenium.is_displayed := Ok true;
     Selenium.is_enabled := Ok false;
     Selenium.get_attribute := fun _ => Ok None;
     Selenium.click := Ok tt |}.

(** A numbered pagination control with the given class. *)
Definition numbered (cls : string) : Selenium.web_element :=
  {| Selenium.is_displayed := Ok true;
     Selenium.is_enabled := Ok true;
     Selenium.get_attribute := fun _ => Ok (Some cls);
     Selenium.click := Ok tt |}.

Definition numbers : list Selenium.web_element :=
  [numbered "page"; numbered "page active"; numbered "page"].

(** The last page by its labelled control, with numbered controls that
    would lead on. *)
Definition disabled_view : Selenium.view :=
  {| Selenium.wait_photo_cards := Ok tt;
     Selenium.page_source := Ok (soup_of both);
     Selenium.find_element := fun _ => Ok disabled_link;
     Selenium.find_elements := fun _ => Ok numbers |}.

(** A page with numbered controls only. *)
Definition numbered_view : Selenium.view :=
  {| Selenium.wait_photo_cards := Ok tt;
     Selenium.page_source := Ok (soup_of both);
     Selenium.find_element := fun _ => Raise NoSuchElementException;
     Selenium.find_elements := fun _ => Ok numbers |}.

Definition disabled_next : Selenium.browser :=
  browser_of (fun _ => disabled_view).

Definition numbered_only : Selenium.browser :=
  browser_of (fun _ => numbered_view).

Definition close_button : Selenium.web_element :=
  {| Selenium.is_displayed := Ok true;
     Selenium.is_enabled := Ok true;
     Selenium.get_attribute := fun _ => Ok None;
     Selenium.click := Ok tt |}.

Definition hidden_button : Selenium.web_element :=
  {| Selenium.is_displayed := Ok false;
     Selenium.is_enabled := Ok true;
     Selenium.get_attribute := fun _ => Ok None;
     Selenium.click := Ok tt |}.

(** A page under a popup: two of the selectors find its close button,
    and the first of them finds a button that is not displayed as
    well. *)
Definition popup_view : Selenium.view :=
  {| Selenium.wait_photo_cards := Ok tt;
     Selenium.page_source := Ok (soup_of both);
     Selenium.find_element := fun _ => Raise NoSuchElementException;
     Selenium.find_elements := fun selector =>
       if String.eqb selector "button[aria-label='Close']"
       then Ok [close_button; hidden_button]
       else if String.eqb selector "button.popup-close"
            then Ok [close_button]
            else Ok [] |}.

Definition popup : Selenium.browser := browser_of (fun _ => popup_view).

(** The browser comes up but cannot be given its window size. *)
Definition stuck_window : Selenium.browser :=
  {| Selenium.chrome := Ok tt;
     Selenium.set_window_size := Raise WebDriverException;
     Selenium.get := fun _ => Ok tt;
     Selenium.views := fun _ => view_of both NoNext |}.

(** Every location is answered by two pages of results. *)
Definition everywhere (location : string) : Selenium.browser := two_pages.


End Cases.
(** * Properties *)

(** ** Strings *)

Section StringFacts.

Lemma app_assoc_s (a b c : string) : ((a ++ b) ++ c = a ++ (b ++ c))%string.
Proof. induction a as [|x a IH]; simpl; [reflexivity | now rewrite IH]. Qed.

Lemma app_nil_r_s (a : string) : (a ++ EmptyString = a)%string.
Proof. induction a as [|x a IH]; simpl; [reflexivity | now rewrite IH]. Qed.

Lemma length_app_s (a b : string) :
  String.length (a ++ b) = (String.length a + String.length b)%nat.
Proof. induction a as [|x a IH]; simpl; [reflexivity | now rewrite IH]. Qed.

Lemma all_app (p : ascii -> bool) (a b : string) :
  PyStr.all p (a ++ b) = PyStr.all p a && PyStr.all p b.
Proof.
  induction a as [|x a IH]; simpl; [reflexivity |].
  rewrite IH. now rewrite andb_assoc.
Qed.

Lemma digit_cases (c : ascii) :
  PyStr.is_digit c = true ->
  c = "0"%char \/ c = "1"%char \/ c = "2"%char \/ c = "3"%char \/
  c = "4"%char \/ c = "5"%char \/ c = "6"%char \/ c = "7"%char \/
  c = "8"%char \/ c = "9"%char.
Proof.
  destruct c as [b0 b1 b2 b3 b4 b5 b6 b7].
  destruct b0, b1, b2, b3, b4, b5, b6, b7; vm_compute; intros H;
    try discriminate H; tauto.
Qed.

Lemma digits_cons (s : string) :
  digits s = true ->
  exists c s', s = String c s' /\ PyStr.is_digit c = true
               /\ PyStr.all PyStr.is_digit s' = true.
Proof.
  unfold digits. destruct s as [|c s']; simpl; [discriminate |].
  intros H. apply andb_prop in H as [Hc Hs]. eauto.
Qed.

Lemma digits_all (s : string) :
  digits s = true -> PyStr.all PyStr.is_digit s = true.
Proof. unfold digits. intros H. now apply andb_prop in H as [_ H]. Qed.

End StringFacts.

(** ** The matcher *)

Section MatcherFacts.

Import Re.

Lemma many1_app (cls : ascii -> bool) (ds t : string) :
  PyStr.all cls ds = true ->
  many1 cls (ds ++ t) = (many1 cls t ++ tails1 ds t)%list.
Proof.
  induction ds as [|c ds IH]; simpl; intros H.
  - now rewrite List.app_nil_r.
  - apply andb_prop in H as [Hc Hds]. rewrite Hc, (IH Hds).
    now rewrite <- List.app_assoc.
Qed.

Lemma In_tails1 (ds t r : string) :
  List.In r (tails1 ds t) ->
  exists d1 d2, ds = (d1 ++ d2)%string /\ d1 <> EmptyString
                /\ r = (d2 ++ t)%string.
Proof.
  induction ds as [|c ds IH]; simpl; [tauto |].
  intros H. apply List.in_app_or in H as [H | [<- | []]].
  - destruct (IH H) as (d1 & d2 & -> & Hne & ->).
    exists (String c d1), d2. repeat split. discriminate.
  - exists (String c EmptyString), ds. repeat split. discriminate.
Qed.

Lemma tails1_head (ds t : string) :
  ds <> EmptyString -> exists tl, tails1 ds t = t :: tl.
Proof.
  induction ds as [|c ds IH]; [congruence |]. intros _. simpl.
  destruct ds as [|c' ds'].
  - simpl. now exists [].
  - destruct IH as [tl Htl]; [discriminate |]. rewrite Htl.
    simpl. eauto.
Qed.

Lemma consumed_app (g r : string) : consumed (g ++ r) r = g.
Proof.
  unfold consumed. rewrite length_app_s.
  replace (String.length g + String.length r - String.length r)%nat
    with (String.length g) by lia.
  induction g as [|c g IH]; simpl.
  - now destruct r.
  - now rewrite IH.
Qed.

(** A run of class characters followed by a text that the class does not
    start: the greedy choice comes first. *)
Lemma many1_run (cls : ascii -> bool) (ds t : string) :
  PyStr.all cls ds = true -> ds <> EmptyString -> many1 cls t = [] ->
  exists tl, many1 cls (ds ++ t) = t :: tl
             /\ forall r, List.In r tl ->
                  exists d1 d2, ds = (d1 ++ d2)%string /\ d2 <> EmptyString
                                /\ r = (d2 ++ t)%string.
Proof.
  intros Hall Hne Ht. rewrite (many1_app _ _ _ Hall), Ht. simpl.
  revert Hne Hall. induction ds as [|c ds IH]; [congruence |].
  intros _ Hall. simpl in Hall. apply andb_prop in Hall as [Hc Hds].
  simpl. destruct ds as [|c' ds'].
  - simpl. exists []. split; [reflexivity |]. intros r [].
  - destruct IH as (tl & Htl & Hin); [discriminate | assumption |].
    rewrite Htl. simpl. eexists. split; [reflexivity |].
    intros r Hr. apply List.in_app_or in Hr as [Hr | [<- | []]].
    + destruct (Hin r Hr) as (d1 & d2 & Hd & Hd2 & ->).
      exists (String c d1), d2. rewrite Hd. repeat split. assumption.
    + exists (String c EmptyString), (String c' ds'). repeat split. discriminate.
Qed.

Lemma flat_map_nil {A B} (f : A -> list B) (l : list A) :
  (forall a, List.In a l -> f a = []) -> List.flat_map f l = [].
Proof.
  induction l as [|a l IH]; simpl; intros H; [reflexivity |].
  rewrite (H a (or_introl eq_refl)). simpl. apply IH. intros; apply H; auto.
Qed.

(** No match of [r2] after any match of [r1]: no match of the sequence. *)
Lemma cat_none (ic : bool) (r1 r2 : regex) (s : string) :
  (forall m1, List.In m1 (matches_at ic r1 s) ->
              matches_at ic r2 (fst m1) = []) ->
  matches_at ic (Cat r1 r2) s = [].
Proof.
  intros H. simpl. apply flat_map_nil. intros m1 Hm1.
  now rewrite (H m1 Hm1).
Qed.

(** The first match of [r1] followed by a match of [r2] is the first match
    of the sequence. *)
Lemma cat_first (ic : bool) (r1 r2 : regex) (s : string) m1 tl1 m2 tl2 :
  matches_at ic r1 s = m1 :: tl1 ->
  matches_at ic r2 (fst m1) = m2 :: tl2 ->
  exists tl, matches_at ic (Cat r1 r2) s
             = (fst m2, later (snd m2) (snd m1)) :: tl.
Proof. intros H1 H2. simpl. rewrite H1. simpl. rewrite H2. simpl. eauto. Qed.

Lemma search_skip (p : pattern) (c : ascii) (s : string) :
  match_here p (String c s) = None -> search p (String c s) = search p s.
Proof. intros H. simpl. now rewrite H. Qed.

Lemma search_here (p : pattern) (s : string) (m : match_obj) :
  match_here p s = Some m -> search p s = Some m.
Proof. intros H. destruct s; simpl; now rewrite H. Qed.

End MatcherFacts.

Section PatternFacts.

Import Re.

Lemma digits_ne (n : string) : digits n = true -> n <> EmptyString.
Proof. intros H. destruct (digits_cons n H) as (c & s' & -> & _). discriminate. Qed.

(** The first match of a captured class run followed by [k]. *)
Lemma group_run_first (cls : ascii -> bool) (k : regex) (g t : string) m2 tl2 :
PyStr.all cls g = true -> g <> EmptyString -> many1 cls t = [] ->
matches_at false k t = m2 :: tl2 -> snd m2 = None ->
match_here (Compile (Cat (Group (Plus cls)) k) false) (g ++ t)
= Some (Match (Some g)).
Proof.
intros Hall Hne Ht Hk Hcap. unfold match_here. simpl re_body. simpl re_ignorecase.
destruct (many1_run cls g t Hall Hne Ht) as (tl & Hm & _).
edestruct (cat_first false (Group (Plus cls)) k (g ++ t)) as [tl' ->].
- simpl. rewrite Hm. simpl. reflexivity.
- simpl. exact Hk.
- simpl. now rewrite Hcap, consumed_app.
Qed.

Lemma beds_found (n R : string) :
digits n = true ->
search beds_re (n ++ " bd, " ++ R) = Some (Match (Some n)).
Proof.
intros Hn. apply search_here.
eapply group_run_first; [now apply digits_all | now apply digits_ne | | | ];
  reflexivity.
Qed.

(** After optional white space the literal cannot start at a character that
  is neither white space nor the literal's first character. *)
Lemma tail_blocked (l0 c : ascii) (l s : string) :
PyStr.is_space c = false -> Ascii.eqb l0 c = false ->
matches_at false (tail_re (String l0 l)) (String c s) = [].
Proof. intros Hs Hc. simpl. rewrite Hs. simpl. now rewrite Hc. Qed.

Lemma group_none (g k : regex) (s : string) :
(forall m1, In m1 (matches_at false g s) ->
            matches_at false k (fst m1) = []) ->
match_here (Compile (Cat (Group g) k) false) s = None.
Proof.
intros H. unfold match_here. simpl re_body. simpl re_ignorecase.
rewrite cat_none; [reflexivity |].
intros m1 Hm1. simpl in Hm1. apply in_map_iff in Hm1 as (m0 & <- & Hm0).
simpl. now apply H.
Qed.

Lemma group_first (g k : regex) (s : string) m1 tl1 m2 tl2 :
matches_at false g s = m1 :: tl1 ->
matches_at false k (fst m1) = m2 :: tl2 -> snd m2 = None ->
match_here (Compile (Cat (Group g) k) false) s
= Some (Match (Some (consumed s (fst m1)))).
Proof.
intros Hg Hk Hcap. unfold match_here. simpl re_body. simpl re_ignorecase.
edestruct (cat_first false (Group g) k s) as [tl' ->].
- simpl. rewrite Hg. simpl. reflexivity.
- simpl. exact Hk.
- simpl. now rewrite Hcap.
Qed.

Section SkipRun.

Variables (g : regex) (cls : ascii -> bool) (l0 : ascii) (l t : string).

(** Every match of [g] on a class run followed by [t] ends where a shorter
    or equal class run ends. *)
Hypothesis g_rests : forall run m1,
  PyStr.all cls run = true ->
  In m1 (matches_at false g (run ++ t)) ->
  In (fst m1) (many1 cls (run ++ t)).
Hypothesis cls_blocks : forall c,
  cls c = true -> PyStr.is_space c = false /\ Ascii.eqb l0 c = false.
Hypothesis t_stops : many1 cls t = [].
Hypothesis t_fails : matches_at false (tail_re (String l0 l)) t = [].

Let p := Compile (Cat (Group g) (tail_re (String l0 l))) false.

Lemma run_no_match (run : string) :
  PyStr.all cls run = true -> match_here p (run ++ t) = None.
Proof.
  intros Hall. apply group_none. intros m1 Hm1.
  apply g_rests in Hm1; [| assumption].
  rewrite (many1_app _ _ _ Hall), t_stops in Hm1. simpl in Hm1.
  apply In_tails1 in Hm1 as (d1 & d2 & -> & _ & ->).
  rewrite all_app in Hall. apply andb_prop in Hall as [_ Hd2].
  destruct d2 as [|c d2]; simpl; [exact t_fails |].
  simpl in Hd2. apply andb_prop in Hd2 as [Hc _].
  destruct (cls_blocks c Hc). now apply tail_blocked.
Qed.

Lemma search_skip_run (run : string) :
  PyStr.all cls run = true -> search p (run ++ t) = search p t.
Proof.
  induction run as [|c run IH]; intros Hall; [reflexivity |].
  change (String c run ++ t) with (String c (run ++ t)).
  rewrite search_skip.
  - apply IH. simpl in Hall. now apply andb_prop in Hall as [_ H].
  - change (String c (run ++ t)) with (String c run ++ t).
    now apply run_no_match.
Qed.

End SkipRun.

Lemma plus_rests (cls : ascii -> bool) (s : string) m1 :
In m1 (matches_at false (Plus cls) s) -> In (fst m1) (many1 cls s).
Proof. simpl. intros H. apply in_map_iff in H as (r & <- & Hr). exact Hr. Qed.

Lemma fig_blocks (c : ascii) :
is_fig c = true ->
PyStr.is_space c = false /\ Ascii.eqb "s" c = false.
Proof.
destruct c as [b0 b1 b2 b3 b4 b5 b6 b7].
destruct b0, b1, b2, b3, b4, b5, b6, b7; vm_compute; intros H;
  try discriminate H; split; reflexivity.
Qed.

Lemma digit_blocks (c : ascii) :
PyStr.is_digit c = true ->
PyStr.is_space c = false /\ Ascii.eqb "b" c = false.
Proof.
destruct c as [b0 b1 b2 b3 b4 b5 b6 b7].
destruct b0, b1, b2, b3, b4, b5, b6, b7; vm_compute; intros H;
  try discriminate H; split; reflexivity.
Qed.

Lemma digit_fig (s : string) :
PyStr.all PyStr.is_digit s = true -> PyStr.all is_fig s = true.
Proof.
induction s as [|c s IH]; simpl; [reflexivity |]. intros H.
apply andb_prop in H as [Hc Hs]. unfold is_fig at 1. rewrite Hc. simpl. auto.
Qed.

(** *** Square footage *)

Lemma sqft_skip_run (run t : string) :
PyStr.all is_fig run = true ->
many1 is_fig t = [] ->
matches_at false (tail_re "sqft") t = [] ->
search sqft_re (run ++ t) = search sqft_re t.
Proof.
intros Hrun Ht Hk.
apply (search_skip_run (Plus is_fig) is_fig "s" "qft" t); auto.
- intros r m1 _. apply plus_rests.
- apply fig_blocks.
Qed.

Lemma starts_digit_app (a b : string) :
starts_digit a = true -> starts_digit (a ++ b) = true.
Proof. destruct a; [discriminate | exact id]. Qed.

Lemma digits_starts (s : string) : digits s = true -> starts_digit s = true.
Proof. intros H. destruct (digits_cons s H) as (c & s' & -> & Hc & _). exact Hc. Qed.

Lemma sqft_skip_comma (s : string) :
starts_digit s = true ->
search sqft_re (String "," (String " " s)) = search sqft_re s.
Proof.
destruct s as [|c s]; [discriminate |]. simpl. intros Hc.
destruct (digit_cases c Hc) as [->|[->|[->|[->|[->|[->|[->|[->|[->| ->]]]]]]]]];
  reflexivity.
Qed.

Lemma figure_shape (groups : list string) :
figure_ok groups = true ->
PyStr.all is_fig (figure groups) = true
/\ exists c k', figure groups = String c k' /\ PyStr.is_digit c = true.
Proof.
destruct groups as [|g groups]; [discriminate |].
unfold figure_ok. revert g. induction groups as [|g' groups IH]; intros g H.
- simpl in H. rewrite andb_true_r in H. simpl. split.
  + apply digit_fig. now apply digits_all.
  + destruct (digits_cons g H) as (c & s' & -> & Hc & _). eauto.
- change (forallb digits (g :: g' :: groups))
    with (digits g && forallb digits (g' :: groups)) in H.
  apply andb_prop in H as [Hg Hrest].
  destruct (IH g' Hrest) as [Hall _].
  change (figure (g :: g' :: groups))
    with (g ++ "," ++ figure (g' :: groups)).
  split.
  + rewrite all_app. rewrite (digit_fig g (digits_all g Hg)). simpl.
    exact Hall.
  + destruct (digits_cons g Hg) as (c & s' & -> & Hc & _). simpl. eauto.
Qed.

Lemma replace_app (old : ascii) (new a b : string) :
PyStr.replace old new (a ++ b)
= PyStr.replace old new a ++ PyStr.replace old new b.
Proof.
induction a as [|c a IH]; simpl; [reflexivity |].
destruct (Ascii.eqb c old); rewrite IH; [| reflexivity].
now rewrite app_assoc_s.
Qed.

Lemma replace_digits (g : string) :
PyStr.all PyStr.is_digit g = true -> PyStr.replace "," EmptyString g = g.
Proof.
induction g as [|c g IH]; simpl; [reflexivity |]. intros H.
apply andb_prop in H as [Hc Hg]. rewrite (IH Hg).
destruct (digit_cases c Hc) as [->|[->|[->|[->|[->|[->|[->|[->|[->| ->]]]]]]]]];
  reflexivity.
Qed.

Lemma replace_figure (groups : list string) :
figure_ok groups = true ->
PyStr.replace "," EmptyString (figure groups) = concat_groups groups.
Proof.
destruct groups as [|g groups]; [discriminate |].
unfold figure_ok. revert g. induction groups as [|g' groups IH]; intros g H.
- simpl in H. rewrite andb_true_r in H. simpl.
  rewrite app_nil_r_s. apply replace_digits. now apply digits_all.
- change (forallb digits (g :: g' :: groups))
    with (digits g && forallb digits (g' :: groups)) in H.
  apply andb_prop in H as [Hg Hrest].
  change (figure (g :: g' :: groups))
    with (g ++ "," ++ figure (g' :: groups)).
  rewrite replace_app, (replace_digits g (digits_all g Hg)).
  change (concat_groups (g :: g' :: groups))
    with (g ++ concat_groups (g' :: groups)).
  f_equal. simpl. now apply IH.
Qed.

Lemma filter_app (p : ascii -> bool) (a b : string) :
PyStr.filter p (a ++ b) = PyStr.filter p a ++ PyStr.filter p b.
Proof.
induction a as [|c a IH]; simpl; [reflexivity |].
destruct (p c); rewrite IH; reflexivity.
Qed.

Lemma filter_digits (g : string) :
PyStr.all PyStr.is_digit g = true -> PyStr.filter PyStr.is_digit g = g.
Proof.
induction g as [|c g IH]; simpl; [reflexivity |]. intros H.
apply andb_prop in H as [Hc Hg]. now rewrite Hc, (IH Hg).
Qed.

(** Without its commas a figure is the digits of its groups. *)
Lemma filter_figure (groups : list string) :
figure_ok groups = true ->
PyStr.filter PyStr.is_digit (figure groups) = concat_groups groups.
Proof.
destruct groups as [|g groups]; [discriminate |].
unfold figure_ok. revert g. induction groups as [|g' groups IH]; intros g H.
- simpl in H. rewrite andb_true_r in H. simpl.
  rewrite app_nil_r_s. apply filter_digits. now apply digits_all.
- change (forallb digits (g :: g' :: groups))
    with (digits g && forallb digits (g' :: groups)) in H.
  apply andb_prop in H as [Hg Hrest].
  change (figure (g :: g' :: groups))
    with (g ++ "," ++ figure (g' :: groups)).
  rewrite filter_app, (filter_digits g (digits_all g Hg)).
  change (concat_groups (g :: g' :: groups))
    with (g ++ concat_groups (g' :: groups)).
  f_equal. simpl. now apply IH.
Qed.

Lemma sqft_found (n i : string) (frac : option string) (groups : list string) :
digits n = true -> digits i = true -> frac_ok frac = true ->
figure_ok groups = true ->
search sqft_re (details_blob n (decimal i frac) (figure groups))
= Some (Match (Some (figure groups))).
Proof.
intros Hn Hi Hf Hk. unfold details_blob.
destruct (figure_shape groups Hk) as (Hall & c & k' & Hshape & Hc).
assert (Hend : search sqft_re (" ba, " ++ figure groups ++ " sqft")
               = Some (Match (Some (figure groups)))).
{ cbn [String.append].
  do 3 (rewrite search_skip by reflexivity).
  rewrite sqft_skip_comma
    by (apply starts_digit_app; rewrite Hshape; exact Hc).
  apply search_here. eapply group_run_first; try reflexivity; try assumption.
  rewrite Hshape. discriminate. }
rewrite sqft_skip_run;
  [| now apply digit_fig, digits_all | reflexivity | reflexivity].
cbn [String.append].
do 3 (rewrite search_skip by reflexivity).
rewrite sqft_skip_comma
  by (apply starts_digit_app; destruct frac; simpl;
      [apply starts_digit_app |]; now apply digits_starts).
destruct frac as [f|]; simpl decimal.
- rewrite !app_assoc_s.
  rewrite sqft_skip_run;
    [| now apply digit_fig, digits_all | reflexivity | reflexivity].
  cbn [String.append]. rewrite search_skip by reflexivity.
  rewrite sqft_skip_run;
    [ exact Hend | now apply digit_fig, digits_all
    | reflexivity | reflexivity ].
- rewrite sqft_skip_run;
    [ exact Hend | now apply digit_fig, digits_all
    | reflexivity | reflexivity ].
Qed.

(** *** Bathrooms *)

Lemma plus_run_first (cls : ascii -> bool) (g t : string) :
PyStr.all cls g = true -> g <> EmptyString -> many1 cls t = [] ->
exists tl, matches_at false (Plus cls) (g ++ t) = (t, None) :: tl.
Proof.
intros Hall Hne Ht. destruct (many1_run cls g t Hall Hne Ht) as (tl & Hm & _).
simpl. rewrite Hm. simpl. eauto.
Qed.

Lemma frac_none (t : string) :
eat false "." t = None -> matches_at false frac_re t = [].
Proof. intros H. unfold frac_re. cbn [matches_at]. now rewrite H. Qed.

(** Where no fraction can start, the number pattern matches like [\d+]. *)
Lemma number_rests (t run : string) m1 :
many1 PyStr.is_digit t = [] -> eat false "." t = None ->
PyStr.all PyStr.is_digit run = true ->
In m1 (matches_at false number_re (run ++ t)) ->
In (fst m1) (many1 PyStr.is_digit (run ++ t)).
Proof.
intros Ht Hdot Hall Hin. unfold number_re in Hin.
cbn [matches_at] in Hin. apply in_flat_map in Hin as (m0 & Hm0 & Hin).
apply in_map_iff in Hm0 as (r & <- & Hr). cbn [fst snd] in Hin.
assert (Hfrac : matches_at false frac_re r = []).
{ rewrite (many1_app _ _ _ Hall), Ht in Hr. simpl in Hr.
  apply In_tails1 in Hr as (d1 & d2 & -> & _ & ->).
  rewrite all_app in Hall. apply andb_prop in Hall as [_ Hd2].
  destruct d2 as [|c d2]; cbn [String.append].
  - now apply frac_none.
  - simpl in Hd2. apply andb_prop in Hd2 as [Hc _].
    destruct (digit_cases c Hc)
      as [->|[->|[->|[->|[->|[->|[->|[->|[->| ->]]]]]]]]]; reflexivity. }
fold frac_re in Hin. rewrite Hfrac in Hin. simpl in Hin.
destruct Hin as [<- | []]. exact Hr.
Qed.

Lemma baths_skip_run (run t : string) :
PyStr.all PyStr.is_digit run = true ->
many1 PyStr.is_digit t = [] -> eat false "." t = None ->
matches_at false (tail_re "ba") t = [] ->
search baths_re (run ++ t) = search baths_re t.
Proof.
intros Hrun Ht Hdot Hk.
apply (search_skip_run number_re PyStr.is_digit "b" "a" t); auto.
- intros r m1. now apply number_rests.
- apply digit_blocks.
Qed.

Lemma number_first (i : string) (frac : option string) (t : string) :
digits i = true -> frac_ok frac = true ->
many1 PyStr.is_digit t = [] -> eat false "." t = None ->
exists tl,
  matches_at false number_re (decimal i frac ++ t) = (t, None) :: tl.
Proof.
intros Hi Hf Ht Hdot. unfold number_re.
destruct frac as [f|]; simpl decimal.
- rewrite !app_assoc_s.
  destruct (plus_run_first PyStr.is_digit i ("." ++ f ++ t))
    as [tl1 H1]; [now apply digits_all | now apply digits_ne | reflexivity |].
  destruct (plus_run_first PyStr.is_digit f t)
    as [tl2 H2]; [now apply digits_all | now apply digits_ne | assumption |].
  edestruct (cat_first false (Lit ".") (Plus PyStr.is_digit)
               ("." ++ f ++ t)) as [tl3 H3];
    [reflexivity | exact H2 |].
  edestruct (cat_first false (Plus PyStr.is_digit) (Opt frac_re)
               (i ++ "." ++ f ++ t)) as [tl4 H4]; [exact H1 | |].
  + cbn [fst matches_at]. fold frac_re.
    unfold frac_re at 1. rewrite H3. reflexivity.
  + exists tl4. exact H4.
- destruct (plus_run_first PyStr.is_digit i t)
    as [tl1 H1]; [now apply digits_all | now apply digits_ne | assumption |].
  edestruct (cat_first false (Plus PyStr.is_digit) (Opt frac_re) (i ++ t))
    as [tl4 H4]; [exact H1 | |].
  + cbn [fst matches_at]. fold frac_re. rewrite (frac_none t Hdot).
    reflexivity.
  + exists tl4. exact H4.
Qed.

Lemma baths_found (n i : string) (frac : option string) (R : string) :
digits n = true -> digits i = true -> frac_ok frac = true ->
search baths_re (n ++ " bd, " ++ decimal i frac ++ " ba, " ++ R)
= Some (Match (Some (decimal i frac))).
Proof.
intros Hn Hi Hf.
rewrite baths_skip_run;
  [| now apply digits_all | reflexivity | reflexivity | reflexivity].
cbn [String.append].
do 5 (rewrite search_skip by reflexivity).
apply search_here.
destruct (number_first i frac (" ba, " ++ R) Hi Hf eq_refl eq_refl)
  as [tl Hfirst].
unfold baths_re. fold frac_re. fold number_re.
erewrite group_first; [| exact Hfirst | reflexivity | reflexivity].
cbn [fst]. now rewrite consumed_app.
Qed.

End PatternFacts.

(** ** The methods, one by one *)

Section Frames.

Import ZillowFSBOScraper.

Lemma add_records_nil (w : world) : add_records w [] = w.
Proof.
  destruct w as [[d l] p t]. unfold add_records. simpl.
  now rewrite List.app_nil_r.
Qed.

Lemma add_records_app (w : world) (a b : list listing) :
  add_records (add_records w a) b = add_records w (a ++ b)%list.
Proof. unfold add_records. simpl. now rewrite List.app_assoc. Qed.

Lemma add_events_nil (w : world) : add_events w [] = w.
Proof.
  destruct w as [s p t]. unfold add_events. simpl.
  now rewrite List.app_nil_r.
Qed.

Lemma add_events_app (w : world) (a b : list event) :
  add_events (add_events w a) b = add_events w (a ++ b)%list.
Proof. unfold add_events. simpl. now rewrite List.app_assoc. Qed.

(** A card only appends to the listings, and the same on every world. *)
Lemma card_body_frame (card : Bs4.card) (w : world) :
  card_body card w = (card_outcome card, add_records w (card_records card)).
Proof.
  unfold card_outcome, card_records, card_body, bind, call, ret,
    append_listing.
  repeat match goal with
         | |- context [match ?o with _ => _ end] =>
             lazymatch o with
             | context [w] => fail
             | _ => destruct o eqn:?
             end
         end; simpl; rewrite ?add_records_nil; try reflexivity.
Qed.

Lemma for_cards_frame (cards : list Bs4.card) (w : world) :
  for_cards cards w
  = (cards_outcome cards, add_records w (cards_records cards)).
Proof.
  revert w. induction cards as [|card rest IH]; intros w.
  - unfold cards_outcome, cards_records. simpl. unfold ret.
    now rewrite add_records_nil.
  - unfold cards_outcome, cards_records. simpl. unfold bind.
    rewrite (card_body_frame card w), (card_body_frame card (blank 0)).
    destruct (card_outcome card) as [[]|e]; simpl.
    + rewrite (IH (add_records w _)), (IH (add_records (blank 0) _)).
      simpl. now rewrite add_records_app.
    + reflexivity.
Qed.

(** The records of a list of cards: those of the cards before the first
    one that raises. *)
Lemma cards_records_cons (card : Bs4.card) (rest : list Bs4.card) :
  cards_records (card :: rest)
  = match card_outcome card with
    | Ok _ => (card_records card ++ cards_records rest)%list
    | Raise _ => card_records card
    end.
Proof.
  unfold cards_records at 1. simpl. unfold bind.
  rewrite (card_body_frame card (blank 0)).
  destruct (card_outcome card) as [[]|e]; simpl; [| reflexivity].
  now rewrite for_cards_frame.
Qed.

Lemma cards_outcome_cons (card : Bs4.card) (rest : list Bs4.card) :
  cards_outcome (card :: rest)
  = match card_outcome card with
    | Ok _ => cards_outcome rest
    | Raise e => Raise e
    end.
Proof.
  unfold cards_outcome at 1. simpl. unfold bind.
  rewrite (card_body_frame card (blank 0)).
  destruct (card_outcome card) as [[]|e]; simpl; [| reflexivity].
  now rewrite for_cards_frame.
Qed.

(** A card that raises has added nothing: the record is appended last. *)
Lemma card_raise_no_record (card : Bs4.card) (e : exn) :
  card_outcome card = Raise e -> card_records card = [].
Proof.
  unfold card_outcome, card_records, card_body, bind, call, ret,
    append_listing.
  destruct (Bs4.select_one card _) as [fsbo_badge|?]; [| reflexivity].
  destruct (Bs4.find_string fsbo_re card) as [fsbo_text|?]; [| reflexivity].
  destruct (truthy_tag fsbo_badge || truthy_string fsbo_text);
    [| reflexivity].
  destruct (Bs4.select_one card "address") as [address_elem|?];
    [| reflexivity].
  destruct (Bs4.select_one card "[data-test='property-card-price']")
    as [price_elem|?]; [| reflexivity].
  destruct (Bs4.select_one card "[data-test='property-card-details']")
    as [details_elem|?]; [| reflexivity].
  destruct (Bs4.select_one card "a[href^='/homedetails']")
    as [[link_elem|]|?]; [| | reflexivity].
  - destruct (Bs4.get_item (Bs4.attrs link_elem) "href") as [href|?];
      [| reflexivity].
    destruct (PyStr.startswith "/" href); simpl;
      match goal with
      | |- context [bool_decide ?P] => destruct (bool_decide P)
      end; simpl; intros H; discriminate H.
  - simpl.
    match goal with
    | |- context [bool_decide ?P] => destruct (bool_decide P)
    end; simpl; intros H; discriminate H.
Qed.

Lemma parse_frame (env : Selenium.browser) (w : world) :
  parse_listings_page env w
  = (parse_outcome env (shown w),
     add_events (add_records w (page_records env (shown w))) [EParse]).
Proof.
  assert (Hfail : forall e : exn,
    (if is_Exception e
     then (Ok tt, add_events w [EParse])
     else (Raise e, add_events w [EParse]))
    = (fst (if is_Exception e
            then (Ok tt, add_events (blank (shown w)) [EParse])
            else (Raise e, add_events (blank (shown w)) [EParse])),
       add_events
         (add_records w
            (listings (self (snd
               (if is_Exception e
                then (Ok tt, add_events (blank (shown w)) [EParse])
                else (Raise e, add_events (blank (shown w)) [EParse]))))))
         [EParse])).
  { intros e. destruct (is_Exception e); simpl;
      now rewrite add_records_nil. }
  assert (Hcards : forall cards : list Bs4.card,
    (let (r, w') := for_cards cards (add_events w [EParse]) in
     match r with
     | Ok a => (Ok a, w')
     | Raise e => if is_Exception e then (Ok tt, w') else (Raise e, w')
     end)
    = (fst (let (r, w') := for_cards cards
                             (add_events (blank (shown w)) [EParse]) in
            match r with
            | Ok a => (Ok a, w')
            | Raise e =>
                if is_Exception e then (Ok tt, w') else (Raise e, w')
            end),
       add_events
         (add_records w
            (listings (self (snd
               (let (r, w') := for_cards cards
                                 (add_events (blank (shown w)) [EParse]) in
                match r with
                | Ok a => (Ok a, w')
                | Raise e =>
                    if is_Exception e then (Ok tt, w') else (Raise e, w')
                end)))))
         [EParse])).
  { intros cards. rewrite !for_cards_frame.
    destruct (cards_outcome cards) as [[]|e]; simpl;
      [reflexivity | destruct (is_Exception e); reflexivity]. }
  unfold parse_outcome, page_records, parse_listings_page, bind, call, ret,
    try_except, emit, current_view.
  cbn [shown blank self trace].
  change {| self := self w; shown := shown w;
            trace := (trace w ++ [EParse])%list |}
    with (add_events w [EParse]).
  change {| self := init; shown := shown w; trace := ([] ++ [EParse])%list |}
    with (add_events (blank (shown w)) [EParse]).
  cbn [shown add_events].
  destruct (Selenium.page_source (Selenium.views env (shown w)))
    as [soup|e]; [| apply Hfail].
  destruct (Bs4.select soup "ul.photo-cards > li") as [[|c cs]|e];
    [| apply Hcards | apply Hfail].
  destruct (Bs4.select soup "div[data-test='property-card']")
    as [cards|e]; [apply Hcards | apply Hfail].
Qed.

Lemma click_after_active_frame (all : list Selenium.web_element)
  (rest : list Selenium.web_element) (i : nat) (w : world) :
  click_after_active all i rest w
  = (fst (click_after_active all i rest (blank (shown w))),
     match fst (click_after_active all i rest (blank (shown w))) with
     | Ok true => advance w
     | _ => w
     end).
Proof.
  revert i. induction rest as [|button rest IH]; intros i; [reflexivity |].
  cbn [click_after_active]. unfold bind, call, raise.
  destruct (Selenium.get_attribute button "class") as [[c|]|e];
    [| reflexivity | reflexivity].
  destruct (PyStr.contains "active" c && (i + 1 <? length all)%nat);
    [| apply IH].
  destruct (all !! (i + 1)%nat) as [next|]; [| reflexivity].
  unfold click_next, random_delay, bind, call, emit, set_shown, ret.
  destruct (Selenium.click next) as [[]|e]; [| reflexivity].
  cbn. unfold advance. now rewrite <- List.app_assoc.
Qed.

Lemma next_frame (env : Selenium.browser) (w : world) :
  go_to_next_page env w
  = (next_outcome env (shown w),
     match next_outcome env (shown w) with
     | Ok true => advance w
     | _ => w
     end).
Proof.
  unfold next_outcome, go_to_next_page, try_except, bind, call,
    current_view, any_exception, ret.
  cbn [shown blank].
  assert (Hfallback :
    (let (r, w') :=
       match Selenium.find_elements (Selenium.views env (shown w))
               "li.PaginationNumberItem-c11n-8-84-3__sc-bnmlxt-0 a" with
       | Ok a => click_after_active a 0 a w
       | Raise e => (Raise e, w)
       end in
     match r with
     | Ok a => (Ok a, w')
     | Raise _ => (Ok false, w')
     end)
    = (fst (let (r, w') :=
              match Selenium.find_elements (Selenium.views env (shown w))
                      "li.PaginationNumberItem-c11n-8-84-3__sc-bnmlxt-0 a"
              with
              | Ok a => click_after_active a 0 a (blank (shown w))
              | Raise e => (Raise e, blank (shown w))
              end in
            match r with
            | Ok a => (Ok a, w')
            | Raise _ => (Ok false, w')
            end),
       match fst (let (r, w') :=
              match Selenium.find_elements (Selenium.views env (shown w))
                      "li.PaginationNumberItem-c11n-8-84-3__sc-bnmlxt-0 a"
              with
              | Ok a => click_after_active a 0 a (blank (shown w))
              | Raise e => (Raise e, blank (shown w))
              end in
            match r with
            | Ok a => (Ok a, w')
            | Raise _ => (Ok false, w')
            end) with
       | Ok true => advance w
       | _ => w
       end)).
  { destruct (Selenium.find_elements _ _) as [btns|e]; [| reflexivity].
    rewrite (click_after_active_frame btns btns 0 w).
    rewrite (click_after_active_frame btns btns 0 (blank (shown w))).
    cbn [shown blank fst].
    destruct (fst (click_after_active btns 0 btns (blank (shown w))))
      as [[|]|e]; reflexivity. }
  destruct (Selenium.find_element _ _) as [next_button|e].
  - destruct (Selenium.is_enabled next_button) as [[|]|e];
      [| reflexivity
       | destruct (is_NoSuchElementException e);
         [exact Hfallback | reflexivity]].
    unfold click_next, random_delay, bind, call, emit, set_shown, ret.
    destruct (Selenium.click next_button) as [[]|e].
    + cbn. unfold advance. now rewrite <- List.app_assoc.
    + destruct (is_NoSuchElementException e);
        [exact Hfallback | reflexivity].
  - destruct (is_NoSuchElementException e);
      [exact Hfallback | reflexivity].
Qed.

End Frames.

Section Acts.

Import ZillowFSBOScraper.

Lemma acts_ret {A} (a : A) (p : Z) : acts (ret a) p (Ok a) [] [] p.
Proof.
  intros [[d l] q t] <-. unfold ret. simpl. now rewrite !List.app_nil_r.
Qed.

Lemma acts_bind {A B} (m : Py A) (f : A -> Py B) p a recs evs p'
  r recs' evs' p'' :
  acts m p (Ok a) recs evs p' ->
  acts (f a) p' r recs' evs' p'' ->
  acts (bind m f) p r (recs ++ recs')%list (evs ++ evs')%list p''.
Proof.
  intros Hm Hf w Hw. unfold bind. rewrite (Hm w Hw).
  erewrite Hf by reflexivity. simpl. now rewrite !List.app_assoc.
Qed.

Lemma acts_bind_raise {A B} (m : Py A) (f : A -> Py B) p e recs evs p' :
  acts m p (Raise e) recs evs p' ->
  acts (bind m f) p (Raise e) recs evs p'.
Proof. intros Hm w Hw. unfold bind. now rewrite (Hm w Hw). Qed.

Lemma acts_emit (e : event) (p : Z) : acts (emit e) p (Ok tt) [] [e] p.
Proof.
  intros [[d l] q t] <-. unfold emit. simpl. now rewrite List.app_nil_r.
Qed.

Lemma acts_call {A} (o : outcome A) (p : Z) : acts (call o) p o [] [] p.
Proof.
  intros [[d l] q t] <-. unfold call. simpl. now rewrite !List.app_nil_r.
Qed.

Lemma acts_parse (env : Selenium.browser) (p : Z) :
  acts (parse_listings_page env) p (parse_outcome env p)
       (page_records env p) [EParse] p.
Proof. intros w <-. now rewrite parse_frame. Qed.

Lemma acts_next (env : Selenium.browser) (p : Z) :
  acts (go_to_next_page env) p (next_outcome env p) []
       (match next_outcome env p with
        | Ok true => [EAdvance; ESleep 3 6]
        | _ => []
        end)
       (match next_outcome env p with
        | Ok true => p + 1
        | _ => p
        end).
Proof.
  intros w <-. rewrite next_frame.
  destruct (next_outcome env (shown w)) as [[|]|e];
    destruct w as [[d l] q t]; unfold advance; simpl;
    now rewrite ?List.app_nil_r.
Qed.

(** The wait on the listing container: a timeout is printed and passed. *)
Lemma acts_wait (env : Selenium.browser) (p : Z) :
  acts (try_except
          (v <- current_view env ;; call (Selenium.wait_photo_cards v))
          is_TimeoutException (ret tt))
       p
       (match Selenium.wait_photo_cards (Selenium.views env p) with
        | Ok _ => Ok tt
        | Raise e => if is_TimeoutException e then Ok tt else Raise e
        end)
       [] [] p.
Proof.
  intros [[d l] q t] <-. unfold try_except, bind, current_view, call, ret.
  simpl. rewrite !List.app_nil_r.
  destruct (Selenium.wait_photo_cards _) as [[]|e]; [reflexivity |].
  destruct (is_TimeoutException e); reflexivity.
Qed.

Lemma click_displayed_acts (buttons : list Selenium.web_element) :
  exists r evs, (forall p, acts (click_displayed buttons) p r [] evs p)
                /\ Forall popup_event evs.
Proof.
  induction buttons as [|button rest (r & evs & IH & Hevs)].
  - exists (Ok tt), []. split; [intros p; apply acts_ret | constructor].
  - cbn [click_displayed].
    destruct (Selenium.is_displayed button) as [[|]|e] eqn:Hd.
    + destruct (Selenium.click button) as [[]|e] eqn:Hc.
      * exists r, ([EDismiss; ESleep 1 2] ++ evs)%list. split.
        -- intros p.
           eapply (acts_bind _ _ p true [] [] p r [] _ p);
             [rewrite <- Hd; apply acts_call |].
           eapply (acts_bind _ _ p tt [] [EDismiss; ESleep 1 2] p r [] evs p);
             [| apply IH].
           eapply (acts_bind _ _ p tt [] [] p (Ok tt) [] _ p);
             [rewrite <- Hc; apply acts_call |].
           eapply (acts_bind _ _ p tt [] [EDismiss] p (Ok tt) [] [_] p);
             [apply acts_emit | apply acts_emit].
        -- repeat constructor. exact Hevs.
      * exists (Raise e), []. split; [| constructor].
        intros p.
        eapply (acts_bind _ _ p true [] [] p (Raise e) [] [] p);
          [rewrite <- Hd; apply acts_call |].
        apply acts_bind_raise. apply acts_bind_raise.
        rewrite <- Hc. apply acts_call.
    + exists r, evs. split; [| exact Hevs].
      intros p.
      eapply (acts_bind _ _ p false [] [] p r [] evs p);
        [rewrite <- Hd; apply acts_call |].
      eapply (acts_bind _ _ p tt [] [] p r [] evs p);
        [apply acts_ret | apply IH].
    + exists (Raise e), []. split; [| constructor].
      intros p. apply acts_bind_raise. rewrite <- Hd. apply acts_call.
Qed.

Lemma acts_try_any (m : Py unit) p r recs evs p' :
  acts m p r recs evs p' ->
  acts (try_except m any_exception (ret tt)) p (Ok tt) recs evs p'.
Proof.
  intros Hm w Hw. unfold try_except. rewrite (Hm w Hw).
  destruct r as [[]|e]; reflexivity.
Qed.

Lemma sweep_popups_acts (env : Selenium.browser) (selectors : list string)
  (p : Z) :
  exists evs, acts (sweep_popups env selectors) p (Ok tt) [] evs p
              /\ Forall popup_event evs.
Proof.
  induction selectors as [|selector rest (evs & IH & Hevs)].
  - exists []. split; [apply acts_ret | constructor].
  - cbn [sweep_popups].
    assert (Hone : exists r evs1,
      acts (v <- current_view env ;;
            close_buttons <- call (Selenium.find_elements v selector) ;;
            click_displayed close_buttons) p r [] evs1 p
      /\ Forall popup_event evs1).
    { destruct (Selenium.find_elements (Selenium.views env p) selector)
        as [buttons|e] eqn:Hfind.
      - destruct (click_displayed_acts buttons) as (r & evs1 & Hb & H1).
        exists r, evs1. split; [| exact H1].
        intros w Hw. unfold bind at 1, current_view. rewrite Hw.
        unfold bind, call. rewrite Hfind. apply (Hb p w Hw).
      - exists (Raise e), []. split; [| constructor].
        intros w Hw. unfold bind at 1, current_view. rewrite Hw.
        unfold bind, call. rewrite Hfind.
        destruct w as [[d l] q t]. simpl in *. subst q.
        now rewrite !List.app_nil_r. }
    destruct Hone as (r & evs1 & Hone & H1).
    exists (evs1 ++ evs)%list. split.
    + eapply (acts_bind _ _ p tt [] evs1 p (Ok tt) [] evs p);
        [| exact IH].
      eapply acts_try_any. exact Hone.
    + apply Forall_app. now split.
Qed.

Lemma handle_popups_acts (env : Selenium.browser) (p : Z) :
  exists evs, acts (handle_popups env) p (Ok tt) [] evs p
              /\ Forall popup_event evs.
Proof.
  destruct (sweep_popups_acts env popup_selectors p) as (evs & H & Hevs).
  exists evs. split; [| exact Hevs].
  unfold handle_popups. eapply acts_try_any. exact H.
Qed.

End Acts.

Section Range.

Lemma range_nil (lo hi : Z) : hi <= lo -> range lo hi = [].
Proof.
  intros H. unfold range. replace (Z.to_nat (hi - lo)) with 0%nat by lia.
  reflexivity.
Qed.

Lemma range_cons (lo hi : Z) : lo < hi -> range lo hi = lo :: range (lo + 1) hi.
Proof.
  intros H. unfold range.
  replace (Z.to_nat (hi - lo)) with (S (Z.to_nat (hi - (lo + 1)))) by lia.
  cbn [List.seq List.map]. f_equal; [lia |].
  rewrite <- List.seq_shift, List.map_map.
  apply List.map_ext. intros i. lia.
Qed.

Lemma range_snoc (lo hi : Z) :
  lo <= hi -> range lo (hi + 1) = (range lo hi ++ [hi])%list.
Proof.
  intros H. unfold range.
  replace (Z.to_nat (hi + 1 - lo)) with (Z.to_nat (hi - lo) + 1)%nat by lia.
  rewrite List.seq_app, List.map_app. cbn [List.seq List.map].
  do 2 f_equal. lia.
Qed.

Lemma In_range (lo hi q : Z) : In q (range lo hi) <-> lo <= q < hi.
Proof.
  unfold range. rewrite List.in_map_iff. split.
  - intros (i & <- & Hi). apply List.in_seq in Hi. lia.
  - intros H. exists (Z.to_nat (q - lo)). split; [lia |].
    apply List.in_seq. lia.
Qed.

Lemma length_range (lo hi : Z) : length (range lo hi) = Z.to_nat (hi - lo).
Proof. unfold range. now rewrite List.length_map, List.length_seq. Qed.

End Range.

Section Loop.

Import ZillowFSBOScraper.

Variables (env : Selenium.browser) (max_pages : Z).

Lemma count_app (f : event -> bool) (a b : list event) :
  count f (a ++ b)%list = (count f a + count f b)%nat.
Proof. unfold count. now rewrite List.filter_app, List.length_app. Qed.

Lemma loop_event_weaken (page : Z) (rest : list Z) (e : event) :
  loop_event rest e -> loop_event (page :: rest) e.
Proof. destruct e; simpl; auto. Qed.

(** One iteration of the page loop. *)
Lemma for_pages_cons (page : Z) (rest : list Z) (p : Z) r recs evs p' :
  acts
    (match Selenium.wait_photo_cards (Selenium.views env p) with
     | Raise e =>
         if is_TimeoutException e then ret tt else raise e
     | Ok _ => ret tt
     end ;;;
     parse_listings_page env ;;;
     if page <? max_pages
     then more <- go_to_next_page env ;;
          if more then for_pages env max_pages rest else ret tt
     else for_pages env max_pages rest)
    p r recs evs p' ->
  acts (for_pages env max_pages (page :: rest)) p r recs
       ([EPage page; EWait] ++ evs)%list p'.
Proof.
  intros H w Hw. cbn [for_pages]. unfold bind at 1 2, emit at 1 2.
  cbn [trace self shown].
  specialize (H {| self := self w; shown := shown w;
                   trace := ((trace w ++ [EPage page]) ++ [EWait])%list |}
                Hw).
  cbn [trace self shown] in H.
  rewrite <- !List.app_assoc in H. cbn [List.app] in H.
  rewrite <- !List.app_assoc. cbn [List.app]. rewrite <- H.
  unfold bind at 1 3, try_except, current_view, call, bind.
  cbn [shown]. rewrite Hw.
  destruct (Selenium.wait_photo_cards (Selenium.views env p)) as [[]|e];
    [reflexivity |].
  destruct (is_TimeoutException e); reflexivity.
Qed.

Lemma wait_passes_ret (p : Z) :
  wait_passes (Selenium.views env p) = true ->
  match Selenium.wait_photo_cards (Selenium.views env p) with
  | Raise e => if is_TimeoutException e then ret tt else raise e
  | Ok _ => ret tt
  end = ret tt.
Proof.
  unfold wait_passes.
  destruct (Selenium.wait_photo_cards _) as [[]|e]; [reflexivity |].
  now intros ->.
Qed.

Lemma wait_fails_raise (p : Z) :
  wait_passes (Selenium.views env p) = false ->
  exists e, Selenium.wait_photo_cards (Selenium.views env p) = Raise e
            /\ is_TimeoutException e = false
            /\ match Selenium.wait_photo_cards (Selenium.views env p) with
               | Raise e => if is_TimeoutException e then ret tt else raise e
               | Ok _ => ret tt
               end = @raise unit e.
Proof.
  unfold wait_passes.
  destruct (Selenium.wait_photo_cards _) as [[]|e]; [discriminate |].
  intros H. exists e. rewrite H. auto.
Qed.

Lemma acts_raise {A} (e : exn) (p : Z) : acts (@raise A e) p (Raise e) [] [] p.
Proof.
  intros [[d l] q t] <-. unfold raise. simpl. now rewrite !List.app_nil_r.
Qed.

Section Iteration.

Variables (page : Z) (rest : list Z) (p : Z).

(** The wait raises something other than a timeout. *)
Lemma iteration_wait_raises (e : exn) :
  Selenium.wait_photo_cards (Selenium.views env p) = Raise e ->
  is_TimeoutException e = false ->
  acts (for_pages env max_pages (page :: rest)) p (Raise e) []
       [EPage page; EWait] p.
Proof.
  intros Hw He.
  apply (for_pages_cons page rest p (Raise e) [] [] p).
  rewrite Hw, He. apply acts_bind_raise, acts_raise.
Qed.

Hypothesis wait_ok : wait_passes (Selenium.views env p) = true.

(** Something that is not an [Exception] escapes the parse. *)
Lemma iteration_parse_raises (e : exn) :
  parse_outcome env p = Raise e ->
  acts (for_pages env max_pages (page :: rest)) p (Raise e)
       (page_records env p) [EPage page; EWait; EParse] p.
Proof.
  intros Hp.
  apply (for_pages_cons page rest p (Raise e) _ [EParse] p).
  rewrite (wait_passes_ret p wait_ok).
  eapply (acts_bind _ _ p tt [] [] p); [apply acts_ret |].
  apply acts_bind_raise. rewrite <- Hp. apply acts_parse.
Qed.

Hypothesis parse_ok : parse_outcome env p = Ok tt.

Lemma iteration_head r recs evs p' :
  acts (if page <? max_pages
        then more <- go_to_next_page env ;;
             if more then for_pages env max_pages rest else ret tt
        else for_pages env max_pages rest) p r recs evs p' ->
  acts (for_pages env max_pages (page :: rest)) p r
       (page_records env p ++ recs)%list
       ([EPage page; EWait; EParse] ++ evs)%list p'.
Proof.
  intros H.
  apply (for_pages_cons page rest p r _ ([EParse] ++ evs)%list p').
  rewrite (wait_passes_ret p wait_ok).
  eapply (acts_bind _ _ p tt [] [] p); [apply acts_ret |].
  eapply (acts_bind _ _ p tt _ [EParse] p); [| exact H].
  rewrite <- parse_ok. apply acts_parse.
Qed.

(** The last page: no next page is looked for. *)
Lemma iteration_last r recs evs p' :
  (page <? max_pages) = false ->
  acts (for_pages env max_pages rest) p r recs evs p' ->
  acts (for_pages env max_pages (page :: rest)) p r
       (page_records env p ++ recs)%list
       ([EPage page; EWait; EParse] ++ evs)%list p'.
Proof. intros Hlt H. apply iteration_head. now rewrite Hlt. Qed.

Hypothesis below : (page <? max_pages) = true.

Lemma iteration_advances r recs evs p' :
  next_outcome env p = Ok true ->
  acts (for_pages env max_pages rest) (p + 1) r recs evs p' ->
  acts (for_pages env max_pages (page :: rest)) p r
       (page_records env p ++ recs)%list
       ([EPage page; EWait; EParse; EAdvance; ESleep 3 6] ++ evs)%list p'.
Proof.
  intros Hn H.
  apply (iteration_head r recs ([EAdvance; ESleep 3 6] ++ evs)%list p').
  rewrite below.
  eapply (acts_bind _ _ p true [] [EAdvance; ESleep 3 6] (p + 1));
    [| exact H].
  pose proof (acts_next env p) as Hnext. now rewrite Hn in Hnext.
Qed.

(** [break]: no next page. *)
Lemma iteration_stops :
  next_outcome env p = Ok false ->
  acts (for_pages env max_pages (page :: rest)) p (Ok tt)
       (page_records env p) [EPage page; EWait; EParse] p.
Proof.
  intros Hn.
  pose proof (iteration_head (Ok tt) [] [] p) as H.
  rewrite List.app_nil_r in H. apply H. rewrite below.
  eapply (acts_bind _ _ p false [] [] p); [| apply acts_ret].
  pose proof (acts_next env p) as Hnext. now rewrite Hn in Hnext.
Qed.

Lemma iteration_next_raises (e : exn) :
  next_outcome env p = Raise e ->
  acts (for_pages env max_pages (page :: rest)) p (Raise e)
       (page_records env p) [EPage page; EWait; EParse] p.
Proof.
  intros Hn.
  pose proof (iteration_head (Raise e) [] [] p) as H.
  rewrite List.app_nil_r in H. apply H. rewrite below.
  apply acts_bind_raise.
  pose proof (acts_next env p) as Hnext. now rewrite Hn in Hnext.
Qed.

End Iteration.

End Loop.
Section LoopInvariant.

Import ZillowFSBOScraper.

Variables (env : Selenium.browser) (max_pages : Z).

Lemma Forall_loop_weaken (page : Z) (rest : list Z) (evs : list event) :
  Forall (loop_event rest) evs -> Forall (loop_event (page :: rest)) evs.
Proof.
  intros H. eapply Forall_impl; [exact H |].
  intros e. apply loop_event_weaken.
Qed.

(** Whatever happens, the page loop only appends records, emits loop
    events of its own pages, and advances the browser once per click, at
    most once per page below the ceiling. *)
Lemma for_pages_acts (pages : list Z) (p : Z) :
  exists r recs evs p',
    acts (for_pages env max_pages pages) p r recs evs p'
    /\ Forall (loop_event pages) evs
    /\ p' = p + Z.of_nat (count is_advance evs)
    /\ (count is_advance evs
        <= length (List.filter (fun q => (q <? max_pages)%Z) pages))%nat.
Proof.
  revert p. induction pages as [|page rest IH]; intros p.
  - exists (Ok tt), [], [], p. split; [| split; [| split]].
    + apply acts_ret.
    + constructor.
    + unfold count; simpl; lia.
    + unfold count; simpl; lia.
  - destruct (wait_passes (Selenium.views env p)) eqn:Hwait.
    2:{ destruct (wait_fails_raise env p Hwait) as (e & Hw & He & _).
        exists (Raise e), [], [EPage page; EWait], p. split; [| split; [| split]].
        - now apply iteration_wait_raises.
        - repeat constructor.
        - unfold count; simpl; lia.
        - unfold count; simpl; lia. }
    destruct (parse_outcome env p) as [[]|e] eqn:Hparse.
    2:{ exists (Raise e), (page_records env p), [EPage page; EWait; EParse], p.
        split; [| split; [| split]].
        - now apply iteration_parse_raises.
        - repeat constructor.
        - unfold count; simpl; lia.
        - unfold count; simpl; lia. }
    destruct (page <? max_pages) eqn:Hlt.
    + destruct (next_outcome env p) as [[|]|e] eqn:Hnext.
      * destruct (IH (p + 1)) as (r & recs & evs & p' & Hacts & Hevs & Hp' & Hc).
        exists r, (page_records env p ++ recs)%list,
          ([EPage page; EWait; EParse; EAdvance; ESleep 3 6] ++ evs)%list, p'.
        split; [| split; [| split]].
        -- now apply iteration_advances.
        -- apply Forall_app. split.
           ++ repeat constructor.
           ++ now apply Forall_loop_weaken.
        -- rewrite count_app. cbn [count List.filter is_advance length].
           unfold count in Hp'. unfold count. lia.
        -- rewrite count_app. cbn [List.filter]. rewrite Hlt.
           cbn [count List.filter is_advance length].
           unfold count in Hc. unfold count. unfold count; simpl; lia.
      * exists (Ok tt), (page_records env p), [EPage page; EWait; EParse], p.
        split; [| split; [| split]].
        -- now apply iteration_stops.
        -- repeat constructor.
        -- unfold count; simpl; lia.
        -- unfold count; simpl; lia.
      * exists (Raise e), (page_records env p), [EPage page; EWait; EParse], p.
        split; [| split; [| split]].
        -- now apply iteration_next_raises.
        -- repeat constructor.
        -- unfold count; simpl; lia.
        -- unfold count; simpl; lia.
    + destruct (IH p) as (r & recs & evs & p' & Hacts & Hevs & Hp' & Hc).
      exists r, (page_records env p ++ recs)%list,
        ([EPage page; EWait; EParse] ++ evs)%list, p'.
      split; [| split; [| split]].
      * now apply iteration_last.
      * apply Forall_app. split.
        -- repeat constructor.
        -- now apply Forall_loop_weaken.
      * rewrite count_app. cbn [count List.filter is_advance length].
        unfold count in Hp'. unfold count. lia.
      * rewrite count_app. cbn [List.filter]. rewrite Hlt.
        cbn [count List.filter is_advance length].
        unfold count in Hc. unfold count. unfold count; simpl; lia.
Qed.

End LoopInvariant.

Section Pages.

Import ZillowFSBOScraper.

Variables (env : Selenium.browser) (max_pages : Z).

Lemma page_completes_inv (q : Z) :
  page_completes env max_pages q = true ->
  wait_passes (Selenium.views env q) = true
  /\ parse_outcome env q = Ok tt
  /\ (q < max_pages -> next_outcome env q = Ok true).
Proof.
  unfold page_completes. intros H.
  apply andb_prop in H as [H Hnext]. apply andb_prop in H as [Hwait Hparse].
  split; [exact Hwait |]. split.
  - destruct (parse_outcome env q) as [[]|e]; [reflexivity | discriminate].
  - intros Hlt. apply orb_prop in Hnext as [Hge | Hnext].
    + apply negb_true_iff in Hge. lia.
    + destruct (next_outcome env q) as [[|]|e];
        [reflexivity | discriminate | discriminate].
Qed.

(** The pages before [P] are all left through a next-page control: the
    loop reaches page [P] with their records and events. *)
Lemma for_pages_prefix (k : nat) (a P : Z) r recs evs p' :
  P = a + Z.of_nat k -> P <= max_pages ->
  (forall q, a <= q < P -> page_completes env max_pages q = true) ->
  acts (for_pages env max_pages (range P (max_pages + 1))) P r recs evs p' ->
  acts (for_pages env max_pages (range a (max_pages + 1))) a r
       (List.flat_map (page_records env) (range a P) ++ recs)%list
       (List.flat_map smooth_events (range a P) ++ evs)%list p'.
Proof.
  revert a. induction k as [|k IH]; intros a HP Hle Hpages Hacts.
  - replace P with a in * by lia. rewrite (range_nil a a) by lia.
    exact Hacts.
  - rewrite (range_cons a (max_pages + 1)) by lia.
    rewrite (range_cons a P) by lia. cbn [List.flat_map].
    rewrite <- !List.app_assoc.
    destruct (page_completes_inv a) as (Hwait & Hparse & Hnext);
      [apply Hpages; lia |].
    apply iteration_advances; try assumption.
    + apply Z.ltb_lt. lia.
    + apply Hnext. lia.
    + apply IH; [lia | lia | | exact Hacts].
      intros q Hq. apply Hpages. lia.
Qed.

(** The last page of the run. *)
Lemma for_pages_last_page :
  wait_passes (Selenium.views env max_pages) = true ->
  parse_outcome env max_pages = Ok tt ->
  acts (for_pages env max_pages (range max_pages (max_pages + 1)))
       max_pages (Ok tt) (page_records env max_pages)
       (load_events max_pages) max_pages.
Proof.
  intros Hwait Hparse.
  rewrite (range_cons max_pages (max_pages + 1)) by lia.
  rewrite (range_nil (max_pages + 1)) by lia.
  pose proof (iteration_last env max_pages max_pages [] max_pages Hwait
                Hparse (Ok tt) [] [] max_pages) as H.
  rewrite !List.app_nil_r in H. apply H.
  - apply Z.ltb_ge. lia.
  - apply acts_ret.
Qed.

(** A page below the ceiling on which no next page is found. *)
Lemma for_pages_stop_page (P : Z) :
  P < max_pages ->
  wait_passes (Selenium.views env P) = true ->
  parse_outcome env P = Ok tt ->
  next_outcome env P = Ok false ->
  acts (for_pages env max_pages (range P (max_pages + 1)))
       P (Ok tt) (page_records env P) (load_events P) P.
Proof.
  intros Hlt Hwait Hparse Hnext.
  rewrite (range_cons P (max_pages + 1)) by lia.
  apply iteration_stops; try assumption. apply Z.ltb_lt. lia.
Qed.

End Pages.

Section NoNext.

Import ZillowFSBOScraper.

Lemma after_active_none (all rest : list Selenium.web_element) (i : nat)
  (w : world) :
  after_active all i rest = None ->
  match fst (click_after_active all i rest w) with
  | Ok b => b = false
  | Raise _ => True
  end.
Proof.
  revert i. induction rest as [|button rest IH]; intros i; [reflexivity |].
  cbn [after_active click_after_active]. unfold bind, call, raise.
  destruct (Selenium.get_attribute button "class") as [[c|]|e];
    [| intros _; exact I | intros _; exact I].
  destruct (PyStr.contains "active" c && (i + 1 <? length all)%nat);
    [| apply IH].
  destruct (all !! (i + 1)%nat) as [next|]; [discriminate |].
  intros _. exact I.
Qed.

(** Where neither strategy locates a control, [go_to_next_page] returns
    [False]. *)
Lemma no_next_control_false (env : Selenium.browser) (p : Z) :
  no_next_control (Selenium.views env p) = true ->
  next_outcome env p = Ok false.
Proof.
  unfold no_next_control, next_outcome, go_to_next_page, try_except, bind,
    call, current_view, any_exception, ret.
  cbn [shown blank].
  destruct (Selenium.find_element _ _) as [b|[]]; try discriminate.
  cbn [is_NoSuchElementException].
  destruct (Selenium.find_elements _ _) as [btns|e]; [| reflexivity].
  destruct (after_active btns 0 btns) eqn:Hnone; [discriminate |].
  intros _.
  pose proof (after_active_none btns btns 0 (blank p) Hnone) as H.
  destruct (click_after_active btns 0 btns (blank p)) as [[b|e] w'];
    cbn [fst] in *; [now subst b | reflexivity].
Qed.

End NoNext.
Section Run.

Import ZillowFSBOScraper.

Variables (env : Selenium.browser) (location : string) (max_pages : Z).

Lemma close_browser_ok (w : world) : fst (close_browser w) = Ok tt.
Proof.
  unfold close_browser, bind, get_self.
  destruct (driver (self w)); reflexivity.
Qed.

Lemma close_browser_world (w : world) :
  snd (close_browser w)
  = match driver (self w) with
    | Some _ =>
        {| self := {| driver := Some HasQuit;
                      listings := listings (self w) |};
           shown := shown w; trace := (trace w ++ [EQuit])%list |}
    | None => w
    end.
Proof.
  unfold close_browser, bind, get_self.
  destruct (driver (self w)); reflexivity.
Qed.

(** The run, from what the statements under [try:] did. *)
Lemma search_of_body (w w' : world) (r : outcome (list listing)) :
  search_body env location max_pages w = (r, w') ->
  search_fsbo_listings env location max_pages w
  = (match r with
     | Ok l => Ok l
     | Raise e => if is_Exception e then Ok (listings (self w')) else Raise e
     end,
     snd (close_browser w')).
Proof.
  intros Hbody. unfold search_fsbo_listings, try_finally, try_except.
  rewrite Hbody.
  assert (Hclose : forall (x : outcome (list listing)) (v : world),
    (let (r0, w'0) := (x, v) in
     match close_browser w'0 with
     | (Ok _, w'') => (r0, w'')
     | (Raise e, w'') => (Raise e, w'')
     end) = (x, snd (close_browser v))).
  { intros x v. pose proof (close_browser_ok v) as Hok.
    destruct (close_browser v) as [[[]|e] v']; [reflexivity | discriminate]. }
  destruct r as [l|e]; [apply Hclose |].
  destruct (is_Exception e); [| apply Hclose].
  unfold bind, get_self, ret. apply Hclose.
Qed.

(** What follows the loading of the search page. *)
Lemma harvest_acts r recs evs p' :
  acts (for_pages env max_pages (range 1 (max_pages + 1))) 1 r recs evs p' ->
  exists pops, Forall popup_event pops /\
    forall w, shown w = 1 ->
      (random_delay 3 6 ;;;
       handle_popups env ;;;
       for_pages env max_pages (range 1 (max_pages + 1)) ;;;
       me <- get_self ;;
       ret (listings me)) w
      = (match r with
         | Ok _ => Ok (listings (self w) ++ recs)%list
         | Raise e => Raise e
         end,
         {| self := {| driver := driver (self w);
                       listings := (listings (self w) ++ recs)%list |};
            shown := p';
            trace := (trace w ++ [ESleep 3 6] ++ pops ++ evs)%list |}).
Proof.
  intros Hloop.
  destruct (handle_popups_acts env 1) as (pops & Hpop & Hpops).
  exists pops. split; [exact Hpops |]. intros w Hw.
  unfold bind at 1, random_delay, emit. cbn [self shown trace].
  unfold bind at 1. erewrite Hpop by exact Hw. cbn [self shown trace].
  unfold bind at 1. erewrite Hloop by reflexivity.
  cbn [self shown trace driver listings].
  rewrite !List.app_nil_r, <- !List.app_assoc.
  destruct r as [[]|e]; reflexivity.
Qed.

(** A run whose browser comes up and loads the search page. *)
Lemma body_exact (d : option session) (l0 : list listing) r recs evs p' :
  startup_ok env {| driver := d; listings := l0 |} location = true ->
  acts (for_pages env max_pages (range 1 (max_pages + 1))) 1 r recs evs p' ->
  exists pre, Forall startup_event pre /\
    forall l,
      search_body env location max_pages
        (start {| driver := d; listings := l |})
      = (match r with
         | Ok _ => Ok (l ++ recs)%list
         | Raise e => Raise e
         end,
         {| self := {| driver := started d;
                       listings := (l ++ recs)%list |};
            shown := p'; trace := (pre ++ evs)%list |}).
Proof.
  intros Hstart Hloop.
  destruct (harvest_acts r recs evs p' Hloop) as (pops & Hpops & Htail).
  unfold startup_ok in Hstart. apply andb_prop in Hstart as [Hup Hget].
  destruct (Selenium.get env (search_url location)) as [[]|e] eqn:Hg;
    [| discriminate].
  assert (Hstartup : forall pre0 : list event,
    Forall startup_event pre0 ->
    Forall startup_event
      (pre0 ++ [EGet (search_url location)] ++ [ESleep 3 6] ++ pops)%list).
  { intros pre0 H0. apply Forall_app. split; [exact H0 |].
    constructor; [exact I |]. constructor; [exact I |].
    eapply Forall_impl; [exact Hpops |]. intros [] H; try exact H;
      destruct H. }
  destruct d as [d|]; cbn [driver listings started] in *.
  - exists ([] ++ [EGet (search_url location)] ++ [ESleep 3 6] ++ pops)%list.
    split; [apply Hstartup; constructor |]. intros l.
    unfold search_body, start, bind at 1, get_self. cbn [driver self].
    unfold bind at 1, ret. unfold bind at 1, call. rewrite Hg.
    unfold bind at 1, emit. cbn [self shown trace].
    unfold bind at 1, set_shown. cbn [self shown trace].
    rewrite Htail by reflexivity. cbn [self shown trace driver listings].
    now rewrite <- !List.app_assoc.
  - destruct (Selenium.chrome env) as [[]|e] eqn:Hc; [| discriminate].
    destruct (Selenium.set_window_size env) as [[]|e] eqn:Hs;
      [| discriminate].
    exists ([EStart] ++ [EGet (search_url location)] ++ [ESleep 3 6]
            ++ pops)%list.
    split; [apply Hstartup; repeat constructor |]. intros l.
    unfold search_body, start, bind at 1, get_self. cbn [driver self].
    unfold bind at 1, start_browser, bind at 1, call. rewrite Hc.
    unfold bind at 1, set_driver. cbn [self shown trace listings].
    unfold bind at 1, emit. cbn [self shown trace]. rewrite Hs.
    unfold bind at 1, call. rewrite Hg.
    unfold bind at 1, emit. cbn [self shown trace].
    unfold bind at 1, set_shown. cbn [self shown trace].
    rewrite Htail by reflexivity. cbn [self shown trace driver listings].
    now rewrite <- !List.app_assoc.
Qed.

(** A run that does not get as far as the page loop. *)
Lemma body_startup_fails (d : option session) (l0 : list listing) :
  startup_ok env {| driver := d; listings := l0 |} location = false ->
  exists e pre d',
    Forall startup_event pre
    /\ (d' = None -> d = None /\ Selenium.chrome env = Raise e)
    /\ (d' = d \/ d' = Some Running)
    /\ forall l,
         search_body env location max_pages
           (start {| driver := d; listings := l |})
         = (Raise e,
            {| self := {| driver := d'; listings := l |};
               shown := 0; trace := pre |}).
Proof.
  unfold startup_ok. cbn [driver]. intros Hfail.
  destruct d as [d|].
  - destruct (Selenium.get env (search_url location)) as [[]|e] eqn:Hg;
      [discriminate |].
    exists e, [], (Some d). split; [constructor |].
    split; [discriminate |]. split; [now left |]. intros l.
    unfold search_body, start, bind at 1, get_self. cbn [driver self].
    unfold bind at 1, ret. unfold bind at 1, call. now rewrite Hg.
  - destruct (Selenium.chrome env) as [[]|e] eqn:Hc.
    + destruct (Selenium.set_window_size env) as [[]|e] eqn:Hs.
      * destruct (Selenium.get env (search_url location)) as [[]|e] eqn:Hg;
          [discriminate |].
        exists e, [EStart], (Some Running). split; [repeat constructor |].
        split; [discriminate |]. split; [now right |]. intros l.
        unfold search_body, start, bind at 1, get_self. cbn [driver self].
        unfold bind at 1, start_browser, bind at 1, call. rewrite Hc.
        unfold bind at 1, set_driver. cbn [self shown trace listings].
        unfold bind at 1, emit. cbn [self shown trace]. rewrite Hs.
        unfold bind at 1, call. now rewrite Hg.
      * exists e, [EStart], (Some Running). split; [repeat constructor |].
        split; [discriminate |]. split; [now right |]. intros l.
        unfold search_body, start, bind at 1, get_self. cbn [driver self].
        unfold bind at 1, start_browser, bind at 1, call. rewrite Hc.
        unfold bind at 1, set_driver. cbn [self shown trace listings].
        unfold bind at 1, emit. cbn [self shown trace]. now rewrite Hs.
    + exists e, [], None. split; [constructor |].
      split; [auto |]. split; [now left |]. intros l.
      unfold search_body, start, bind at 1, get_self. cbn [driver self].
      unfold bind at 1, start_browser, bind at 1, call. now rewrite Hc.
Qed.

Lemma body_shape (d : option session) :
  exists (r : outcome unit) recs pre evs (d' : option session) p',
    Forall startup_event pre
    /\ Forall (loop_event (range 1 (max_pages + 1))) evs
    /\ (count is_advance evs
        <= length (List.filter (fun q => (q <? max_pages)%Z)
                               (range 1 (max_pages + 1))))%nat
    /\ (d' = None -> d = None)
    /\ (d' = d \/ d' = Some Running)
    /\ forall l,
         search_body env location max_pages
           (start {| driver := d; listings := l |})
         = (match r with
            | Ok _ => Ok (l ++ recs)%list
            | Raise e => Raise e
            end,
            {| self := {| driver := d'; listings := (l ++ recs)%list |};
               shown := p'; trace := (pre ++ evs)%list |}).
Proof.
  destruct (startup_ok env {| driver := d; listings := [] |} location)
    eqn:Hstart.
  - destruct (for_pages_acts env max_pages (range 1 (max_pages + 1)) 1)
      as (r & recs & evs & p' & Hacts & Hevs & _ & Hcount).
    destruct (body_exact d [] r recs evs p' Hstart Hacts)
      as (pre & Hpre & Hbody).
    exists r, recs, pre, evs, (started d), p'.
    repeat (split; [assumption |]).
    split; [destruct d; [discriminate | discriminate] |].
    split; [destruct d; [now left | now right] |]. exact Hbody.
  - destruct (body_startup_fails d [] Hstart)
      as (e & pre & d' & Hpre & Hnone & Hd' & Hbody).
    exists (Raise e), [], pre, [], d', 0.
    split; [exact Hpre |]. split; [constructor |].
    split; [unfold count; simpl; lia |].
    split; [intros H; now apply Hnone |]. split; [exact Hd' |].
    intros l. rewrite !List.app_nil_r. apply Hbody.
Qed.

(** Every run: what it returns, the state it leaves and its trace. *)
Lemma run_shape (d : option session) :
  exists (r : outcome unit) recs pre evs (d' : option session) p',
    Forall startup_event pre
    /\ Forall (loop_event (range 1 (max_pages + 1))) evs
    /\ (count is_advance evs
        <= length (List.filter (fun q => (q <? max_pages)%Z)
                               (range 1 (max_pages + 1))))%nat
    /\ (d' = None -> d = None)
    /\ forall l,
         run env {| driver := d; listings := l |} location max_pages
         = (match r with
            | Ok _ => Ok (l ++ recs)%list
            | Raise e =>
                if is_Exception e then Ok (l ++ recs)%list else Raise e
            end,
            {| self := {| driver := match d' with
                                    | Some _ => Some HasQuit
                                    | None => None
                                    end;
                          listings := (l ++ recs)%list |};
               shown := p';
               trace := (pre ++ evs
                         ++ match d' with
                            | Some _ => [EQuit]
                            | None => []
                            end)%list |}).
Proof.
  destruct (body_shape d)
    as (r & recs & pre & evs & d' & p' & Hpre & Hevs & Hcount & Hnone
        & _ & Hbody).
  exists r, recs, pre, evs, d', p'.
  repeat (split; [assumption |]). intros l. unfold run.
  rewrite (search_of_body _ _ _ (Hbody l)), close_browser_world.
  cbn [self driver listings shown trace].
  destruct d' as [x|]; destruct r as [[]|e];
    rewrite <- ?List.app_assoc, ?List.app_nil_r; reflexivity.
Qed.

End Run.

Section Counting.

Lemma filter_none {A} (f : A -> bool) (P : A -> Prop) (l : list A) :
  Forall P l -> (forall a, P a -> f a = false) -> List.filter f l = [].
Proof.
  intros Hall Hf. induction Hall as [|a l Ha _ IH]; [reflexivity |].
  simpl. now rewrite (Hf a Ha).
Qed.

Lemma filter_all {A} (f : A -> bool) (l : list A) :
  (forall a, In a l -> f a = true) -> List.filter f l = l.
Proof.
  induction l as [|a l IH]; intros H; [reflexivity |].
  simpl. rewrite (H a (or_introl eq_refl)). f_equal. apply IH.
  intros b Hb. apply H. now right.
Qed.

(** Of the pages [1 .. N], [N - 1] are below the ceiling [N]. *)
Lemma pages_below (N : Z) :
  1 <= N ->
  length (List.filter (fun q => (q <? N)%Z) (range 1 (N + 1)))
  = Z.to_nat (N - 1).
Proof.
  intros HN. rewrite (range_snoc 1 N) by lia.
  rewrite List.filter_app. cbn [List.filter].
  rewrite Z.ltb_irrefl, List.app_nil_r.
  rewrite filter_all; [apply length_range |].
  intros q Hq. apply In_range in Hq. apply Z.ltb_lt. lia.
Qed.

End Counting.
Section PageFacts.

Import ZillowFSBOScraper.

(** A page adds the records of the cards it is parsed from. *)
Lemma page_records_cards (env : Selenium.browser) (p : Z) :
  page_records env p = cards_records (page_cards env p).
Proof.
  unfold page_records, page_cards, parse_listings_page, bind, call, ret,
    try_except, emit, current_view.
  cbn [shown blank self trace].
  destruct (Selenium.page_source (Selenium.views env p)) as [soup|e].
  2:{ destruct (is_Exception e); reflexivity. }
  destruct (Bs4.select soup "ul.photo-cards > li") as [[|c cs]|e].
  - destruct (Bs4.select soup "div[data-test='property-card']")
      as [cards|e].
    + rewrite for_cards_frame.
      destruct (cards_outcome cards) as [[]|e]; simpl;
        [reflexivity | destruct (is_Exception e); reflexivity].
    + destruct (is_Exception e); reflexivity.
  - rewrite for_cards_frame.
    destruct (cards_outcome (c :: cs)) as [[]|e]; cbn -[cards_records];
      [reflexivity | destruct (is_Exception e); reflexivity].
  - destruct (is_Exception e); reflexivity.
Qed.

(** With cards to parse, only what escapes the loop over the cards and is
    not an [Exception] escapes the page. *)
Lemma parse_outcome_cards (env : Selenium.browser) (p : Z) :
  page_cards env p <> [] ->
  parse_outcome env p
  = match cards_outcome (page_cards env p) with
    | Ok _ => Ok tt
    | Raise e => if is_Exception e then Ok tt else Raise e
    end.
Proof.
  unfold parse_outcome, page_cards, parse_listings_page, bind, call, ret,
    try_except, emit, current_view.
  cbn [shown blank self trace].
  destruct (Selenium.page_source (Selenium.views env p)) as [soup|e];
    [| congruence].
  destruct (Bs4.select soup "ul.photo-cards > li") as [[|c cs]|e];
    [| | congruence].
  - destruct (Bs4.select soup "div[data-test='property-card']")
      as [cards|e]; [| congruence].
    intros _. rewrite for_cards_frame.
    destruct (cards_outcome cards) as [[]|e]; simpl;
      [reflexivity | destruct (is_Exception e); reflexivity].
  - intros _. rewrite for_cards_frame.
    destruct (cards_outcome (c :: cs)) as [[]|e]; cbn -[cards_outcome];
      [reflexivity | destruct (is_Exception e); reflexivity].
Qed.

Lemma cards_records_nil : cards_records [] = [].
Proof. reflexivity. Qed.

(** Every record of a list of cards is the record of one of them. *)
Lemma In_cards_records (cards : list Bs4.card) (r : listing) :
  In r (cards_records cards) ->
  exists card, In card cards /\ In r (card_records card).
Proof.
  induction cards as [|card rest IH]; [intros [] |].
  rewrite cards_records_cons.
  destruct (card_outcome card) as [[]|e].
  - intros H. apply List.in_app_or in H as [H | H].
    + exists card. split; [now left | exact H].
    + destruct (IH H) as (c & Hc & Hr). exists c. split; [now right | exact Hr].
  - intros H. exists card. split; [now left | exact H].
Qed.

(** The cards before the first one that raises are all that count. *)
Lemma cards_records_until (pre post : list Bs4.card) (bad : Bs4.card)
  (e : exn) :
  Forall (fun c => card_outcome c = Ok tt) pre ->
  card_outcome bad = Raise e ->
  cards_records (pre ++ bad :: post) = List.flat_map card_records pre
  /\ cards_outcome (pre ++ bad :: post) = Raise e.
Proof.
  intros Hpre Hbad. induction Hpre as [|c pre Hc _ [IHr IHo]].
  - cbn [List.app List.flat_map].
    rewrite cards_records_cons, cards_outcome_cons, Hbad.
    split; [now apply card_raise_no_record with e | reflexivity].
  - cbn [List.app List.flat_map].
    rewrite cards_records_cons, cards_outcome_cons, Hc, IHr, IHo.
    split; reflexivity.
Qed.

Lemma find_none_existsb {A} (f : A -> bool) (l : list A) :
  List.existsb f l = false -> List.find f l = None.
Proof.
  induction l as [|a l IH]; [reflexivity |]. simpl.
  destruct (f a); [discriminate | exact IH].
Qed.

(** A card with neither signal adds no record. *)
Lemma no_signal_no_record (card : Bs4.card) :
  has_badge card = false -> has_fsbo_text card = false ->
  card_records card = [].
Proof.
  unfold has_badge, has_fsbo_text, card_records, card_body, bind, call, ret,
    append_listing, Bs4.find_string.
  destruct (Bs4.select_one card _) as [[b|]|e];
    [discriminate | | reflexivity].
  intros _. destruct (Bs4.strings card) as [nodes|e]; [| reflexivity].
  intros Hnone. rewrite (find_none_existsb _ _ Hnone). reflexivity.
Qed.

End PageFacts.

Section TraceFacts.

Lemma loads_app (a b : list event) : loads (a ++ b) = (loads a ++ loads b)%list.
Proof. unfold loads. apply List.filter_app. Qed.

Lemma loads_startup (pre : list event) :
  Forall startup_event pre -> loads pre = [].
Proof.
  intros H. unfold loads. apply (filter_none _ _ _ H).
  intros [] He; try reflexivity; destruct He.
Qed.

Lemma advance_startup (pre : list event) :
  Forall startup_event pre -> count is_advance pre = 0%nat.
Proof.
  intros H. unfold count. rewrite (filter_none _ _ _ H); [reflexivity |].
  intros [] He; try reflexivity; destruct He.
Qed.

Lemma quit_startup (pre : list event) :
  Forall startup_event pre -> count is_quit pre = 0%nat.
Proof.
  intros H. unfold count. rewrite (filter_none _ _ _ H); [reflexivity |].
  intros [] He; try reflexivity; destruct He.
Qed.

Lemma quit_loop (pages : list Z) (evs : list event) :
  Forall (loop_event pages) evs -> count is_quit evs = 0%nat.
Proof.
  intros H. unfold count. rewrite (filter_none _ _ _ H); [reflexivity |].
  intros [] He; try reflexivity; destruct He.
Qed.

Lemma loads_smooth (pages : list Z) :
  loads (List.flat_map smooth_events pages)
  = List.flat_map load_events pages.
Proof.
  induction pages as [|q pages IH]; [reflexivity |].
  cbn [List.flat_map]. rewrite loads_app, IH. reflexivity.
Qed.

Lemma advance_smooth (pages : list Z) :
  count is_advance (List.flat_map smooth_events pages) = length pages.
Proof.
  induction pages as [|q pages IH]; [reflexivity |].
  cbn [List.flat_map]. rewrite count_app, IH. reflexivity.
Qed.

Lemma flat_map_snoc {A B} (f : A -> list B) (l : list A) (a : A) :
  List.flat_map f (l ++ [a]) = (List.flat_map f l ++ f a)%list.
Proof. rewrite List.flat_map_app. simpl. now rewrite List.app_nil_r. Qed.

End TraceFacts.

(** * The claims *)

Section Claims.

Import ZillowFSBOScraper.

(** C1, as the code has it: a card that raises an [Exception] ends the
    parsing of its page.  The records of the cards before it are kept, the
    card itself and all the cards after it on that page add nothing, and
    [parse_listings_page] returns normally, so that the run goes on with
    the next page. *)
Theorem card_failure_ends_page (env : Selenium.browser) (p : Z)
  (pre post : list Bs4.card) (bad : Bs4.card) (e : exn) :
  page_cards env p = (pre ++ bad :: post)%list ->
  Forall (fun c => card_outcome c = Ok tt) pre ->
  card_outcome bad = Raise e ->
  is_Exception e = true ->
  parse_outcome env p = Ok tt
  /\ page_records env p = List.flat_map card_records pre.
Proof.
  intros Hcards Hpre Hbad He.
  destruct (cards_records_until pre post bad e Hpre Hbad) as [Hr Ho].
  split.
  - rewrite parse_outcome_cards; rewrite Hcards.
    + now rewrite Ho, He.
    + now destruct pre.
  - now rewrite page_records_cards, Hcards.
Qed.

(** C3: a card with neither an FSBO badge nor a text node matching
    "For Sale by Owner" in any case adds no record, and every record a
    page adds comes from a card of that page with one of the two signals. *)
Theorem classification_precision (env : Selenium.browser) (p : Z) :
  (forall card, In card (page_cards env p) ->
     has_badge card = false -> has_fsbo_text card = false ->
     card_records card = [])
  /\ (forall r, In r (page_records env p) ->
        exists card, In card (page_cards env p)
                     /\ has_badge card || has_fsbo_text card = true
                     /\ In r (card_records card)).
Proof.
  split.
  - intros card _. apply no_signal_no_record.
  - intros r Hr. rewrite page_records_cards in Hr.
    destruct (In_cards_records _ _ Hr) as (card & Hin & Hrec).
    exists card. split; [exact Hin |]. split; [| exact Hrec].
    destruct (has_badge card) eqn:Hb; [reflexivity |].
    destruct (has_fsbo_text card) eqn:Ht; [reflexivity |].
    rewrite (no_signal_no_record card Hb Ht) in Hrec. destruct Hrec.
Qed.

(** C8: the cards of a page are those of the primary selector; those of
    the alternate selector are used when the primary finds none, and only
    then; when both find none the page adds no record and nothing is
    raised. *)
Theorem selector_fallback (env : Selenium.browser) (p : Z)
  (soup : Bs4.soup) :
  Selenium.page_source (Selenium.views env p) = Ok soup ->
  (forall cards, Bs4.select soup "ul.photo-cards > li" = Ok cards ->
     cards <> [] ->
     page_records env p = cards_records cards
     /\ parse_outcome env p
        = match cards_outcome cards with
          | Ok _ => Ok tt
          | Raise e => if is_Exception e then Ok tt else Raise e
          end)
  /\ (Bs4.select soup "ul.photo-cards > li" = Ok [] ->
      forall cards,
        Bs4.select soup "div[data-test='property-card']" = Ok cards ->
        page_records env p = cards_records cards)
  /\ (Bs4.select soup "ul.photo-cards > li" = Ok [] ->
      Bs4.select soup "div[data-test='property-card']" = Ok [] ->
      page_records env p = [] /\ parse_outcome env p = Ok tt).
Proof.
  intros Hsrc.
  assert (Hprimary : forall cards,
    Bs4.select soup "ul.photo-cards > li" = Ok cards -> cards <> [] ->
    page_cards env p = cards).
  { intros cards Hsel Hne. unfold page_cards. rewrite Hsrc, Hsel.
    destruct cards; [congruence | reflexivity]. }
  assert (Halt : forall cards,
    Bs4.select soup "ul.photo-cards > li" = Ok [] ->
    Bs4.select soup "div[data-test='property-card']" = Ok cards ->
    page_cards env p = cards).
  { intros cards Hsel Hsel'. unfold page_cards.
    now rewrite Hsrc, Hsel, Hsel'. }
  split; [| split].
  - intros cards Hsel Hne. pose proof (Hprimary cards Hsel Hne) as Hc.
    split.
    + now rewrite page_records_cards, Hc.
    + rewrite parse_outcome_cards; rewrite Hc; [reflexivity | exact Hne].
  - intros Hsel cards Hsel'.
    now rewrite page_records_cards, (Halt cards Hsel Hsel').
  - intros Hsel Hsel'. split.
    + now rewrite page_records_cards, (Halt [] Hsel Hsel').
    + unfold parse_outcome, parse_listings_page, bind, call, ret,
        try_except, emit, current_view.
      cbn [shown blank self trace]. now rewrite Hsrc, Hsel, Hsel'.
Qed.

End Claims.

Section Details.

Import ZillowFSBOScraper.

Lemma lstrip_digit (s : string) :
  starts_digit s = true -> PyStr.lstrip s = s.
Proof.
  destruct s as [|c s]; [discriminate |]. simpl. intros Hc.
  now destruct (digit_blocks c Hc) as [-> _].
Qed.

Lemma rstrip_app (a b : string) :
  PyStr.rstrip b = b -> b <> EmptyString -> PyStr.rstrip (a ++ b) = (a ++ b)%string.
Proof.
  intros Hb Hne. induction a as [|c a IH]; [exact Hb |].
  cbn [String.append PyStr.rstrip]. rewrite IH.
  destruct (a ++ b)%string eqn:Hab; [| reflexivity].
  destruct a; [| discriminate]. simpl in Hab. congruence.
Qed.

(** A details blob has no white space to strip. *)
Lemma strip_blob (n m k : string) :
  starts_digit n = true ->
  PyStr.strip (details_blob n m k) = details_blob n m k.
Proof.
  intros Hn. unfold PyStr.strip, details_blob.
  rewrite lstrip_digit by now apply starts_digit_app.
  replace (n ++ " bd, " ++ m ++ " ba, " ++ k ++ " sqft")%string
    with ((n ++ " bd, " ++ m ++ " ba, " ++ k) ++ " sqft")%string
    by now rewrite !app_assoc_s.
  apply rstrip_app; [reflexivity | discriminate].
Qed.

(** C4: on a details blob ["<n> bd, <m> ba, <k> sqft"], where [n] is a run
    of digits, [m] an integer or a decimal fraction and [k] groups of
    digits separated by commas, the three searches give beds [n], baths
    [m], and for sqft the digits of [k], all commas removed. *)
Theorem details_blob_fields (n i : string) (frac : option string)
  (groups : list string) (l : listing) :
  digits n = true -> digits i = true -> frac_ok frac = true ->
  figure_ok groups = true ->
  let d := parse_details
             (PyStr.strip (details_blob n (decimal i frac) (figure groups)))
             l in
  d !! "beds" = Some n
  /\ d !! "baths" = Some (decimal i frac)
  /\ d !! "sqft" = Some (PyStr.filter PyStr.is_digit (figure groups))
  /\ PyStr.filter PyStr.is_digit (figure groups) = concat_groups groups.
Proof.
  intros Hn Hi Hf Hk. cbv zeta.
  rewrite strip_blob by now apply digits_starts.
  unfold parse_details.
  rewrite (sqft_found n i frac groups Hn Hi Hf Hk).
  unfold details_blob.
  rewrite (baths_found n i frac _ Hn Hi Hf), (beds_found n _ Hn).
  unfold set_group, Re.group. cbn [Re.group1].
  rewrite (replace_figure groups Hk), (filter_figure groups Hk).
  split; [| split; [| split]].
  - rewrite lookup_insert_ne by discriminate.
    rewrite lookup_insert_ne by discriminate.
    apply lookup_insert_eq.
  - rewrite lookup_insert_ne by discriminate. apply lookup_insert_eq.
  - apply lookup_insert_eq.
  - reflexivity.
Qed.

End Details.

Section RunClaims.

Import ZillowFSBOScraper.

Lemma wait_startup (pre : list event) :
  Forall startup_event pre -> count is_wait pre = 0%nat.
Proof.
  intros H. unfold count. rewrite (filter_none _ _ _ H); [reflexivity |].
  intros [] He; try reflexivity; destruct He.
Qed.

Lemma wait_loads (pages : list Z) :
  count is_wait (List.flat_map smooth_events pages) = length pages.
Proof.
  induction pages as [|q pages IH]; [reflexivity |].
  cbn [List.flat_map]. rewrite count_app, IH. reflexivity.
Qed.

(** A run that is not cut short: the browser comes up, and every page up
    to the ceiling is loaded, parsed and, below the ceiling, left through
    a next-page control. *)
Lemma full_run (env : Selenium.browser) (s : scraper) (location : string)
  (N : Z) :
  1 <= N ->
  startup_ok env s location = true ->
  (forall q, 1 <= q <= N -> page_completes env N q = true) ->
  exists pre, Forall startup_event pre /\
    run env s location N
    = (Ok (listings s ++ collected env N)%list,
       {| self := {| driver := Some HasQuit;
                     listings := (listings s ++ collected env N)%list |};
          shown := N;
          trace := (pre ++ (List.flat_map smooth_events (range 1 N)
                            ++ load_events N) ++ [EQuit])%list |}).
Proof.
  intros HN Hstart Hpages.
  destruct (page_completes_inv env N N (Hpages N ltac:(lia)))
    as (Hwait & Hparse & _).
  pose proof (for_pages_prefix env N (Z.to_nat (N - 1)) 1 N _ _ _ _
                ltac:(lia) ltac:(lia)
                (fun q Hq => Hpages q ltac:(lia))
                (for_pages_last_page env N Hwait Hparse)) as Hloop.
  destruct s as [d l].
  destruct (body_exact env location N d l _ _ _ _ Hstart Hloop)
    as (pre & Hpre & Hbody).
  exists pre. split; [exact Hpre |]. unfold run.
  rewrite (search_of_body _ _ _ _ _ _ (Hbody l)), close_browser_world.
  cbn [self driver listings shown trace].
  unfold collected. rewrite (range_snoc 1 N) by lia. rewrite flat_map_snoc.
  destruct d; cbn [started]; rewrite <- ?List.app_assoc; reflexivity.
Qed.

(** C2: with ceiling [N], a run never goes past page [N]: the pages it
    scrapes are among [1 .. N] and it clicks a next-page control at most
    [N - 1] times; and a run that is not cut short makes exactly [N] page
    loads, each a wait for the listing container followed by the parse of
    the page, for the pages [1 .. N] in order. *)
Theorem pagination_bounded (env : Selenium.browser) (s : scraper)
  (location : string) (N : Z) :
  1 <= N ->
  let tr := trace (snd (run env s location N)) in
  (forall p, In (EPage p) tr -> 1 <= p <= N)
  /\ Z.of_nat (count is_advance tr) <= N - 1
  /\ (startup_ok env s location = true ->
      (forall q, 1 <= q <= N -> page_completes env N q = true) ->
      loads tr = List.flat_map load_events (range 1 (N + 1))
      /\ Z.of_nat (count is_wait tr) = N
      /\ shown (snd (run env s location N)) = N).
Proof.
  intros HN. cbv zeta. split; [| split].
  - destruct s as [d l].
    destruct (run_shape env location N d)
      as (r & recs & pre & evs & d' & p' & Hpre & Hevs & _ & _ & Hrun).
    rewrite (Hrun l). cbn [snd trace]. intros p Hin.
    apply List.in_app_or in Hin as [Hin | Hin].
    + rewrite List.Forall_forall in Hpre. apply Hpre in Hin. destruct Hin.
    + apply List.in_app_or in Hin as [Hin | Hin].
      * rewrite List.Forall_forall in Hevs. apply Hevs in Hin.
        cbn [loop_event] in Hin. apply In_range in Hin. lia.
      * destruct d'; [destruct Hin as [Hin | []]; discriminate | destruct Hin].
  - destruct s as [d l].
    destruct (run_shape env location N d)
      as (r & recs & pre & evs & d' & p' & Hpre & Hevs & Hcount & _ & Hrun).
    rewrite (Hrun l). cbn [snd trace].
    rewrite !count_app, (advance_startup pre Hpre).
    rewrite (pages_below N HN) in Hcount.
    destruct d'; unfold count at 2; simpl; lia.
  - intros Hstart Hpages.
    destruct (full_run env s location N HN Hstart Hpages)
      as (pre & Hpre & Hrun).
    rewrite Hrun. cbn [snd trace shown]. split; [| split].
    + rewrite !loads_app, (loads_startup pre Hpre), loads_smooth.
      rewrite (range_snoc 1 N) by lia. rewrite flat_map_snoc.
      cbn [List.app]. now rewrite List.app_nil_r.
    + rewrite !count_app, (wait_startup pre Hpre), wait_loads.
      rewrite length_range. unfold count. simpl. lia.
    + reflexivity.
Qed.

(** C5: when the statements of a run raise an [Exception], the run
    returns the listings as they are at the point of failure, which are
    those the scraper had before the run followed by what the run had
    collected; and a driver that exists at that point is quit as the last
    action of the run.  (No driver exists only when the run had none and
    the browser could not be created.) *)
Theorem fatal_error_keeps_records (env : Selenium.browser) (s : scraper)
  (location : string) (N : Z) (e : exn) (w' : world) :
  search_body env location N (start s) = (Raise e, w') ->
  is_Exception e = true ->
  let out := run env s location N in
  fst out = Ok (listings (self w'))
  /\ listings (self (snd out)) = listings (self w')
  /\ (exists recs, listings (self w') = (listings s ++ recs)%list)
  /\ match driver (self w') with
     | Some _ =>
         trace (snd out) = (trace w' ++ [EQuit])%list
         /\ driver (self (snd out)) = Some HasQuit
     | None => driver s = None /\ snd out = w'
     end.
Proof.
  intros Hbody He. cbv zeta. unfold run.
  rewrite (search_of_body _ _ _ _ _ _ Hbody), He, close_browser_world.
  cbn [fst snd].
  destruct s as [d l].
  destruct (body_shape env location N d)
    as (r & recs & pre & evs & d' & p' & _ & _ & _ & Hnone & _ & Hshape).
  rewrite (Hshape l) in Hbody. injection Hbody as _ Hw'. subst w'.
  cbn [self driver listings trace].
  split; [reflexivity |]. split; [now destruct d' |].
  split; [now exists recs |].
  destruct d'; [split; reflexivity | split; [now apply Hnone | reflexivity]].
Qed.

(** C6: when the run has reached page [P] below the ceiling and neither
    strategy finds a next-page control there, the run ends normally: it
    returns the listings the scraper held before, none for a new scraper,
    followed by exactly the records of the pages [1 .. P], and it has
    loaded exactly these pages. *)
Theorem no_next_ends_run (env : Selenium.browser) (s : scraper)
  (location : string) (N P : Z) :
  1 <= P < N ->
  startup_ok env s location = true ->
  (forall q, 1 <= q < P -> page_completes env N q = true) ->
  wait_passes (Selenium.views env P) = true ->
  parse_outcome env P = Ok tt ->
  no_next_control (Selenium.views env P) = true ->
  let out := run env s location N in
  fst out = Ok (listings s ++ collected env P)%list
  /\ (listings s = [] -> fst out = Ok (collected env P))
  /\ loads (trace (snd out)) = List.flat_map load_events (range 1 (P + 1))
  /\ shown (snd out) = P.
Proof.
  intros HP Hstart Hpages Hwait Hparse Hnone. cbv zeta.
  pose proof (for_pages_prefix env N (Z.to_nat (P - 1)) 1 P _ _ _ _
                ltac:(lia) ltac:(lia)
                (fun q Hq => Hpages q ltac:(lia))
                (for_pages_stop_page env N P ltac:(lia) Hwait Hparse
                   (no_next_control_false env P Hnone))) as Hloop.
  destruct s as [d l].
  destruct (body_exact env location N d l _ _ _ _ Hstart Hloop)
    as (pre & Hpre & Hbody).
  unfold run.
  rewrite (search_of_body _ _ _ _ _ _ (Hbody l)), close_browser_world.
  cbn [fst snd self driver listings shown trace].
  assert (Hcol : (List.flat_map (page_records env) (range 1 P)
                  ++ page_records env P)%list = collected env P).
  { unfold collected. rewrite (range_snoc 1 P) by lia.
    now rewrite flat_map_snoc. }
  rewrite Hcol.
  split; [reflexivity |]. split; [now intros -> |].
  split.
  - destruct d; cbn [started trace];
      rewrite !loads_app, (loads_startup pre Hpre), loads_smooth;
      rewrite (range_snoc 1 P) by lia; rewrite flat_map_snoc;
      cbn [List.app]; now rewrite List.app_nil_r.
  - now destruct d.
Qed.

End RunClaims.

Section Lifecycle.

Import ZillowFSBOScraper.

(** C7, as the code has it: [close_browser] does nothing and raises
    nothing when no driver was ever created; it never raises; repeating it
    leaves the scraper as the first call left it; and every run, whether
    it ends normally or on an error, quits the driver exactly once, as its
    last action, when a driver exists at the end of the run, and not at
    all when the run had no driver and could not create one.  No run
    leaves a session running. *)
Theorem close_browser_release :
  (forall w, driver (self w) = None -> close_browser w = (Ok tt, w))
  /\ (forall w, fst (close_browser w) = Ok tt)
  /\ (forall w, self (snd (close_browser (snd (close_browser w))))
                = self (snd (close_browser w)))
  /\ (forall env s location N,
        let w := snd (run env s location N) in
        match driver (self w) with
        | Some session =>
            session = HasQuit
            /\ count is_quit (trace w) = 1%nat
            /\ exists tr, trace w = (tr ++ [EQuit])%list
        | None => driver s = None /\ count is_quit (trace w) = 0%nat
        end).
Proof.
  split; [| split; [| split]].
  - intros w Hnone. unfold close_browser, bind, get_self, ret.
    now rewrite Hnone.
  - apply close_browser_ok.
  - intros w. rewrite !close_browser_world.
    destruct (driver (self w)) eqn:Hd; cbn [self driver]; [reflexivity |].
    now rewrite Hd.
  - intros env [d l] location N. cbv zeta.
    destruct (run_shape env location N d)
      as (r & recs & pre & evs & d' & p' & Hpre & Hevs & _ & Hnone & Hrun).
    rewrite (Hrun l). cbn [snd self driver trace].
    rewrite !count_app, (quit_startup pre Hpre), (quit_loop _ evs Hevs).
    destruct d' as [x|].
    + split; [reflexivity |]. split; [reflexivity |].
      exists (pre ++ evs)%list. now rewrite <- List.app_assoc.
    + split; [now apply Hnone | reflexivity].
Qed.

(** C10: the listings of a scraper are never cleared.  When
    [search_fsbo_listings] returns twice in a row on one scraper, the
    second call returns the list the first call returned followed by the
    records of the second run, which are what that run returns on a
    scraper with the same driver and no listings. *)
Theorem listings_accumulate (env1 env2 : Selenium.browser)
  (location1 location2 : string) (N1 N2 : Z) (s : scraper)
  (l1 l2 : list listing) (w1 w2 : world) :
  run env1 s location1 N1 = (Ok l1, w1) ->
  run env2 (self w1) location2 N2 = (Ok l2, w2) ->
  listings (self w1) = l1
  /\ listings (self w2) = l2
  /\ exists new,
       l2 = (l1 ++ new)%list
       /\ fst (run env2 {| driver := driver (self w1); listings := [] |}
                   location2 N2) = Ok new.
Proof.
  intros Hrun1 Hrun2.
  assert (Hkeeps : forall env location N s0 l w,
    run env s0 location N = (Ok l, w) -> listings (self w) = l).
  { intros env location N [d l0] l w Hrun.
    destruct (run_shape env location N d)
      as (r & recs & pre & evs & d' & p' & _ & _ & _ & _ & Hshape).
    rewrite (Hshape l0) in Hrun. injection Hrun as Hl Hw. subst w.
    cbn [self listings].
    destruct r as [[]|e]; [congruence |].
    destruct (is_Exception e); congruence. }
  pose proof (Hkeeps _ _ _ _ _ _ Hrun1) as Hl1.
  split; [exact Hl1 |]. split; [exact (Hkeeps _ _ _ _ _ _ Hrun2) |].
  destruct (self w1) as [d l] eqn:Hself. cbn [listings driver] in *.
  subst l.
  destruct (run_shape env2 location2 N2 d)
    as (r & recs & pre & evs & d' & p' & _ & _ & _ & _ & Hshape).
  rewrite (Hshape l1) in Hrun2. rewrite (Hshape []).
  exists recs. cbn [fst List.app].
  injection Hrun2 as Hl2 _.
  destruct r as [[]|e]; [split; congruence |].
  destruct (is_Exception e); [split; congruence | discriminate].
Qed.

End Lifecycle.

Section Delay.


End Delay.
(** * The claims at concrete inputs *)

Section Instances.

Import ZillowFSBOScraper Example.

(** The card of the end-to-end scenario gives the record of the
    scenario. *)
Example fsbo_card_record : card_records fsbo_card = [fsbo_record].
Proof. vm_compute. reflexivity. Qed.

Lemma card_failure_ends_page_witness :
  parse_outcome broken_middle 1 = Ok tt
  /\ page_records broken_middle 1 = List.flat_map card_records [fsbo_card].
Proof.
  apply (card_failure_ends_page broken_middle 1 [fsbo_card] [fsbo_card]
           broken_card OtherException).
  - reflexivity.
  - constructor; [vm_compute; reflexivity | constructor].
  - vm_compute. reflexivity.
  - reflexivity.
Defined.

(** C1 fails on the code: a card that matches and comes after a card that
    raises on the same page is not emitted. *)
Lemma later_card_lost :
  page_cards broken_first 1 = [broken_card; fsbo_card]
  /\ card_outcome broken_card = Raise OtherException
  /\ has_fsbo_text fsbo_card = true
  /\ card_records fsbo_card = [fsbo_record]
  /\ page_records broken_first 1 = [].
Proof. repeat split; vm_compute; reflexivity. Qed.

Lemma classification_precision_witness :
  card_records agent_card = []
  /\ exists card, In card (page_cards three_pages 1)
                  /\ has_badge card || has_fsbo_text card = true
                  /\ In fsbo_record (card_records card).
Proof.
  destruct (classification_precision three_pages 1) as [Hnone Honly].
  split.
  - apply Hnone; [right; left; reflexivity | reflexivity
                  | vm_compute; reflexivity].
  - apply Honly. vm_compute. left. reflexivity.
Defined.

Lemma details_blob_fields_witness :
  let d := parse_details (PyStr.strip "3 bd, 2.5 ba, 1,500 sqft") ∅ in
  d !! "beds" = Some "3" /\ d !! "baths" = Some "2.5"
  /\ d !! "sqft" = Some "1500".
Proof.
  destruct (details_blob_fields "3" "2" (Some "5") ["1"; "500"] ∅
              eq_refl eq_refl eq_refl eq_refl)
    as (Hbeds & Hbaths & Hsqft & _).
  cbv zeta. auto.
Defined.

Lemma selector_fallback_witness :
  page_records three_pages 1 = cards_records both
  /\ page_records alternate_only 1 = cards_records both.
Proof.
  split.
  - destruct (selector_fallback three_pages 1 (soup_of both) eq_refl)
      as (Hprimary & _ & _).
    apply (Hprimary both eq_refl). discriminate.
  - destruct (selector_fallback alternate_only 1 alternate_soup eq_refl)
      as (_ & Halt & _).
    exact (Halt eq_refl both eq_refl).
Defined.

Lemma pagination_bounded_witness :
  let tr := trace (snd (run three_pages init "Austin, TX" 3)) in
  (forall p, In (EPage p) tr -> 1 <= p <= 3)
  /\ Z.of_nat (count is_advance tr) <= 3 - 1
  /\ loads tr = List.flat_map load_events (range 1 (3 + 1))
  /\ Z.of_nat (count is_wait tr) = 3.
Proof.
  destruct (pagination_bounded three_pages init "Austin, TX" 3)
    as (Hpages & Hadv & Hfull); [lia |].
  destruct Hfull as (Hloads & Hwaits & _).
  - reflexivity.
  - intros q Hq.
    assert (Hcases : q = 1 \/ q = 2 \/ q = 3) by lia.
    destruct Hcases as [-> | [-> | ->]]; vm_compute; reflexivity.
  - cbv zeta. auto.
Defined.

Lemma fatal_error_keeps_records_witness :
  fst (run crash_on_two init "Austin, TX" 3)
  = Ok [fsbo_record; fsbo_record]
  /\ driver (self (snd (run crash_on_two init "Austin, TX" 3)))
     = Some HasQuit.
Proof.
  destruct (fatal_error_keeps_records crash_on_two init "Austin, TX" 3
              WebDriverException
              (snd (search_body crash_on_two "Austin, TX" 3 (start init))))
    as (Hret & _ & _ & Hquit).
  - vm_compute. reflexivity.
  - reflexivity.
  - split.
    + rewrite Hret. vm_compute. reflexivity.
    + vm_compute. reflexivity.
Defined.

Lemma no_next_ends_run_witness :
  fst (run two_pages init "Austin, TX" 3) = Ok (collected two_pages 2)
  /\ collected two_pages 2 = [fsbo_record; fsbo_record]
  /\ shown (snd (run two_pages init "Austin, TX" 3)) = 2.
Proof.
  destruct (no_next_ends_run two_pages init "Austin, TX" 3 2)
    as (_ & Hnew & _ & Hshown).
  - lia.
  - reflexivity.
  - intros q Hq. replace q with 1 by lia. vm_compute. reflexivity.
  - reflexivity.
  - vm_compute. reflexivity.
  - reflexivity.
  - split; [apply Hnew; reflexivity |].
    split; [vm_compute; reflexivity | exact Hshown].
Defined.

(** C7 fails on the code: closing a session that is already closed issues
    the driver's quit again, and a run whose browser cannot be created
    releases nothing. *)
Lemma repeated_close_quits_again :
  driver (self closed_once) = Some HasQuit
  /\ trace closed_once = [EQuit]
  /\ trace (snd (close_browser closed_once)) = [EQuit; EQuit]
  /\ snd (close_browser closed_once) <> closed_once
  /\ fst (run no_chrome init "Austin, TX" 3) = Ok []
  /\ count is_quit (trace (snd (run no_chrome init "Austin, TX" 3)))
     = 0%nat.
Proof.
  repeat split; try (vm_compute; reflexivity).
  vm_compute. discriminate.
Qed.

Lemma close_browser_release_witness :
  close_browser (blank 0) = (Ok tt, blank 0)
  /\ count is_quit (trace (snd (run three_pages init "Austin, TX" 3)))
     = 1%nat
  /\ count is_quit (trace (snd (run crash_on_two init "Austin, TX" 3)))
     = 1%nat.
Proof.
  destruct close_browser_release as (Hnever & _ & _ & Hrun).
  split; [apply Hnever; reflexivity |]. split.
  - pose proof (Hrun three_pages init "Austin, TX" 3) as H.
    vm_compute in H. vm_compute. tauto.
  - pose proof (Hrun crash_on_two init "Austin, TX" 3) as H.
    vm_compute in H. vm_compute. tauto.
Defined.

Lemma listings_accumulate_witness :
  fst (run three_pages init "Austin, TX" 3)
  = Ok [fsbo_record; fsbo_record; fsbo_record]
  /\ exists new,
       fst (run quit_driver
                (self (snd (run three_pages init "Austin, TX" 3)))
                "Chicago, IL" 2)
       = Ok ([fsbo_record; fsbo_record; fsbo_record] ++ new)%list.
Proof.
  split; [vm_compute; reflexivity |].
  destruct (listings_accumulate three_pages quit_driver
              "Austin, TX" "Chicago, IL" 3 2 init
              [fsbo_record; fsbo_record; fsbo_record]
              [fsbo_record; fsbo_record; fsbo_record]
              (snd (run three_pages init "Austin, TX" 3))
              (snd (run quit_driver
                        (self (snd (run three_pages init "Austin, TX" 3)))
                        "Chicago, IL" 2)))
    as (_ & _ & new & Hnew & _).
  - vm_compute. reflexivity.
  - vm_compute. reflexivity.
  - exists new. rewrite <- Hnew. vm_compute. reflexivity.
Defined.


(** On the bounds that the scraper passes, the least, a middle and the
    greatest sample of [self.random()] give binary64 durations within the
    bounds. *)
Example delay_at_call_sites :
  List.forallb
    (fun bounds : float * float =>
       List.forallb
         (fun u =>
            PrimFloat.leb (fst bounds)
              (delay_sample (fst bounds) (snd bounds) u)
            && PrimFloat.leb (delay_sample (fst bounds) (snd bounds) u)
                 (snd bounds))
         [0; 0.5; 0x1.fffffffffffffp-1]%float)
    [(1, 2); (3, 6); (10, 20)]%float
  = true.
Proof. vm_compute. reflexivity. Qed.


End Instances.

(** * Further properties *)

Section Popups.

Import ZillowFSBOScraper.

Lemma dismissals_app (n m : nat) :
  dismissals (n + m) = (dismissals n ++ dismissals m)%list.
Proof. induction n as [|n IH]; [reflexivity |]. simpl. now rewrite IH. Qed.

Lemma click_displayed_dismisses (buttons : list Selenium.web_element)
  (w : world) :
  exists r n,
    click_displayed buttons w = (r, add_events w (dismissals n))
    /\ (n <= length (List.filter displayed buttons))%nat
    /\ (Forall answers buttons ->
        n = length (List.filter displayed buttons)).
Proof.
  revert w. induction buttons as [|button rest IH]; intros w.
  - exists (Ok tt), 0%nat. unfold click_displayed, ret. simpl.
    now rewrite add_events_nil.
  - cbn [click_displayed List.filter]. unfold bind at 1, call at 1.
    destruct (Selenium.is_displayed button) as [[|]|e] eqn:Hd.
    + assert (Hb : displayed button = true)
        by (unfold displayed; now rewrite Hd).
      rewrite Hb. unfold bind at 1 2, call at 1.
      destruct (Selenium.click button) as [[]|e] eqn:Hc.
      * unfold bind at 1, emit, random_delay, emit. cbn [self shown trace].
        destruct (IH {| self := self w; shown := shown w;
                        trace := ((trace w ++ [EDismiss])
                                  ++ [ESleep 1 2])%list |})
          as (r & n & Heq & Hn & Hall).
        exists r, (S n). rewrite Heq. split; [| split].
        -- unfold add_events. cbn [self shown trace dismissals].
           now rewrite <- !List.app_assoc.
        -- cbn [length]. lia.
        -- intros H. inversion H as [|? ? _ Hrest]; subst.
           cbn [length]. now rewrite (Hall Hrest).
      * exists (Raise e), 0%nat. cbn [dismissals]. rewrite add_events_nil.
        split; [reflexivity |]. split; [lia |].
        intros H. inversion H as [|? ? [Hx | [_ Hx]] _]; subst; congruence.
    + assert (Hb : displayed button = false)
        by (unfold displayed; now rewrite Hd).
      rewrite Hb. unfold bind at 1, ret at 1.
      destruct (IH w) as (r & n & Heq & Hn & Hall). exists r, n.
      split; [exact Heq |]. split; [exact Hn |].
      intros H. inversion H; subst. now apply Hall.
    + assert (Hb : displayed button = false)
        by (unfold displayed; now rewrite Hd).
      rewrite Hb. exists (Raise e), 0%nat. cbn [dismissals].
      rewrite add_events_nil.
      split; [reflexivity |]. split; [lia |].
      intros H. inversion H as [|? ? [Hx | [Hx _]] _]; subst; congruence.
Qed.

Lemma sweep_popups_dismisses (env : Selenium.browser)
  (selectors : list string) (w : world) :
  exists n,
    sweep_popups env selectors w = (Ok tt, add_events w (dismissals n))
    /\ (n <= length
               (List.filter displayed
                  (List.flat_map
                     (fun selector =>
                        match Selenium.find_elements
                                (Selenium.views env (shown w)) selector with
                        | Ok close_buttons => close_buttons
                        | Raise _ => []
                        end) selectors)))%nat
    /\ ((forall selector, In selector selectors ->
           exists close_buttons,
             Selenium.find_elements (Selenium.views env (shown w)) selector
             = Ok close_buttons
             /\ Forall answers close_buttons) ->
        n = length
              (List.filter displayed
                 (List.flat_map
                    (fun selector =>
                       match Selenium.find_elements
                               (Selenium.views env (shown w)) selector with
                       | Ok close_buttons => close_buttons
                       | Raise _ => []
                       end) selectors))).
Proof.
  revert w. induction selectors as [|selector rest IH]; intros w.
  - exists 0%nat. unfold sweep_popups, ret. simpl.
    now rewrite add_events_nil.
  - cbn [sweep_popups List.flat_map]. rewrite List.filter_app, List.length_app.
    unfold bind at 1, try_except, bind at 1, current_view, bind at 1,
      call at 1, any_exception, ret at 1.
    destruct (Selenium.find_elements (Selenium.views env (shown w)) selector)
      as [buttons|e] eqn:Hfind.
    + destruct (click_displayed_dismisses buttons w)
        as (r & n & Heq & Hn & Hall).
      rewrite Heq.
      destruct (IH (add_events w (dismissals n))) as (m & Hrest & Hm & Hcalm).
      cbn [shown add_events] in Hm, Hcalm.
      exists (n + m)%nat. split; [| split].
      * rewrite dismissals_app, <- add_events_app, <- Hrest.
        destruct r as [[]|e]; reflexivity.
      * lia.
      * intros H.
        destruct (H selector (or_introl eq_refl)) as (bs & Hbs & Hans).
        rewrite Hfind in Hbs. injection Hbs as <-.
        rewrite (Hall Hans), Hcalm; [reflexivity |].
        intros s Hs. apply H. now right.
    + destruct (IH w) as (m & Hrest & Hm & _). exists m.
      split; [exact Hrest |]. split; [simpl; lia |].
      intros H. destruct (H selector (or_introl eq_refl)) as (bs & Hbs & _).
      rewrite Hfind in Hbs. discriminate.
Qed.


End Popups.

Section General.

Import ZillowFSBOScraper.

Variables (env : Selenium.browser) (location : string) (max_pages : Z).

Lemma popup_harvest (evs : list event) :
  Forall popup_event evs -> Forall harvest_event evs.
Proof.
  intros H. eapply List.Forall_impl; [| exact H].
  intros [] He; try exact I; destruct He.
Qed.

Lemma loop_harvest (pages : list Z) (evs : list event) :
  Forall (loop_event pages) evs -> Forall harvest_event evs.
Proof.
  intros H. eapply List.Forall_impl; [| exact H].
  intros [] He; try exact I; destruct He.
Qed.

Lemma paced_app (a b : list event) :
  paced a = true -> paced b = true -> paced (a ++ b) = true.
Proof.
  intros Ha Hb. induction a as [|e a IH]; [exact Hb |].
  cbn [paced List.app] in Ha |- *. apply andb_prop in Ha as [He Ha].
  rewrite (IH Ha), andb_true_r.
  destruct (pause_of e) as [bounds|]; [| reflexivity].
  destruct a as [|next a]; [discriminate He | exact He].
Qed.

Lemma paced_dismissals (n : nat) : paced (dismissals n) = true.
Proof. induction n as [|n IH]; [reflexivity |]. cbn. exact IH. Qed.

(** The page loop only adds records of pages of the browser, and pauses
    after each click. *)
Lemma for_pages_sources (pages : list Z) (p : Z) :
  exists r recs evs p',
    acts (for_pages env max_pages pages) p r recs evs p'
    /\ Forall (loop_event pages) evs
    /\ Forall (sourced env) recs
    /\ paced evs = true.
Proof.
  revert p. induction pages as [|page rest IH]; intros p.
  - exists (Ok tt), [], [], p. split; [| split; [| split]].
    + apply acts_ret.
    + constructor.
    + constructor.
    + reflexivity.
  - assert (Hhere : Forall (sourced env) (page_records env p)).
    { apply List.Forall_forall. intros x Hx. now exists p. }
    destruct (wait_passes (Selenium.views env p)) eqn:Hwait.
    2:{ destruct (wait_fails_raise env p Hwait) as (e & Hw & He & _).
        exists (Raise e), [], [EPage page; EWait], p. split; [| split; [| split]].
        - now apply iteration_wait_raises.
        - repeat constructor.
        - constructor.
        - reflexivity. }
    destruct (parse_outcome env p) as [[]|e] eqn:Hparse.
    2:{ exists (Raise e), (page_records env p), [EPage page; EWait; EParse], p.
        split; [| split; [| split]].
        - now apply iteration_parse_raises.
        - repeat constructor.
        - exact Hhere.
        - reflexivity. }
    destruct (page <? max_pages) eqn:Hlt.
    + destruct (next_outcome env p) as [[|]|e] eqn:Hnext.
      * destruct (IH (p + 1)) as (r & recs & evs & p' & Hacts & Hevs & Hsrc & Hpaced).
        exists r, (page_records env p ++ recs)%list,
          ([EPage page; EWait; EParse; EAdvance; ESleep 3 6] ++ evs)%list, p'.
        split; [| split; [| split]].
        -- now apply iteration_advances.
        -- apply List.Forall_app. split.
           ++ repeat constructor.
           ++ now apply Forall_loop_weaken.
        -- apply List.Forall_app. now split.
        -- now apply paced_app.
      * exists (Ok tt), (page_records env p), [EPage page; EWait; EParse], p.
        split; [| split; [| split]].
        -- now apply iteration_stops.
        -- repeat constructor.
        -- exact Hhere.
        -- reflexivity.
      * exists (Raise e), (page_records env p), [EPage page; EWait; EParse], p.
        split; [| split; [| split]].
        -- now apply iteration_next_raises.
        -- repeat constructor.
        -- exact Hhere.
        -- reflexivity.
    + destruct (IH p) as (r & recs & evs & p' & Hacts & Hevs & Hsrc & Hpaced).
      exists r, (page_records env p ++ recs)%list,
        ([EPage page; EWait; EParse] ++ evs)%list, p'.
      split; [| split; [| split]].
      * now apply iteration_last.
      * apply List.Forall_app. split.
        -- repeat constructor.
        -- now apply Forall_loop_weaken.
      * apply List.Forall_app. now split.
      * now apply paced_app.
Qed.

Lemma handle_popups_uniform (p : Z) :
  exists n, acts (handle_popups env) p (Ok tt) [] (dismissals n) p.
Proof.
  destruct (handle_popups_acts env p) as (pops & Hacts & _).
  destruct (sweep_popups_dismisses env popup_selectors (blank p))
    as (n & Hsweep & _).
  assert (Hn : handle_popups env (blank p)
               = (Ok tt, add_events (blank p) (dismissals n)))
    by (unfold handle_popups, try_except; now rewrite Hsweep).
  exists n. rewrite (Hacts (blank p) eq_refl) in Hn.
  injection Hn as Hn. cbn in Hn. now rewrite <- Hn.
Qed.

(** What follows the loading of the search page, on every world. *)
Lemma harvest_general :
  exists (r : outcome unit) recs evs p',
    Forall harvest_event evs /\ Forall (sourced env) recs
    /\ paced (EGet (search_url location) :: evs) = true /\
    forall w, shown w = 1 ->
      (random_delay 3 6 ;;;
       handle_popups env ;;;
       for_pages env max_pages (range 1 (max_pages + 1)) ;;;
       me <- get_self ;;
       ret (listings me)) w
      = (match r with
         | Ok _ => Ok (listings (self w) ++ recs)%list
         | Raise e => Raise e
         end,
         {| self := {| driver := driver (self w);
                       listings := (listings (self w) ++ recs)%list |};
            shown := p';
            trace := (trace w ++ evs)%list |}).
Proof.
  destruct (for_pages_sources (range 1 (max_pages + 1)) 1)
    as (r & recs & evs & p' & Hacts & Hevs & Hsrc & Hpaced).
  destruct (handle_popups_uniform 1) as (n & Hpop).
  exists r, recs, ([ESleep 3 6] ++ dismissals n ++ evs)%list, p'.
  split; [| split; [exact Hsrc | split]].
  - apply List.Forall_app. split; [repeat constructor |].
    apply List.Forall_app. split;
      [| now apply loop_harvest with (range 1 (max_pages + 1))].
    clear. induction n as [|n IH]; [constructor |].
    cbn [dismissals]. repeat constructor. exact IH.
  - change (paced ([EGet (search_url location); ESleep 3 6]
                   ++ dismissals n ++ evs) = true).
    apply paced_app; [reflexivity |].
    apply paced_app; [apply paced_dismissals | exact Hpaced].
  - intros w Hw.
    unfold bind at 1, random_delay, emit. cbn [self shown trace].
    unfold bind at 1. erewrite Hpop by exact Hw. cbn [self shown trace].
    unfold bind at 1. erewrite Hacts by reflexivity.
    cbn [self shown trace driver listings].
    rewrite !List.app_nil_r, <- !List.app_assoc.
    destruct r as [[]|e]; reflexivity.
Qed.

(** The statements under [try:], on every world. *)
Lemma body_general (w : world) :
  exists (r : outcome unit) recs evs p',
    search_body env location max_pages w
    = (match r with
       | Ok _ => Ok (listings (self w) ++ recs)%list
       | Raise e => Raise e
       end,
       {| self := {| driver := brought_up env (driver (self w));
                     listings := (listings (self w) ++ recs)%list |};
          shown := p'; trace := (trace w ++ evs)%list |})
    /\ Forall (sourced env) recs
    /\ (startup_ok env (self w) location = false -> recs = [])
    /\ count is_quit evs = 0%nat
    /\ count is_start evs
       = match driver (self w), Selenium.chrome env with
         | None, Ok _ => 1%nat
         | _, _ => 0%nat
         end
    /\ paced evs = true.
Proof.
  destruct harvest_general
    as (r & recs & evs & p' & Hevs & Hsrc & Hpaced & Htail).
  assert (Hq : count is_quit evs = 0%nat).
  { unfold count. rewrite (filter_none _ _ _ Hevs); [reflexivity |].
    intros [] He; try reflexivity; destruct He. }
  assert (Hs : count is_start evs = 0%nat).
  { unfold count. rewrite (filter_none _ _ _ Hevs); [reflexivity |].
    intros [] He; try reflexivity; destruct He. }
  destruct w as [[d l] q t]. unfold brought_up, startup_ok.
  cbn [self driver listings trace].
  destruct d as [d|].
  - destruct (Selenium.get env (search_url location)) as [[]|e] eqn:Hg.
    + exists r, recs, ([EGet (search_url location)] ++ evs)%list, p'.
      split; [| split; [exact Hsrc | split; [discriminate | split; [| split]]]].
      * unfold search_body, bind at 1, get_self. cbn [driver self].
        unfold bind at 1, ret. unfold bind at 1, call. rewrite Hg.
        unfold bind at 1, emit. cbn [self shown trace].
        unfold bind at 1, set_shown. cbn [self shown trace].
        rewrite Htail by reflexivity. cbn [self shown trace driver listings].
        now rewrite <- !List.app_assoc.
      * rewrite count_app, Hq. reflexivity.
      * rewrite count_app, Hs. reflexivity.
      * exact Hpaced.
    + exists (Raise e), [], [], q.
      split; [| split; [constructor | split; [reflexivity | repeat split]]].
      unfold search_body, bind at 1, get_self. cbn [driver self].
      unfold bind at 1, ret. unfold bind at 1, call. rewrite Hg.
      now rewrite !List.app_nil_r.
  - destruct (Selenium.chrome env) as [[]|e] eqn:Hc.
    + destruct (Selenium.set_window_size env) as [[]|e] eqn:Hw.
      * destruct (Selenium.get env (search_url location)) as [[]|e] eqn:Hg.
        -- exists r, recs, ([EStart; EGet (search_url location)] ++ evs)%list,
             p'.
           split; [| split; [exact Hsrc | split; [discriminate | split; [| split]]]].
           ++ unfold search_body, bind at 1, get_self. cbn [driver self].
              unfold bind at 1, start_browser, bind at 1, call. rewrite Hc.
              unfold bind at 1, set_driver. cbn [self shown trace listings].
              unfold bind at 1, emit. cbn [self shown trace]. rewrite Hw.
              unfold bind at 1, call. rewrite Hg.
              unfold bind at 1, emit. cbn [self shown trace].
              unfold bind at 1, set_shown. cbn [self shown trace].
              rewrite Htail by reflexivity.
              cbn [self shown trace driver listings].
              now rewrite <- !List.app_assoc.
           ++ rewrite count_app, Hq. reflexivity.
           ++ rewrite count_app, Hs. reflexivity.
           ++ exact Hpaced.
        -- exists (Raise e), [], [EStart], q.
           split; [| split; [constructor | split; [reflexivity | repeat split]]].
           unfold search_body, bind at 1, get_self. cbn [driver self].
           unfold bind at 1, start_browser, bind at 1, call. rewrite Hc.
           unfold bind at 1, set_driver. cbn [self shown trace listings].
           unfold bind at 1, emit. cbn [self shown trace]. rewrite Hw.
           unfold bind at 1, call. rewrite Hg.
           now rewrite !List.app_nil_r.
      * exists (Raise e), [], [EStart], q.
        split; [| split; [constructor | split; [reflexivity | repeat split]]].
        unfold search_body, bind at 1, get_self. cbn [driver self].
        unfold bind at 1, start_browser, bind at 1, call. rewrite Hc.
        unfold bind at 1, set_driver. cbn [self shown trace listings].
        unfold bind at 1, emit. cbn [self shown trace]. rewrite Hw.
        now rewrite !List.app_nil_r.
    + exists (Raise e), [], [], q.
      split; [| split; [constructor | split; [reflexivity | repeat split]]].
      unfold search_body, bind at 1, get_self. cbn [driver self].
      unfold bind at 1, start_browser, bind at 1, call. rewrite Hc.
      now rewrite !List.app_nil_r.
Qed.

(** Every call of [search_fsbo_listings], on every world. *)
Lemma search_general (w : world) :
  exists (r : outcome (list listing)) recs evs p',
    search_fsbo_listings env location max_pages w
    = (r,
       {| self := {| driver := released (brought_up env (driver (self w)));
                     listings := (listings (self w) ++ recs)%list |};
          shown := p'; trace := (trace w ++ evs)%list |})
    /\ (r = Ok (listings (self w) ++ recs)%list
        \/ exists e, r = Raise e /\ is_Exception e = false)
    /\ Forall (sourced env) recs
    /\ (startup_ok env (self w) location = false -> recs = [])
    /\ count is_quit evs
       = match brought_up env (driver (self w)) with
         | Some _ => 1%nat
         | None => 0%nat
         end
    /\ count is_start evs
       = match driver (self w), Selenium.chrome env with
         | None, Ok _ => 1%nat
         | _, _ => 0%nat
         end
    /\ paced evs = true.
Proof.
  destruct (body_general w)
    as (r & recs & evs & p' & Hbody & Hsrc & Hup & Hq & Hs & Hpaced).
  exists (match r with
          | Ok _ => Ok (listings (self w) ++ recs)%list
          | Raise e => if is_Exception e
                       then Ok (listings (self w) ++ recs)%list
                       else Raise e
          end), recs,
    (evs ++ match brought_up env (driver (self w)) with
            | Some _ => [EQuit]
            | None => []
            end)%list, p'.
  split; [| split; [| split; [exact Hsrc | split; [exact Hup | split; [| split]]]]].
  - rewrite (search_of_body _ _ _ _ _ _ Hbody), close_browser_world.
    cbn [self driver listings shown trace].
    destruct (brought_up env (driver (self w))) as [x|];
      destruct r as [[]|e]; cbn [released];
      rewrite <- ?List.app_assoc, ?List.app_nil_r; reflexivity.
  - destruct r as [[]|e]; [now left |].
    destruct (is_Exception e) eqn:He; [now left | right; now exists e].
  - rewrite count_app, Hq.
    destruct (brought_up env (driver (self w))); reflexivity.
  - rewrite count_app, Hs.
    destruct (brought_up env (driver (self w)));
      destruct (driver (self w)); destruct (Selenium.chrome env);
      reflexivity.
  - apply paced_app; [exact Hpaced |].
    destruct (brought_up env (driver (self w))); reflexivity.
Qed.

End General.

Section NextPage.

Import ZillowFSBOScraper.

Variable env : Selenium.browser.

(** X3: [go_to_next_page] answers [True] only after a click on a
    next-page control that went through and the delay of three to six
    seconds that follows it: the browser then shows the following page.
    Whatever it answers, it leaves the listings and the driver of the
    scraper alone. *)
Theorem next_page_true_after_click (w : world) :
  (fst (go_to_next_page env w) = Ok true ->
   snd (go_to_next_page env w) = advance w)
  /\ self (snd (go_to_next_page env w)) = self w.
Proof.
  rewrite next_frame. cbn [fst snd]. split.
  - now intros ->.
  - destruct (next_outcome env (shown w)) as [[|]|e]; reflexivity.
Qed.

(** X4: A labelled next-page control that is disabled ends the pagination:
    the answer is [False] and the numbered pagination controls are not
    looked at. *)
Theorem disabled_next_stops (w : world) (next_button : Selenium.web_element) :
  Selenium.find_element (Selenium.views env (shown w)) "a[title='Next page']"
  = Ok next_button ->
  Selenium.is_enabled next_button = Ok false ->
  go_to_next_page env w = (Ok false, w).
Proof.
  intros Hfind Hen.
  unfold go_to_next_page, try_except, bind, current_view, call, ret.
  now rewrite Hfind, Hen.
Qed.

Lemma fallback_returns (w : world) :
  exists b,
    fst (try_except
           (v <- current_view env ;;
            next_buttons <-
              call (Selenium.find_elements v
                      "li.PaginationNumberItem-c11n-8-84-3__sc-bnmlxt-0 a") ;;
            click_after_active next_buttons 0 next_buttons)
           any_exception (ret false) w) = Ok b.
Proof.
  unfold try_except.
  destruct ((v <- current_view env ;;
             next_buttons <-
               call (Selenium.find_elements v
                       "li.PaginationNumberItem-c11n-8-84-3__sc-bnmlxt-0 a") ;;
             click_after_active next_buttons 0 next_buttons) w)
    as [[b|e] w'].
  - now exists b.
  - now exists false.
Qed.

(** X5: What looking up, testing or clicking the labelled control raises
    leaves [go_to_next_page] with nothing done, unless it is a
    [NoSuchElementException]: that one hands over to the numbered
    pagination controls, and nothing that is raised there gets out, the
    answer is [True] or [False]. *)
Theorem next_page_errors (w : world) (e : exn) :
  primary_raises (Selenium.views env (shown w)) e ->
  if is_NoSuchElementException e
  then exists b, fst (go_to_next_page env w) = Ok b
  else go_to_next_page env w = (Raise e, w).
Proof.
  intros Hraise.
  assert (Hgo : go_to_next_page env w
                = if is_NoSuchElementException e
                  then try_except
                         (v <- current_view env ;;
                          next_buttons <-
                            call (Selenium.find_elements v
                              "li.PaginationNumberItem-c11n-8-84-3__sc-bnmlxt-0 a") ;;
                          click_after_active next_buttons 0 next_buttons)
                         any_exception (ret false) w
                  else (Raise e, w)).
  { unfold go_to_next_page.
    unfold try_except at 1, bind at 1, current_view at 1, bind at 1,
      call at 1.
    destruct Hraise as [-> | (b & -> & [Hen | [Hen Hc]])];
      [reflexivity | |].
    - unfold bind at 1, call at 1. now rewrite Hen.
    - unfold bind at 1, call at 1. rewrite Hen.
      unfold click_next, bind at 1 2, call at 1. now rewrite Hc. }
  rewrite Hgo. destruct (is_NoSuchElementException e); [| reflexivity].
  apply fallback_returns.
Qed.

End NextPage.

Section Fallback.

Import ZillowFSBOScraper.

Variable env : Selenium.browser.

Lemma click_after_active_at (all : list Selenium.web_element) (i : nat)
  (next : Selenium.web_element) (w : world) :
  (forall j b, (j < i)%nat -> all !! j = Some b -> marked_active b false) ->
  (exists b, all !! i = Some b /\ marked_active b true) ->
  all !! (i + 1)%nat = Some next ->
  forall k rest, (k <= i)%nat -> rest = drop k all ->
    click_after_active all k rest w
    = match Selenium.click next with
      | Ok _ => (Ok true, advance w)
      | Raise e => (Raise e, w)
      end.
Proof.
  intros Hpre (a & Ha & (c & Hc & Hact)) Hnext k.
  remember (i - k)%nat as d eqn:Hd. revert k Hd.
  induction d as [|d IH]; intros k Hd rest Hk ->.
  - assert (k = i) as -> by lia.
    rewrite (drop_S all a i Ha). cbn [click_after_active].
    unfold bind at 1, call at 1. rewrite Hc, Hact.
    assert (Hlen : (i + 1 <? length all)%nat = true).
    { apply Nat.ltb_lt. apply lookup_lt_Some in Hnext. exact Hnext. }
    rewrite Hlen, Hnext. cbn [andb].
    unfold click_next, random_delay, bind, call, emit, set_shown, ret.
    destruct (Selenium.click next) as [[]|e]; [| reflexivity].
    cbn. unfold advance. now rewrite <- List.app_assoc.
  - assert (Hlt : (k < i)%nat) by lia.
    destruct (lookup_lt_is_Some_2 all k) as [b Hb].
    { apply lookup_lt_Some in Ha. lia. }
    rewrite (drop_S all b k Hb). cbn [click_after_active].
    destruct (Hpre k b Hlt Hb) as (cb & Hcb & Hin).
    unfold bind at 1, call at 1. rewrite Hcb, Hin. cbn [andb].
    apply (IH (S k)); [lia | lia | reflexivity].
Qed.

(** X6: When there is no labelled next-page control, the control that follows
    the first numbered control whose class contains [active] is clicked:
    the answer is [True] when the click goes through and [False], with
    nothing done, when it raises anything. *)
Theorem fallback_clicks_after_active (w : world)
  (next_buttons : list Selenium.web_element) (i : nat)
  (next : Selenium.web_element) :
  Selenium.find_element (Selenium.views env (shown w)) "a[title='Next page']"
  = Raise NoSuchElementException ->
  Selenium.find_elements (Selenium.views env (shown w))
    "li.PaginationNumberItem-c11n-8-84-3__sc-bnmlxt-0 a" = Ok next_buttons ->
  (forall j b, (j < i)%nat -> next_buttons !! j = Some b ->
     marked_active b false) ->
  (exists b, next_buttons !! i = Some b /\ marked_active b true) ->
  next_buttons !! (i + 1)%nat = Some next ->
  go_to_next_page env w
  = match Selenium.click next with
    | Ok _ => (Ok true, advance w)
    | Raise _ => (Ok false, w)
    end.
Proof.
  intros Hprim Hfind Hpre Hact Hnext.
  unfold go_to_next_page.
  unfold try_except at 1, bind at 1, current_view at 1, bind at 1, call at 1.
  rewrite Hprim. cbn [is_NoSuchElementException].
  unfold try_except, bind at 1, current_view, bind at 1, call at 1.
  rewrite Hfind.
  rewrite (click_after_active_at next_buttons i next w Hpre Hact Hnext
             0%nat next_buttons ltac:(lia) eq_refl).
  destruct (Selenium.click next) as [[]|e]; reflexivity.
Qed.

End Fallback.

Section Captures.

Import Re.

Lemma many1_In (cls : ascii -> bool) (s r : string) :
  In r (many1 cls s) ->
  exists pre, s = (pre ++ r)%string /\ pre <> EmptyString
              /\ PyStr.all cls pre = true.
Proof.
  induction s as [|c s IH]; [intros [] |].
  cbn [many1]. destruct (cls c) eqn:Hc; [| intros []].
  intros H. apply List.in_app_or in H as [H | [<- | []]].
  - destruct (IH H) as (pre & -> & _ & Hall).
    exists (String c pre). split; [reflexivity |].
    split; [discriminate |]. simpl. now rewrite Hc.
  - exists (String c EmptyString). split; [reflexivity |].
    split; [discriminate |]. simpl. now rewrite Hc.
Qed.

Lemma search_sound (p : pattern) (s : string) (m : match_obj) :
  search p s = Some m -> exists s', match_here p s' = Some m.
Proof.
  induction s as [|c s IH]; cbn [search].
  - destruct (match_here p EmptyString) eqn:H; [| discriminate].
    intros [= <-]. now exists EmptyString.
  - destruct (match_here p (String c s)) eqn:H.
    + intros [= <-]. now exists (String c s).
    + exact IH.
Qed.

Lemma tail_no_group (ic : bool) (l s : string) (y : string * option string) :
  In y (matches_at ic (tail_re l) s) -> snd y = None.
Proof.
  unfold tail_re. cbn [matches_at]. intros H.
  apply (proj1 (List.in_flat_map _ _ _)) in H; destruct H as (m1 & H1 & H).
  apply (proj1 (List.in_map_iff _ _ _)) in H; destruct H as (m2 & <- & H2).
  apply (proj1 (List.in_map_iff _ _ _)) in H1; destruct H1 as (r1 & <- & _).
  cbn [fst snd] in *. destruct (eat ic l r1); [| now cbn in H2].
  cbn in H2. destruct H2 as [<- | []]. reflexivity.
Qed.

(** What group 1 holds after a match of a pattern [(g)t] whose tail has no
    group: the text that [g] matched. *)
Lemma group_capture (ic : bool) (g : regex) (l s : string) (m : match_obj) :
  match_here (Compile (Cat (Group g) (tail_re l)) ic) s = Some m ->
  exists m1, In m1 (matches_at ic g s)
             /\ group1 m = Some (consumed s (fst m1)).
Proof.
  unfold match_here. cbn [re_body re_ignorecase].
  destruct (matches_at ic (Cat (Group g) (tail_re l)) s) as [|x xs] eqn:Hm;
    [discriminate |].
  intros [= <-]. cbn [group1].
  assert (Hx : In x (matches_at ic (Cat (Group g) (tail_re l)) s))
    by (rewrite Hm; now left).
  cbn [matches_at] in Hx. fold (tail_re l) in Hx.
  apply (proj1 (List.in_flat_map _ _ _)) in Hx; destruct Hx as (m1 & H1 & Hx).
  apply (proj1 (List.in_map_iff _ _ _)) in Hx; destruct Hx as (m2 & <- & H2).
  apply (proj1 (List.in_map_iff _ _ _)) in H1; destruct H1 as (m0 & <- & H0).
  exists m0. split; [exact H0 |]. cbn [fst snd].
  change (matches_at ic (Cat (Star PyStr.is_space) (Lit l)) (fst m0))
    with (matches_at ic (tail_re l) (fst m0)) in H2.
  now rewrite (tail_no_group _ _ _ _ H2).
Qed.

Lemma number_shape (s : string) (x : string * option string) :
  In x (matches_at false number_re s) ->
  exists i frac, s = (decimal i frac ++ fst x)%string
                 /\ digits i = true /\ frac_ok frac = true.
Proof.
  unfold number_re, frac_re. cbn [matches_at]. intros H.
  apply (proj1 (List.in_flat_map _ _ _)) in H; destruct H as (m1 & H1 & H).
  apply (proj1 (List.in_map_iff _ _ _)) in H; destruct H as (m2 & <- & H2).
  apply (proj1 (List.in_map_iff _ _ _)) in H1; destruct H1 as (r1 & <- & Hr1).
  apply many1_In in Hr1 as (i & -> & Hi & Hall).
  assert (Hdi : digits i = true).
  { unfold digits. rewrite Hall.
    destruct i; [now destruct Hi | reflexivity]. }
  cbn [fst snd] in *.
  apply List.in_app_or in H2 as [H2 | [<- | []]].
  - apply (proj1 (List.in_flat_map _ _ _)) in H2; destruct H2 as (m3 & H3 & H2).
    apply (proj1 (List.in_map_iff _ _ _)) in H2; destruct H2 as (m4 & <- & H4).
    apply (proj1 (List.in_map_iff _ _ _)) in H4; destruct H4 as (r2 & <- & Hr2).
    destruct r1 as [|c r1]; [now cbn in H3 |].
    cbn [eat char_eq] in H3.
    destruct (Ascii.eqb "."%char c) eqn:Hc; [| now cbn in H3].
    apply Ascii.eqb_eq in Hc as <-.
    cbn in H3. destruct H3 as [<- | []]. cbn [fst snd] in *.
    apply many1_In in Hr2 as (f & -> & Hf & Hfall).
    exists i, (Some f). split.
    + unfold decimal. now rewrite !app_assoc_s.
    + split; [exact Hdi |]. unfold frac_ok, digits. rewrite Hfall.
      destruct f; [now destruct Hf | reflexivity].
  - exists i, None. cbn [fst]. now split.
Qed.

End Captures.

Section Fields.

Import Re ZillowFSBOScraper.

Lemma beds_sound (s : string) (m : match_obj) :
  search beds_re s = Some m -> digits (group m) = true.
Proof.
  intros H. apply search_sound in H as (s' & H).
  apply (group_capture false (Plus PyStr.is_digit) "bd") in H
    as (m1 & H1 & Hg).
  cbn [matches_at] in H1. apply (proj1 (List.in_map_iff _ _ _)) in H1; destruct H1 as (r & <- & Hr).
  apply many1_In in Hr as (pre & -> & Hne & Hall).
  unfold group. rewrite Hg. cbn [fst]. rewrite consumed_app.
  unfold digits. rewrite Hall. destruct pre; [now destruct Hne | reflexivity].
Qed.

Lemma baths_sound (s : string) (m : match_obj) :
  search baths_re s = Some m ->
  exists i frac, group m = decimal i frac
                 /\ digits i = true /\ frac_ok frac = true.
Proof.
  intros H. apply search_sound in H as (s' & H).
  apply (group_capture false number_re "ba") in H as (m1 & H1 & Hg).
  apply number_shape in H1 as (i & frac & -> & Hi & Hf).
  exists i, frac. unfold group. rewrite Hg, consumed_app. now split.
Qed.

Lemma replace_no_comma (s : string) :
  PyStr.all is_fig s = true ->
  PyStr.all PyStr.is_digit (PyStr.replace ","%char EmptyString s) = true.
Proof.
  induction s as [|c s IH]; [reflexivity |].
  cbn [PyStr.all PyStr.replace]. intros H. apply andb_prop in H as [Hc H].
  destruct (Ascii.eqb c ","%char) eqn:He.
  - cbn [String.append]. now apply IH.
  - cbn [PyStr.all]. rewrite (IH H), andb_true_r.
    unfold is_fig in Hc. apply orb_prop in Hc as [Hc | Hc]; [exact Hc |].
    unfold PyStr.is_comma in Hc. apply N.eqb_eq in Hc.
    apply Ascii.eqb_neq in He. destruct He.
    unfold PyStr.code in Hc.
    rewrite <- (ascii_N_embedding c), Hc. reflexivity.
Qed.

Lemma sqft_sound (s : string) (m : match_obj) :
  search sqft_re s = Some m ->
  PyStr.all PyStr.is_digit (PyStr.replace ","%char EmptyString (group m))
  = true.
Proof.
  intros H. apply search_sound in H as (s' & H).
  apply (group_capture false (Plus is_fig) "sqft") in H as (m1 & H1 & Hg).
  cbn [matches_at] in H1. apply (proj1 (List.in_map_iff _ _ _)) in H1; destruct H1 as (r & <- & Hr).
  apply many1_In in Hr as (pre & -> & Hne & Hall).
  unfold group. rewrite Hg. cbn [fst]. rewrite consumed_app.
  now apply replace_no_comma.
Qed.

End Fields.

Section Records.

Import ZillowFSBOScraper.

Lemma rstrip_idem (s : string) : PyStr.rstrip (PyStr.rstrip s) = PyStr.rstrip s.
Proof.
  induction s as [|c s IH]; [reflexivity |].
  cbn [PyStr.rstrip].
  destruct (PyStr.rstrip s) as [|c' r] eqn:Hr.
  - destruct (PyStr.is_space c) eqn:Hc; [reflexivity |].
    cbn [PyStr.rstrip]. now rewrite Hc.
  - change (PyStr.rstrip (String c (String c' r)))
      with (match PyStr.rstrip (String c' r) with
            | EmptyString =>
                if PyStr.is_space c then EmptyString
                else String c EmptyString
            | x => String c x
            end).
    now rewrite IH.
Qed.

Lemma rstrip_head (c : ascii) (s : string) :
  PyStr.is_space c = false ->
  exists r, PyStr.rstrip (String c s) = String c r.
Proof.
  intros Hc. cbn [PyStr.rstrip].
  destruct (PyStr.rstrip s) as [|c' r].
  - rewrite Hc. now exists EmptyString.
  - now exists (String c' r).
Qed.

Lemma lstrip_head (s : string) :
  PyStr.lstrip s = EmptyString
  \/ exists c r, PyStr.lstrip s = String c r /\ PyStr.is_space c = false.
Proof.
  induction s as [|c s IH]; [now left |].
  cbn [PyStr.lstrip]. destruct (PyStr.is_space c) eqn:Hc; [exact IH |].
  right. now exists c, s.
Qed.

(** Stripping a stripped text changes nothing. *)
Lemma strip_idem (s : string) : PyStr.strip (PyStr.strip s) = PyStr.strip s.
Proof.
  unfold PyStr.strip.
  destruct (lstrip_head s) as [-> | (c & r & -> & Hc)]; [reflexivity |].
  destruct (rstrip_head c r Hc) as (r' & Hr).
  rewrite Hr. cbn [PyStr.lstrip]. rewrite Hc, <- Hr. apply rstrip_idem.
Qed.

Lemma fields_ok_empty : fields_ok ∅.
Proof. intros k v H. now rewrite lookup_empty in H. Qed.

Lemma fields_ok_insert (key value : string) (l : listing) :
  key <> "source" -> field_ok key value -> fields_ok l ->
  fields_ok (<[key := value]> l).
Proof.
  intros Hk Hv Hl k v H. apply lookup_insert_Some in H as [[<- <-] | [_ H]].
  - now split.
  - now apply Hl.
Qed.

Lemma fields_ok_text (key : string) (e : option Bs4.element) (l : listing) :
  key = "address" \/ key = "price" ->
  fields_ok l -> fields_ok (set_text key e l).
Proof.
  intros Hk Hl. destruct e as [el|]; [| exact Hl]. cbn [set_text].
  apply fields_ok_insert; [| | exact Hl].
  - destruct Hk as [-> | ->]; discriminate.
  - destruct Hk as [-> | ->]; apply strip_idem.
Qed.

Lemma fields_ok_details (details_text : string) (l : listing) :
  fields_ok l -> fields_ok (parse_details details_text l).
Proof.
  intros Hl. unfold parse_details.
  destruct (Re.search sqft_re details_text) as [ms|] eqn:Hs;
    destruct (Re.search baths_re details_text) as [mb|] eqn:Hb;
    destruct (Re.search beds_re details_text) as [md|] eqn:Hd;
    cbn [set_group];
    repeat (apply fields_ok_insert; [discriminate | |]);
    try exact Hl;
    first [ exact (sqft_sound _ _ Hs)
          | exact (baths_sound _ _ Hb)
          | exact (beds_sound _ _ Hd) ].
Qed.

Lemma origin_not_relative (href : string) :
  PyStr.startswith "/" ("https://www.zillow.com" ++ href) = false.
Proof. reflexivity. Qed.

(** The record of a card, before its source is set. *)
Lemma card_record_fields (card : Bs4.card) (r : listing) :
  In r (card_records card) ->
  exists l, r = <["source" := "Zillow FSBO"]> l /\ l <> ∅ /\ fields_ok l.
Proof.
  unfold card_records, card_body, bind, call, ret, append_listing.
  destruct (Bs4.select_one card _) as [fsbo_badge|?]; [| intros []].
  destruct (Bs4.find_string fsbo_re card) as [fsbo_text|?]; [| intros []].
  destruct (truthy_tag fsbo_badge || truthy_string fsbo_text);
    [| intros []].
  destruct (Bs4.select_one card "address") as [address_elem|?];
    [| intros []].
  destruct (Bs4.select_one card "[data-test='property-card-price']")
    as [price_elem|?]; [| intros []].
  destruct (Bs4.select_one card "[data-test='property-card-details']")
    as [details_elem|?]; [| intros []].
  assert (Hdetails : fields_ok
    match details_elem with
    | Some el =>
        parse_details (PyStr.strip (Bs4.text el))
          (set_text "price" price_elem (set_text "address" address_elem ∅))
    | None => set_text "price" price_elem (set_text "address" address_elem ∅)
    end).
  { assert (H0 : fields_ok (set_text "price" price_elem
                              (set_text "address" address_elem ∅))).
    { apply fields_ok_text; [now right |].
      apply fields_ok_text; [now left |]. apply fields_ok_empty. }
    destruct details_elem; [now apply fields_ok_details | exact H0]. }
  destruct (Bs4.select_one card "a[href^='/homedetails']")
    as [[link_elem|]|?]; [| | intros []].
  - destruct (Bs4.get_item (Bs4.attrs link_elem) "href") as [href|?];
      [| intros []].
    destruct (PyStr.startswith "/" href) eqn:Hrel; cbn [fst snd];
      match goal with
      | |- context [bool_decide ?P] => destruct (bool_decide_reflect P)
      end; cbn; [intros [] | | intros [] |];
      intros [<- | []]; eexists; (split; [reflexivity |]);
      (split; [assumption |]);
      (apply fields_ok_insert; [discriminate | | exact Hdetails]).
    + apply origin_not_relative.
    + exact Hrel.
  - cbn [fst snd].
    match goal with
    | |- context [bool_decide ?P] => destruct (bool_decide_reflect P)
    end; cbn; [intros [] |].
    intros [<- | []]. eexists. split; [reflexivity |].
    split; [assumption | exact Hdetails].
Qed.

End Records.

Section RecordTheorems.

Import ZillowFSBOScraper.

Lemma field_ok_key (k v : string) : field_ok k v -> In k record_keys.
Proof.
  unfold field_ok, record_keys.
  destruct (String.eqb_spec k "address") as [-> | _]; [simpl; tauto |].
  destruct (String.eqb_spec k "price") as [-> | _]; [simpl; tauto |].
  destruct (String.eqb_spec k "beds") as [-> | _]; [simpl; tauto |].
  destruct (String.eqb_spec k "baths") as [-> | _]; [simpl; tauto |].
  destruct (String.eqb_spec k "sqft") as [-> | _]; [simpl; tauto |].
  destruct (String.eqb_spec k "url") as [-> | _]; [simpl; tauto |].
  destruct (String.eqb_spec k "source") as [-> | _]; [simpl; tauto |].
  intros [].
Qed.

Lemma page_record_fields (env : Selenium.browser) (p : Z) (r : listing) :
  In r (page_records env p) ->
  exists l, r = <["source" := "Zillow FSBO"]> l /\ l <> ∅ /\ fields_ok l.
Proof.
  rewrite page_records_cards. intros H.
  apply In_cards_records in H as (card & _ & H).
  now apply card_record_fields in H.
Qed.

(** X8: Every record that a page adds has its source set to [Zillow FSBO],
    has at least one field besides the source, and has no field other
    than address, price, beds, baths, sqft, url and source. *)
Theorem record_shape (env : Selenium.browser) (p : Z) (r : listing) :
  In r (page_records env p) ->
  r !! "source" = Some "Zillow FSBO"
  /\ (exists k, k <> "source" /\ is_Some (r !! k))
  /\ (forall k, is_Some (r !! k) -> In k record_keys).
Proof.
  intros H. apply page_record_fields in H as (l & -> & Hne & Hl).
  split; [apply lookup_insert_eq |]. split.
  - apply map_choose in Hne as (k & v & Hk).
    destruct (Hl k v Hk) as [Hsrc _].
    exists k. split; [exact Hsrc |].
    rewrite lookup_insert_ne by congruence. now exists v.
  - intros k [v Hk].
    apply lookup_insert_Some in Hk as [[<- _] | [_ Hk]].
    + unfold record_keys. simpl. tauto.
    + destruct (Hl k v Hk) as [_ Hv]. now apply field_ok_key in Hv.
Qed.

(** X9: The fields of every record that a page adds: address and price have
    no white space around them, beds is a run of digits, baths a run of
    digits with at most one fraction, sqft has digits only (no separator),
    and the url does not start with a slash (relative links are made
    absolute). *)
Theorem record_values (env : Selenium.browser) (p : Z) (r : listing)
  (k v : string) :
  In r (page_records env p) -> r !! k = Some v -> field_ok k v.
Proof.
  intros H Hk. apply page_record_fields in H as (l & -> & _ & Hl).
  apply lookup_insert_Some in Hk as [[<- <-] | [_ Hk]].
  - reflexivity.
  - now destruct (Hl k v Hk).
Qed.

(** X7: [parse_listings_page] lets no [Exception] out: it returns, or raises
    something that is not an [Exception]; it only appends to the listings
    and leaves the driver and the page alone. *)
Theorem parse_page_absorbs_errors (env : Selenium.browser) (w : world) :
  exists recs,
    snd (parse_listings_page env w)
    = add_events (add_records w recs) [EParse]
    /\ match fst (parse_listings_page env w) with
       | Ok _ => True
       | Raise e => is_Exception e = false
       end.
Proof.
  exists (page_records env (shown w)). rewrite parse_frame.
  split; [reflexivity |]. cbn [fst].
  unfold parse_outcome, parse_listings_page, bind at 1, emit, try_except.
  match goal with
  | |- context [let (_, _) := ?m in _] => destruct m as [[[]|e] w']
  end; [exact I |].
  destruct (is_Exception e) eqn:He; [exact I | exact He].
Qed.

End RecordTheorems.

Section Url.

Import ZillowFSBOScraper.

Lemma replace_blank (s : string) :
  PyStr.all not_blank (PyStr.replace " "%char "-" s) = true
  /\ String.length (PyStr.replace " "%char "-" s) = String.length s
  /\ (forall i c, String.get i s = Some c ->
        String.get i (PyStr.replace " "%char "-" s)
        = Some (if Ascii.eqb c " "%char then "-"%char else c)).
Proof.
  induction s as [|c s (IH1 & IH2 & IH3)].
  - repeat split. intros i c H. destruct i; discriminate H.
  - cbn [PyStr.replace PyStr.all].
    destruct (Ascii.eqb c " "%char) eqn:Hc.
    + cbn [String.append PyStr.all String.length].
      rewrite IH1, IH2. repeat split.
      intros [|i] c' H; cbn [String.get] in H |- *.
      * injection H as <-. now rewrite Hc.
      * now apply IH3.
    + cbn [PyStr.all String.length]. unfold not_blank at 1.
      rewrite Hc, IH1, IH2. repeat split.
      intros [|i] c' H; cbn [String.get] in H |- *.
      * injection H as <-. now rewrite Hc.
      * now apply IH3.
Qed.

(** X11: The search URL is the location between the two fixed parts, with
    a hyphen in the place of each blank and every other character left as
    it is, so that the URL holds no blank. *)
Theorem search_url_hyphens (location : string) :
  exists path,
    search_url location
    = "https://www.zillow.com/homes/for_sale/" ++ path ++ "/0_fs/"
    /\ String.length path = String.length location
    /\ (forall i c, String.get i location = Some c ->
          String.get i path
          = Some (if Ascii.eqb c " "%char then "-"%char else c))
    /\ PyStr.all not_blank (search_url location) = true.
Proof.
  destruct (replace_blank location) as (H1 & H2 & H3).
  exists (PyStr.replace " "%char "-" location).
  split; [| split; [exact H2 | split; [exact H3 |]]].
  - unfold search_url. now rewrite app_assoc_s.
  - unfold search_url. rewrite !all_app, H1. reflexivity.
Qed.

End Url.

Section IgnoreCase.

Import Re.

Lemma eat_casefold (l s : string) :
  match eat true l s with Some _ => true | None => false end
  = String.prefix (casefold l) (casefold s).
Proof.
  revert s. induction l as [|p l IH]; intros s.
  - destruct s; reflexivity.
  - destruct s as [|c s]; [reflexivity |].
    cbn [eat casefold String.prefix]. unfold char_eq.
    destruct (ascii_dec (PyStr.lower p) (PyStr.lower c)) as [He | He].
    + rewrite He, Ascii.eqb_refl. apply IH.
    + apply Ascii.eqb_neq in He. now rewrite He.
Qed.

(** X10: On text within Latin-1, the strings of this development, the
    text signal is a substring test that ignores letter case: a text node
    matches exactly when its lower-case form contains
    [for sale by owner]. *)
Theorem fsbo_text_any_case (s : string) :
  match search fsbo_re s with Some _ => true | None => false end
  = PyStr.contains "for sale by owner" (casefold s).
Proof.
  assert (Hhere : forall t,
    match match_here fsbo_re t with Some _ => true | None => false end
    = String.prefix "for sale by owner" (casefold t)).
  { intros t.
    change (String.prefix "for sale by owner" (casefold t))
      with (String.prefix (casefold "For Sale by Owner") (casefold t)).
    rewrite <- (eat_casefold "For Sale by Owner" t).
    unfold match_here, fsbo_re. cbn [re_body re_ignorecase matches_at].
    destruct (eat true "For Sale by Owner" t); reflexivity. }
  induction s as [|c s IH].
  - pose proof (Hhere EmptyString) as H. cbn [search].
    destruct (match_here fsbo_re EmptyString); [discriminate H | reflexivity].
  - cbn [search].
    change (PyStr.contains "for sale by owner" (casefold (String c s)))
      with (String.prefix "for sale by owner" (casefold (String c s))
            || PyStr.contains "for sale by owner" (casefold s)).
    rewrite <- (Hhere (String c s)), <- IH.
    destruct (match_here fsbo_re (String c s)); reflexivity.
Qed.

End IgnoreCase.

Section Timeouts.

Import ZillowFSBOScraper.

Variables (env : Selenium.browser) (max_pages : Z).

Lemma bind_ext {A B} (m m' : Py A) (f g : A -> Py B) (w : world) :
  m w = m' w -> (forall a v, f a v = g a v) -> bind m f w = bind m' g w.
Proof.
  intros Hm Hf. unfold bind. rewrite Hm.
  destruct (m' w) as [[a|e] v]; [apply Hf | reflexivity].
Qed.

Lemma wait_slow (w : world) :
  try_except (v <- current_view (slow env) ;;
              call (Selenium.wait_photo_cards v))
             is_TimeoutException (ret tt) w
  = try_except (v <- current_view env ;; call (Selenium.wait_photo_cards v))
               is_TimeoutException (ret tt) w.
Proof.
  unfold try_except, bind, current_view, call, ret.
  cbn [Selenium.views slow Selenium.wait_photo_cards slow_view].
  destruct (Selenium.wait_photo_cards (Selenium.views env (shown w)))
    as [[]|e]; [reflexivity |].
  destruct (is_TimeoutException e); reflexivity.
Qed.

Lemma for_pages_slow (pages : list Z) (w : world) :
  for_pages (slow env) max_pages pages w = for_pages env max_pages pages w.
Proof.
  revert w. induction pages as [|page rest IH]; intros w; [reflexivity |].
  cbn [for_pages].
  apply bind_ext; [reflexivity |]. intros ? v1.
  apply bind_ext; [reflexivity |]. intros ? v2.
  apply bind_ext; [apply wait_slow |]. intros ? v3.
  apply bind_ext; [reflexivity |]. intros ? v4.
  destruct (page <? max_pages); [| apply IH].
  apply bind_ext; [reflexivity |]. intros [|] v5; [apply IH | reflexivity].
Qed.

(** X12: A wait for the listing container that runs into its timeout changes
    nothing: on a browser whose waits all time out instead of returning,
    a run returns the same, leaves the same state and does the same. *)
Theorem wait_timeout_changes_nothing (location : string) (w : world) :
  search_fsbo_listings (slow env) location max_pages w
  = search_fsbo_listings env location max_pages w.
Proof.
  unfold search_fsbo_listings, try_finally, try_except.
  assert (Hbody : search_body (slow env) location max_pages w
                  = search_body env location max_pages w).
  { unfold search_body.
    do 7 (apply bind_ext; [reflexivity |]; intros ? ?).
    apply bind_ext; [apply for_pages_slow |]. intros ? ?. reflexivity. }
  now rewrite Hbody.
Qed.

End Timeouts.

Section MainLoop.

Import ZillowFSBOScraper.

Variable envs : string -> Selenium.browser.


Lemma for_locations_cons (loc : string) (rest : list string)
  (all : list listing) :
  for_locations envs (loc :: rest) all
  = (listings <- search_fsbo_listings (envs loc) loc 2 ;;
     emit (ESleep 10 20) ;;;
     for_locations envs rest (all ++ listings)%list).
Proof. reflexivity. Qed.


Lemma for_locations_browsers (locs : list string) (all : list listing)
  (w : world) (all' : list listing) (w' : world) :
  for_locations envs locs all w = (Ok all', w') ->
  exists evs,
    trace w' = (trace w ++ evs)%list
    /\ match driver (self w) with
       | Some _ =>
           count is_start evs = 0%nat
           /\ count is_quit evs = length locs
       | None => (count is_start evs <= 1)%nat
       end.
Proof.
  revert all w. induction locs as [|loc rest IH]; intros all w.
  - cbn [for_locations]. unfold ret. intros [= <- <-]. exists [].
    split; [now rewrite List.app_nil_r |].
    destruct (driver (self w)); [split; reflexivity |].
    unfold count. simpl. lia.
  - cbn [for_locations]. unfold bind at 1.
    destruct (search_general (envs loc) loc 2 w)
      as (r & recs & evs & p' & Heq & Hr & _ & _ & Hq & Hs & _).
    rewrite Heq. destruct Hr as [-> | (e & -> & _)]; [| discriminate].
    unfold bind at 1, emit. cbn [self shown trace]. intros H.
    apply IH in H as (evs' & -> & Hrest).
    cbn [self driver trace] in Hrest |- *.
    exists (evs ++ [ESleep 10 20] ++ evs')%list.
    split; [now rewrite <- !List.app_assoc |].
    rewrite !count_app, Hq, Hs.
    change (count is_start [ESleep 10 20]) with 0%nat.
    change (count is_quit [ESleep 10 20]) with 0%nat.
    unfold brought_up, released in *.
    destruct (driver (self w)) as [d|].
    + destruct Hrest as [-> ->]. split; [reflexivity |].
      cbn [length]. lia.
    + destruct (Selenium.chrome (envs loc)) as [[]|e].
      * destruct Hrest as [-> _]. lia.
      * lia.
Qed.


(** X18: [main] starts at most one browser for its three locations, and quits
    it at the end of each of them: when the browser comes up for the first
    location, the runs for the two locations that follow are made on the
    driver that has been quit. *)
Theorem main_starts_one_browser (w : world)
  (rows : option (list listing)) (w' : world) :
  main envs w = (Ok rows, w') ->
  exists evs,
    trace w' = (trace w ++ evs)%list
    /\ (count is_start evs <= 1)%nat
    /\ (Selenium.chrome (envs "New York, NY") = Ok tt ->
        count is_start evs = 1%nat /\ count is_quit evs = 3%nat).
Proof.
  unfold main, bind at 1, new_scraper. unfold bind at 1.
  destruct (for_locations envs locations [] _) as [[all|e] v] eqn:Hloop;
    [| discriminate].
  intros Hrows.
  assert (w' = v) as ->.
  { destruct all; unfold ret in Hrows; now injection Hrows. }
  clear Hrows.
  pose proof (for_locations_browsers _ _ _ _ _ Hloop) as (evs & Htr & Hone).
  cbn [self driver init trace] in Htr, Hone.
  exists evs. split; [exact Htr |]. split; [exact Hone |].
  intros Hchrome.
  unfold locations in Hloop. rewrite for_locations_cons in Hloop.
  unfold bind at 1 in Hloop.
  destruct (search_general (envs "New York, NY") "New York, NY" 2
              {| self := init; shown := shown w; trace := trace w |})
    as (r & recs & evs1 & p' & Heq & Hr & _ & _ & Hq & Hs & _).
  rewrite Heq in Hloop.
  destruct Hr as [-> | (e & -> & _)]; [| discriminate].
  unfold bind at 1, emit in Hloop. cbn [self shown trace] in Hloop.
  apply for_locations_browsers in Hloop as (evs2 & Htr2 & Hrest).
  cbn [self driver init trace] in *.
  unfold brought_up, released in *. rewrite Hchrome in *.
  destruct Hrest as [Hs2 Hq2]. rewrite Htr in Htr2.
  rewrite <- !List.app_assoc in Htr2. apply List.app_inv_head in Htr2.
  subst evs. rewrite !count_app, Hq, Hs, Hs2, Hq2.
  split; reflexivity.
Qed.


End MainLoop.

Section RunTheorems.

Import ZillowFSBOScraper.

Variables (env : Selenium.browser) (location : string).

(** X13: [search_fsbo_listings] lets no [Exception] out: it returns the
    listings that the scraper holds after the run, or raises something
    that is not an [Exception].  The listings held before the run are
    kept, in their order, and what is added after them are records of
    pages of the browser. *)
Theorem search_returns_held_listings (max_pages : Z) (w : world) :
  let out := search_fsbo_listings env location max_pages w in
  (exists recs,
     listings (self (snd out)) = (listings (self w) ++ recs)%list
     /\ Forall (sourced env) recs)
  /\ match fst out with
     | Ok l => l = listings (self (snd out))
     | Raise e => is_Exception e = false
     end.
Proof.
  destruct (search_general env location max_pages w)
    as (r & recs & evs & p' & Heq & Hr & Hsrc & _).
  cbv zeta. rewrite Heq. cbn [fst snd self listings]. split.
  - now exists recs.
  - destruct Hr as [-> | (e & -> & He)]; [reflexivity | exact He].
Qed.

(** X14: With a ceiling of zero pages or less no page is waited for or parsed:
    the browser is brought up, the search page is loaded and the browser
    is quit, and the listings that the scraper holds are returned as they
    are. *)
Theorem no_page_without_ceiling (s : scraper) (max_pages : Z) :
  max_pages <= 0 ->
  startup_ok env s location = true ->
  let out := run env s location max_pages in
  fst out = Ok (listings s)
  /\ listings (self (snd out)) = listings s
  /\ loads (trace (snd out)) = []
  /\ count is_quit (trace (snd out)) = 1%nat.
Proof.
  intros HN Hstart. destruct s as [d l].
  assert (Hloop : acts (for_pages env max_pages (range 1 (max_pages + 1)))
                       1 (Ok tt) [] [] 1).
  { rewrite range_nil by lia. apply acts_ret. }
  destruct (body_exact env location max_pages d l (Ok tt) [] [] 1
              Hstart Hloop) as (pre & Hpre & Hbody).
  cbv zeta. unfold run.
  rewrite (search_of_body _ _ _ _ _ _ (Hbody l)), close_browser_world.
  cbn [fst snd self driver listings trace started].
  rewrite !List.app_nil_r.
  destruct d as [d|]; cbn [started self listings trace];
    (split; [reflexivity |]); (split; [reflexivity |]);
    rewrite loads_app, count_app, (loads_startup _ Hpre),
      (quit_startup _ Hpre); split; reflexivity.
Qed.

End RunTheorems.

Section Pacing.

Import ZillowFSBOScraper.

Variables (env : Selenium.browser) (location : string) (max_pages : Z).

(** X15: Whatever a run does, it pauses after each navigation before it does
    anything else: three to six seconds after the search page is loaded
    and after each click on a next-page control, one to two seconds after
    each popup that it dismisses. *)
Theorem run_pauses_after_actions (w : world) :
  exists evs,
    trace (snd (search_fsbo_listings env location max_pages w))
    = (trace w ++ evs)%list
    /\ paced evs = true.
Proof.
  destruct (search_general env location max_pages w)
    as (r & recs & evs & p' & Heq & _ & _ & _ & _ & _ & Hpaced).
  exists evs. rewrite Heq. now split.
Qed.

(** X2: Popups are looked for once, before the first page: once the page loop
    has begun, no popup is dismissed any more. *)
Theorem popups_only_before_pages (s : scraper) (pre post : list event)
  (q : Z) :
  trace (snd (run env s location max_pages)) = (pre ++ EPage q :: post)%list ->
  ~ In EDismiss post.
Proof.
  destruct s as [d l].
  destruct (run_shape env location max_pages d)
    as (r & recs & pre0 & evs & d' & p' & Hpre & Hevs & _ & _ & Hrun).
  rewrite (Hrun l). cbn [snd trace].
  set (tl := (evs ++ match d' with Some _ => [EQuit] | None => [] end)%list).
  assert (Htl : ~ In EDismiss tl).
  { unfold tl. intros H. apply List.in_app_or in H as [H | H].
    - rewrite List.Forall_forall in Hevs. exact (Hevs _ H).
    - destruct d'; [destruct H as [H | []]; discriminate | destruct H]. }
  intros Heq Hin.
  apply List.app_eq_app in Heq as (mid & [[Hp Hq] | [Hp Hq]]).
  - destruct mid as [|x mid].
    + cbn in Hq. apply Htl. rewrite <- Hq. now right.
    + injection Hq as <- _. rewrite List.Forall_forall in Hpre.
      apply (Hpre (EPage q)). rewrite Hp. apply List.in_or_app. right.
      now left.
  - apply Htl. rewrite Hq. apply List.in_or_app. right. now right.
Qed.

End Pacing.

Section StartUp.

Import ZillowFSBOScraper.

Variables (env : Selenium.browser) (location : string) (max_pages : Z).

(** X16: A browser that comes up but cannot be given its window size is quit
    all the same: the driver is stored before the window is sized, so the
    run loads nothing, quits the browser and returns the listings that the
    scraper holds (or lets through what is not an [Exception]). *)
Theorem window_failure_still_quits (w : world) (e : exn) :
  driver (self w) = None ->
  Selenium.chrome env = Ok tt ->
  Selenium.set_window_size env = Raise e ->
  search_fsbo_listings env location max_pages w
  = (if is_Exception e then Ok (listings (self w)) else Raise e,
     {| self := {| driver := Some HasQuit; listings := listings (self w) |};
        shown := shown w;
        trace := (trace w ++ [EStart; EQuit])%list |}).
Proof.
  intros Hd Hc Hs.
  assert (Hbody : search_body env location max_pages w
                  = (Raise e,
                     {| self := {| driver := Some Running;
                                   listings := listings (self w) |};
                        shown := shown w;
                        trace := (trace w ++ [EStart])%list |})).
  { unfold search_body, bind at 1, get_self. rewrite Hd.
    unfold bind at 1, start_browser, bind at 1, call. rewrite Hc.
    unfold bind at 1, set_driver. cbn [self shown trace listings].
    unfold bind at 1, emit. cbn [self shown trace]. now rewrite Hs. }
  rewrite (search_of_body _ _ _ _ _ _ Hbody), close_browser_world.
  cbn [self driver listings shown trace].
  now rewrite <- List.app_assoc.
Qed.

End StartUp.

(** ** The further properties at concrete inputs *)

Section ExtraInstances.

Import ZillowFSBOScraper Example Cases.

(* An equation between closed terms, by evaluation. *)
Ltac computed :=
  match goal with
  | |- ?a = ?b => exact (@eq_refl _ a <: a = b)
  end.


Lemma next_page_true_after_click_witness :
  snd (go_to_next_page three_pages (blank 1)) = advance (blank 1).
Proof.
  apply (proj1 (next_page_true_after_click three_pages (blank 1))).
  reflexivity.
Defined.

Lemma disabled_next_stops_witness :
  go_to_next_page disabled_next (blank 1) = (Ok false, blank 1).
Proof.
  apply (disabled_next_stops disabled_next (blank 1) disabled_link);
    reflexivity.
Defined.

Lemma next_page_errors_witness :
  go_to_next_page crash_on_two (blank 2)
  = (Raise WebDriverException, blank 2).
Proof.
  exact (next_page_errors crash_on_two (blank 2) WebDriverException
           (or_introl eq_refl)).
Defined.

Lemma fallback_clicks_after_active_witness :
  go_to_next_page numbered_only (blank 1) = (Ok true, advance (blank 1)).
Proof.
  apply (fallback_clicks_after_active numbered_only (blank 1) numbers 1
           (numbered "page")).
  - reflexivity.
  - reflexivity.
  - intros j b Hj Hb. assert (j = 0%nat) as -> by lia.
    injection Hb as <-. exists "page". split; reflexivity.
  - exists (numbered "page active"). split; [reflexivity |].
    exists "page active". split; reflexivity.
  - reflexivity.
Defined.

Lemma record_shape_witness :
  fsbo_record !! "source" = Some "Zillow FSBO"
  /\ (exists k, k <> "source" /\ is_Some (fsbo_record !! k))
  /\ (forall k, is_Some (fsbo_record !! k) -> In k record_keys).
Proof.
  apply (record_shape three_pages 1).
  assert (H : page_records three_pages 1 = [fsbo_record]) by computed.
  rewrite H. now left.
Defined.

Lemma record_values_witness : field_ok "baths" "2".
Proof.
  apply (record_values three_pages 1 fsbo_record).
  - assert (H : page_records three_pages 1 = [fsbo_record]) by computed.
    rewrite H. now left.
  - computed.
Defined.

Lemma search_url_hyphens_witness :
  exists path,
    search_url "New York, NY"
    = "https://www.zillow.com/homes/for_sale/" ++ path ++ "/0_fs/"
    /\ String.get 3 path = Some "-"%char
    /\ String.get 8 path = Some ","%char.
Proof.
  destruct (search_url_hyphens "New York, NY")
    as (path & Hurl & _ & Hget & _).
  exists path. split; [exact Hurl |]. split.
  - apply (Hget 3%nat " "%char). reflexivity.
  - apply (Hget 8%nat ","%char). reflexivity.
Defined.


Lemma main_starts_one_browser_witness :
  exists evs,
    trace (snd (main everywhere (start init))) = ([] ++ evs)%list
    /\ (count is_start evs <= 1)%nat
    /\ (Selenium.chrome two_pages = Ok tt ->
        count is_start evs = 1%nat /\ count is_quit evs = 3%nat).
Proof.
  assert (Hret : fst (main everywhere (start init))
                 = Ok (Some (concat (repeat [fsbo_record; fsbo_record] 6))))
    by computed.
  destruct (main everywhere (start init)) as [[rows|e] w'] eqn:Hmain;
    [| discriminate Hret].
  exact (main_starts_one_browser everywhere (start init) rows w' Hmain).
Defined.


Lemma no_page_without_ceiling_witness :
  let out := run three_pages init "Austin" 0 in
  fst out = Ok []
  /\ listings (self (snd out)) = []
  /\ loads (trace (snd out)) = []
  /\ count is_quit (trace (snd out)) = 1%nat.
Proof.
  apply (no_page_without_ceiling three_pages "Austin" init 0);
    [lia | reflexivity].
Defined.

Lemma popups_only_before_pages_witness :
  ~ In EDismiss [EWait; EParse; EQuit].
Proof.
  apply (popups_only_before_pages popup "Austin" 1 init
           [EStart; EGet (search_url "Austin"); ESleep 3 6;
            EDismiss; ESleep 1 2; EDismiss; ESleep 1 2]
           [EWait; EParse; EQuit] 1).
  computed.
Defined.

Lemma window_failure_still_quits_witness :
  search_fsbo_listings stuck_window "Austin" 3 (start init)
  = (Ok [],
     {| self := {| driver := Some HasQuit; listings := [] |};
        shown := 0; trace := [EStart; EQuit] |}).
Proof.
  apply (window_failure_still_quits stuck_window "Austin" 3 (start init)
           WebDriverException); reflexivity.
Defined.

End ExtraInstances.
